(** * Reverse SOCKS5 proxy client: framing codec, SOCKS5 parser, channel
      state machine and multiplexing session.

    A shallow embedding of
      - ssh-client/src/mux_protocol.cpp   (FrameCodec)
      - ssh-proxy-lib/src/socks5_handler.cpp (namespace Socks5)
      - ssh-client/src/channel.cpp        (Channel)
      - ssh-client/src/mux_session.cpp    (MuxSession)
    followed by the properties established about them.

    Conventions.
      - [uint8_t] is [Byte.byte]; [uint16_t] and [uint32_t] are [Z] with the
        wrap-around of the C++ type written out ([wrap16], [wrap32]);
        [size_t] quantities (lengths, offsets) are [nat].
      - [ByteBuffer] ([std::vector<uint8_t>]) and [std::string] are
        [list byte].
      - A (pointer, length) pair is a list; a pointer that may be null is an
        [option].
      - The calls a [Channel] makes on its session and on its outbound
        TCP connection are returned as an ordered list of [Call]s; the
        session performs them ([MuxSession.perform]).
      - The registry [std::unordered_map<uint16_t, unique_ptr<Channel>>] is
        a [gmap Z Channel]. *)

From Stdlib Require Import ZArith Lia List Bool.
From Stdlib.Strings Require Import Byte.
From stdpp Require Import gmap list.
Import ListNotations.

#[local] Open Scope Z_scope.

(* ===================================================================== *)
(** * Machine integers and bytes                                          *)
(* ===================================================================== *)

Definition ByteBuffer := list byte.

(** Value of a [uint8_t]. *)
Definition u8 (b : byte) : Z := Z.of_N (Byte.to_N b).

(** [static_cast<uint8_t>(z)]. *)
Definition to_u8 (z : Z) : byte :=
  match Byte.of_N (Z.to_N (z mod 256)) with
  | Some b => b
  | None => x00
  end.

Definition wrap16 (z : Z) : Z := z mod 65536.
Definition wrap32 (z : Z) : Z := z mod 4294967296.

(** [data[i]] for a buffer of bytes (only used below the buffer's length). *)
Definition at_ (data : list byte) (i : nat) : byte := nth i data x00.

(** Little-endian layout of a [uint16_t] / [uint32_t] (the target is x86). *)
Definition le16_bytes (z : Z) : list byte :=
  [to_u8 z; to_u8 (z / 256)].

Definition le32_bytes (z : Z) : list byte :=
  [to_u8 z; to_u8 (z / 256); to_u8 (z / 65536); to_u8 (z / 16777216)].

Definition le16_value (b0 b1 : byte) : Z := u8 b0 + 256 * u8 b1.

Definition le32_value (b0 b1 b2 b3 : byte) : Z :=
  u8 b0 + 256 * u8 b1 + 65536 * u8 b2 + 16777216 * u8 b3.

(* ===================================================================== *)
(** * common.h                                                            *)
(* ===================================================================== *)

Inductive ErrorCode :=
| Success | InvalidArgument | OutOfMemory | SocketError | ConnectionReset
| ConnectionRefused | ConnectionTimeout | HostUnreachable
| NetworkUnreachable | DnsResolutionFailed | SslHandshakeFailed
| SslCertificateError | SslEncryptError | SslDecryptError | SslDisconnected
| ProtocolError | BufferTooSmall | ChannelNotFound | ChannelClosed
| WindowExhausted | Socks5AuthFailure | Socks5UnsupportedCommand
| Socks5UnsupportedAddressType
| Shutdown_     (* ErrorCode::Shutdown; [Shutdown] is the session's method *)
| IoIncomplete.

Definition ErrorCode_is_Success (ec : ErrorCode) : bool :=
  match ec with Success => true | _ => false end.

(* ===================================================================== *)
(** * mux_protocol.h / mux_protocol.cpp                                   *)
(* ===================================================================== *)

Inductive FrameType :=
| ChannelOpen | ChannelOpenAck | ChannelRequest | ChannelRequestAck
| Data | ChannelClose | ChannelCloseAck | Ping | Pong | WindowUpdate.

(** [static_cast<uint8_t>(type)]. *)
Definition FrameType_value (t : FrameType) : byte :=
  match t with
  | ChannelOpen => x01 | ChannelOpenAck => x02 | ChannelRequest => x03
  | ChannelRequestAck => x04 | Data => x05 | ChannelClose => x06
  | ChannelCloseAck => x07 | Ping => x08 | Pong => x09
  | WindowUpdate => x0a
  end.

Definition FRAME_FLAG_FIN : byte := x01.
Definition FRAME_FLAG_RST : byte := x02.

Definition FRAME_HEADER_SIZE : nat := 8.
Definition FRAME_MAX_PAYLOAD : Z := 65536.

(** [struct FrameHeader], packed, 8 bytes. *)
Record FrameHeader := mkFrameHeader {
  type : byte;
  flags : byte;
  channel_id : Z;       (* uint16_t *)
  payload_length : Z    (* uint32_t *)
}.

Record Frame := mkFrame {
  header : FrameHeader;
  payload : ByteBuffer
}.

(** [memcpy(&hdr, m_buffer.data(), FRAME_HEADER_SIZE)]. *)
Definition FrameHeader_of_bytes (b : list byte) : FrameHeader :=
  {| type := at_ b 0;
     flags := at_ b 1;
     channel_id := le16_value (at_ b 2) (at_ b 3);
     payload_length := le32_value (at_ b 4) (at_ b 5) (at_ b 6) (at_ b 7) |}.

(** [memcpy(buf.data(), &hdr, FRAME_HEADER_SIZE)]. *)
Definition FrameHeader_bytes (h : FrameHeader) : list byte :=
  [type h; flags h] ++ le16_bytes (channel_id h) ++ le32_bytes (payload_length h).

(** [class FrameCodec].  [m_buffer] is a vector of fixed size
    [FRAME_HEADER_SIZE + FRAME_MAX_PAYLOAD] of which only the first [m_used]
    bytes are ever read; the state kept here is that prefix, so that
    [m_used] is its length. *)
Record FrameCodec := mkFrameCodec {
  m_buffer : list byte
}.

Definition m_used (c : FrameCodec) : nat := length (m_buffer c).

(** [m_buffer.size()]. *)
Definition m_buffer_size : nat :=
  (FRAME_HEADER_SIZE + Z.to_nat FRAME_MAX_PAYLOAD)%nat.

(** [FrameCodec::FrameCodec()]. *)
Definition FrameCodec_new : FrameCodec := {| m_buffer := [] |}.

(** How the inner loop of [Feed] was left: by [break] (or by its condition
    failing), or by the [return] of the oversized-payload branch. *)
Inductive ParseExit := NeedMore | TooLarge.

(** The inner loop of [Feed], [while (m_used >= FRAME_HEADER_SIZE)], on the
    accumulated bytes [buf].  Every iteration removes at least
    [FRAME_HEADER_SIZE] bytes, so [fuel = length buf] iterations are never
    exhausted (see [parse_frames_eq]). *)
Fixpoint parse_frames_loop (fuel : nat) (buf : list byte) (out_frames : list Frame)
  : ParseExit * list byte * list Frame :=
  if (length buf <? FRAME_HEADER_SIZE)%nat then (NeedMore, buf, out_frames)
  else
    let hdr := FrameHeader_of_bytes buf in
    if FRAME_MAX_PAYLOAD <? payload_length hdr then
      (TooLarge, buf, out_frames)
    else
      let total := (FRAME_HEADER_SIZE + Z.to_nat (payload_length hdr))%nat in
      if (length buf <? total)%nat then (NeedMore, buf, out_frames)
      else
        let frame :=
          {| header := hdr;
             payload := take (Z.to_nat (payload_length hdr))
                             (drop FRAME_HEADER_SIZE buf) |} in
        match fuel with
        | O => (NeedMore, buf, out_frames)
        | S fuel' =>
            parse_frames_loop fuel' (drop total buf) (out_frames ++ [frame])
        end.

Definition parse_frames (buf : list byte) (out_frames : list Frame)
  : ParseExit * list byte * list Frame :=
  parse_frames_loop (length buf) buf out_frames.

(** The outer loop of [Feed], [while (offset < len)], on the bytes of the
    input not yet copied.  An iteration that copies nothing happens at most
    once (with a full buffer, from which a frame is then taken), so
    [fuel = S (length data)] iterations are never exhausted (see
    [Feed_eq]). *)
Fixpoint Feed_loop (fuel : nat) (c : FrameCodec) (data : list byte)
    (out_frames : list Frame) : FrameCodec * list Frame :=
  match data with
  | [] => (c, out_frames)
  | _ :: _ =>
      match fuel with
      | O => (c, out_frames)
      | S fuel' =>
          let avail := length data in
          let space := (m_buffer_size - m_used c)%nat in
          let to_copy := Nat.min avail space in
          let buf := m_buffer c ++ take to_copy data in
          match parse_frames buf out_frames with
          | (TooLarge, _, out_frames') =>
              ({| m_buffer := [] |}, out_frames')
          | (NeedMore, rest, out_frames') =>
              Feed_loop fuel' {| m_buffer := rest |} (drop to_copy data) out_frames'
          end
      end
  end.

(** [FrameCodec::Feed(data, len, out_frames)]. *)
Definition Feed (c : FrameCodec) (data : list byte) (out_frames : list Frame)
  : FrameCodec * list Frame :=
  Feed_loop (S (length data)) c data out_frames.

(** [FrameCodec::Encode(type, flags, channel_id, payload, payload_len)];
    [payload] is [None] for a null pointer.  The buffer is created
    zero-filled with [FRAME_HEADER_SIZE + payload_len] bytes, and
    [payload_len] bytes of the payload are copied when
    [payload_len > 0 && payload].  Every caller passes a payload that has
    at least [payload_len] bytes; for a shorter one the bytes that the copy
    would read past its end are left zero here. *)
Definition Encode (t : FrameType) (fl : byte) (cid : Z)
    (payload : option (list byte)) (payload_len : Z) : ByteBuffer :=
  let hdr := {| type := FrameType_value t; flags := fl;
                channel_id := cid; payload_length := payload_len |} in
  let n := Z.to_nat payload_len in
  FrameHeader_bytes hdr ++
  match payload with
  | Some p => if 0 <? payload_len then take n p ++ replicate (n - length p) x00
              else replicate n x00
  | None => replicate n x00
  end.

Definition BuildChannelOpen (cid : Z) : ByteBuffer :=
  Encode ChannelOpen x00 cid None 0.
Definition BuildChannelOpenAck (cid : Z) : ByteBuffer :=
  Encode ChannelOpenAck x00 cid None 0.
Definition BuildChannelRequest (cid : Z) (data : list byte) (len : Z) : ByteBuffer :=
  Encode ChannelRequest x00 cid (Some data) len.
Definition BuildChannelRequestAck (cid : Z) (data : list byte) (len : Z) : ByteBuffer :=
  Encode ChannelRequestAck x00 cid (Some data) len.
Definition BuildData (cid : Z) (data : list byte) (len : Z) : ByteBuffer :=
  Encode Data x00 cid (Some data) len.
Definition BuildChannelClose (cid : Z) (fl : byte) : ByteBuffer :=
  Encode ChannelClose fl cid None 0.
Definition BuildChannelCloseAck (cid : Z) : ByteBuffer :=
  Encode ChannelCloseAck x00 cid None 0.
Definition BuildPing : ByteBuffer := Encode Ping x00 0 None 0.
Definition BuildPong : ByteBuffer := Encode Pong x00 0 None 0.
Definition BuildWindowUpdate (cid : Z) (increment : Z) : ByteBuffer :=
  Encode WindowUpdate x00 cid (Some (le32_bytes increment)) 4.

(* ===================================================================== *)
(** * socks5_handler.h / socks5_handler.cpp                               *)
(* ===================================================================== *)

Module Socks5.

Definition VERSION : byte := x05.

Definition AUTH_NONE : byte := x00.
Definition AUTH_NO_ACCEPTABLE : byte := xff.

Definition CMD_CONNECT : byte := x01.

Definition ATYP_IPV4 : byte := x01.
Definition ATYP_DOMAIN : byte := x03.
Definition ATYP_IPV6 : byte := x04.

Definition REP_SUCCESS : byte := x00.
Definition REP_GENERAL_FAILURE : byte := x01.
Definition REP_CONNECTION_NOT_ALLOWED : byte := x02.
Definition REP_NETWORK_UNREACHABLE : byte := x03.
Definition REP_HOST_UNREACHABLE : byte := x04.
Definition REP_CONNECTION_REFUSED : byte := x05.
Definition REP_TTL_EXPIRED : byte := x06.
Definition REP_COMMAND_NOT_SUPPORTED : byte := x07.
Definition REP_ADDRESS_TYPE_NOT_SUPPORTED : byte := x08.

(** [struct ConnectRequest]. *)
Record ConnectRequest := mkConnectRequest {
  atyp : byte;
  host : list byte;     (* std::string *)
  ipv4 : list byte;     (* uint8_t[4] *)
  ipv6 : list byte;     (* uint8_t[16] *)
  port : Z              (* uint16_t *)
}.

(** A value-initialised request ([ConnectRequest req{}]). *)
Definition ConnectRequest_zero : ConnectRequest :=
  {| atyp := x00; host := []; ipv4 := replicate 4 x00;
     ipv6 := replicate 16 x00; port := 0 |}.

(** [ParseMethodRequest(data, len, supports_no_auth)]: the return value and
    the final value of the out-parameter, which is reset on entry. *)
Definition ParseMethodRequest (data : list byte) : Z * bool :=
  let len := length data in
  if (len <? 2)%nat then (0, false)
  else if negb (Byte.eqb (at_ data 0) VERSION) then (-1, false)
  else
    let nmethods := Z.to_nat (u8 (at_ data 1)) in
    let total := (2 + nmethods)%nat in
    if (len <? total)%nat then (0, false)
    else
      (Z.of_nat total,
       existsb (fun m => Byte.eqb m AUTH_NONE) (take nmethods (drop 2 data))).

(** [BuildMethodResponse(method)]. *)
Definition BuildMethodResponse (method : byte) : ByteBuffer :=
  [VERSION; method].

(** One decimal digit, one lower-case hexadecimal digit. *)
Definition dec_digit (d : Z) : byte := to_u8 (48 + d).
Definition hex_digit (d : Z) : byte :=
  if d <? 10 then to_u8 (48 + d) else to_u8 (87 + d).

(** [sprintf("%u", b)] for a byte. *)
Definition fmt_u (b : byte) : list byte :=
  let n := u8 b in
  if n <? 10 then [dec_digit n]
  else if n <? 100 then [dec_digit (n / 10); dec_digit (n mod 10)]
  else [dec_digit (n / 100); dec_digit (n / 10 mod 10); dec_digit (n mod 10)].

(** [sprintf("%02x", b)] for a byte. *)
Definition fmt_02x (b : byte) : list byte :=
  [hex_digit (u8 b / 16); hex_digit (u8 b mod 16)].

Definition dot : byte := x2e.
Definition colon : byte := x3a.

(** ["%u.%u.%u.%u"] on the four address bytes. *)
Definition fmt_ipv4 (a : list byte) : list byte :=
  fmt_u (at_ a 0) ++ [dot] ++ fmt_u (at_ a 1) ++ [dot] ++
  fmt_u (at_ a 2) ++ [dot] ++ fmt_u (at_ a 3).

(** ["%02x%02x:%02x%02x:..."] on the sixteen address bytes. *)
Definition fmt_group (a : list byte) (i : nat) : list byte :=
  fmt_02x (at_ a (2 * i)) ++ fmt_02x (at_ a (2 * i + 1)).

Definition fmt_ipv6 (a : list byte) : list byte :=
  fmt_group a 0 ++ [colon] ++ fmt_group a 1 ++ [colon] ++
  fmt_group a 2 ++ [colon] ++ fmt_group a 3 ++ [colon] ++
  fmt_group a 4 ++ [colon] ++ fmt_group a 5 ++ [colon] ++
  fmt_group a 6 ++ [colon] ++ fmt_group a 7.

(** [ParseConnectRequest(data, len, out)]: the return value and the final
    value of [out].  [out.atyp] is written before the length checks, so a
    call that returns 0 or -1 may already have changed it. *)
Definition ParseConnectRequest (data : list byte) (out : ConnectRequest)
  : Z * ConnectRequest :=
  let len := length data in
  if (len <? 4)%nat then (0, out)
  else if negb (Byte.eqb (at_ data 0) VERSION) then (-1, out)
  else
    let cmd := at_ data 1 in
    let atyp_ := at_ data 3 in
    let out := {| atyp := atyp_; host := host out; ipv4 := ipv4 out;
                  ipv6 := ipv6 out; port := port out |} in
    let addr_start := 4%nat in
    (* switch (atyp): [inl r] is a [return r] from inside the switch *)
    let addr_len : Z + nat :=
      if Byte.eqb atyp_ ATYP_IPV4 then inr 4%nat
      else if Byte.eqb atyp_ ATYP_DOMAIN then
        if (len <? 5)%nat then inl 0
        else inr (1 + Z.to_nat (u8 (at_ data 4)))%nat
      else if Byte.eqb atyp_ ATYP_IPV6 then inr 16%nat
      else inl (-1) in
    match addr_len with
    | inl r => (r, out)
    | inr addr_len =>
        let total := (addr_start + addr_len + 2)%nat in
        if (len <? total)%nat then (0, out)
        else
          let out :=
            if Byte.eqb atyp_ ATYP_IPV4 then
              let a := take 4 (drop addr_start data) in
              {| atyp := atyp out; host := fmt_ipv4 a; ipv4 := a;
                 ipv6 := ipv6 out; port := port out |}
            else if Byte.eqb atyp_ ATYP_DOMAIN then
              let domain_len := Z.to_nat (u8 (at_ data addr_start)) in
              {| atyp := atyp out;
                 host := take domain_len (drop (addr_start + 1) data);
                 ipv4 := ipv4 out; ipv6 := ipv6 out; port := port out |}
            else if Byte.eqb atyp_ ATYP_IPV6 then
              let a := take 16 (drop addr_start data) in
              {| atyp := atyp out; host := fmt_ipv6 a; ipv4 := ipv4 out;
                 ipv6 := a; port := port out |}
            else out in
          let port_offset := (addr_start + addr_len)%nat in
          let out :=
            {| atyp := atyp out; host := host out; ipv4 := ipv4 out;
               ipv6 := ipv6 out;
               port := wrap16 (Z.lor (Z.shiftl (u8 (at_ data port_offset)) 8)
                                    (u8 (at_ data (port_offset + 1)))) |} in
          if negb (Byte.eqb cmd CMD_CONNECT) then (Z.of_nat total, out)
          else (Z.of_nat total, out)
    end.

(** [BuildConnectReply(reply_code, atyp, bind_addr, bind_port)];
    [bind_addr] is [None] for a null pointer. *)
Definition BuildConnectReply (reply_code : byte) (atyp_ : byte)
    (bind_addr : option (list byte)) (bind_port : Z) : ByteBuffer :=
  [VERSION; reply_code; x00] ++
  (if Byte.eqb atyp_ ATYP_IPV4 then
     [ATYP_IPV4] ++
     match bind_addr with
     | Some a => take 4 a
     | None => replicate 4 x00
     end
   else if Byte.eqb atyp_ ATYP_IPV6 then
     [ATYP_IPV6] ++
     match bind_addr with
     | Some a => take 16 a
     | None => replicate 16 x00
     end
   else [ATYP_IPV4] ++ replicate 4 x00) ++
  [to_u8 (Z.shiftr bind_port 8); to_u8 (Z.land bind_port 255)].

(** The call with all defaults, [BuildConnectReply(reply_code)]. *)
Definition BuildConnectReply_default (reply_code : byte) : ByteBuffer :=
  BuildConnectReply reply_code ATYP_IPV4 None 0.

(** [ErrorCodeToSocks5Reply(ec)]. *)
Definition ErrorCodeToSocks5Reply (ec : ErrorCode) : byte :=
  match ec with
  | Success => REP_SUCCESS
  | NetworkUnreachable => REP_NETWORK_UNREACHABLE
  | HostUnreachable => REP_HOST_UNREACHABLE
  | ConnectionRefused => REP_CONNECTION_REFUSED
  | ConnectionTimeout => REP_TTL_EXPIRED
  | _ => REP_GENERAL_FAILURE
  end.

End Socks5.

(* ===================================================================== *)
(** * channel.h / channel.cpp                                             *)
(* ===================================================================== *)

Inductive ChannelState :=
| Opening | Requesting | Connecting | Relaying | Closing | Closed.

Definition ChannelState_eqb (a b : ChannelState) : bool :=
  match a, b with
  | Opening, Opening | Requesting, Requesting | Connecting, Connecting
  | Relaying, Relaying | Closing, Closing | Closed, Closed => true
  | _, _ => false
  end.

(** The outbound connection object a channel owns through [m_target].  Its
    socket and queues belong to the asynchronous I/O layer; the channel only
    tests the pointer and calls its methods, which are recorded as [Call]s. *)
Inductive TcpConnection := TcpConnection_new.

(** What a channel asks of its collaborators, in program order: the send
    helpers of [MuxSession] (through [m_session]) and the methods of
    [TcpConnection] (through [m_target]).  [TargetDelete] is the destruction
    of the owned connection ([m_target.reset()] or the member's destructor),
    whose destructor closes it. *)
Inductive Call :=
| SendChannelOpenAck (cid : Z)
| SendChannelRequestAck (cid : Z) (data : list byte) (len : Z)
| SendData (cid : Z) (data : list byte) (len : Z)
| SendChannelClose (cid : Z) (fl : byte)
| SendChannelCloseAck (cid : Z)
| SendWindowUpdate (cid : Z) (increment : Z)
| TargetConnectAsync (host : list byte) (port : Z)
| TargetStartReading
| TargetSend (data : list byte)
| TargetClose
| TargetDelete.

Record Channel := mkChannel {
  m_id : Z;                                 (* uint16_t *)
  m_state : ChannelState;
  m_socks5_buf : ByteBuffer;
  m_method_done : bool;
  m_connect_req : Socks5.ConnectRequest;
  m_target : option TcpConnection;          (* unique_ptr, None = null *)
  m_send_window : Z;                        (* uint32_t *)
  m_recv_window : Z;                        (* uint32_t *)
  m_recv_window_initial : Z;                (* uint32_t *)
  m_recv_consumed : Z                       (* uint32_t *)
}.

Definition set_state (c : Channel) (st : ChannelState) : Channel :=
  mkChannel (m_id c) st (m_socks5_buf c) (m_method_done c) (m_connect_req c)
    (m_target c) (m_send_window c) (m_recv_window c) (m_recv_window_initial c)
    (m_recv_consumed c).

Definition set_socks5_buf (c : Channel) (b : ByteBuffer) : Channel :=
  mkChannel (m_id c) (m_state c) b (m_method_done c) (m_connect_req c)
    (m_target c) (m_send_window c) (m_recv_window c) (m_recv_window_initial c)
    (m_recv_consumed c).

Definition set_method_done (c : Channel) (d : bool) : Channel :=
  mkChannel (m_id c) (m_state c) (m_socks5_buf c) d (m_connect_req c)
    (m_target c) (m_send_window c) (m_recv_window c) (m_recv_window_initial c)
    (m_recv_consumed c).

Definition set_connect_req (c : Channel) (r : Socks5.ConnectRequest) : Channel :=
  mkChannel (m_id c) (m_state c) (m_socks5_buf c) (m_method_done c) r
    (m_target c) (m_send_window c) (m_recv_window c) (m_recv_window_initial c)
    (m_recv_consumed c).

Definition set_target (c : Channel) (t : option TcpConnection) : Channel :=
  mkChannel (m_id c) (m_state c) (m_socks5_buf c) (m_method_done c)
    (m_connect_req c) t (m_send_window c) (m_recv_window c)
    (m_recv_window_initial c) (m_recv_consumed c).

Definition set_send_window (c : Channel) (w : Z) : Channel :=
  mkChannel (m_id c) (m_state c) (m_socks5_buf c) (m_method_done c)
    (m_connect_req c) (m_target c) w (m_recv_window c)
    (m_recv_window_initial c) (m_recv_consumed c).

Definition set_recv_window (c : Channel) (w : Z) : Channel :=
  mkChannel (m_id c) (m_state c) (m_socks5_buf c) (m_method_done c)
    (m_connect_req c) (m_target c) (m_send_window c) w
    (m_recv_window_initial c) (m_recv_consumed c).

Definition set_recv_consumed (c : Channel) (n : Z) : Channel :=
  mkChannel (m_id c) (m_state c) (m_socks5_buf c) (m_method_done c)
    (m_connect_req c) (m_target c) (m_send_window c) (m_recv_window c)
    (m_recv_window_initial c) n.

(** [Channel::Channel(id, session, window_size)].  [m_connect_req] is left
    default-initialised by the constructor and is not read before
    [ParseConnectRequest] has written it. *)
Definition Channel_new (id : Z) (window_size : Z) : Channel :=
  {| m_id := id;
     m_state := Opening;
     m_socks5_buf := [];
     m_method_done := false;
     m_connect_req := Socks5.ConnectRequest_zero;
     m_target := None;
     m_send_window := window_size;
     m_recv_window := window_size;
     m_recv_window_initial := window_size;
     m_recv_consumed := 0 |}.

(** [static_cast<uint32_t>(buf.size())]. *)
Definition size32 (b : list byte) : Z := wrap32 (Z.of_nat (length b)).

(** [Channel::SendCloseToMux(flags)]. *)
Definition SendCloseToMux (c : Channel) (fl : byte) : list Call :=
  [SendChannelClose (m_id c) fl].

(** [Channel::ForceClose()]. *)
Definition ForceClose (c : Channel) : Channel * list Call :=
  if ChannelState_eqb (m_state c) Closed then (c, [])
  else
    let '(c, calls) :=
      match m_target c with
      | Some _ => (set_target c None, [TargetClose; TargetDelete])
      | None => (c, [])
      end in
    (set_state c Closed, calls).

(** [Channel::~Channel()]: [ForceClose()], then the members are destroyed,
    among them [m_target]. *)
Definition Channel_delete (c : Channel) : list Call :=
  let '(c, calls) := ForceClose c in
  calls ++ match m_target c with Some _ => [TargetDelete] | None => [] end.

(** [Channel::OnOpen()]. *)
Definition OnOpen (c : Channel) : Channel * list Call :=
  let c := set_state c Opening in
  let calls := [SendChannelOpenAck (m_id c)] in
  (set_state c Requesting, calls).

(** [Channel::OnTargetConnected(ec)]. *)
Definition OnTargetConnected (c : Channel) (ec : ErrorCode) : Channel * list Call :=
  if negb (ChannelState_eqb (m_state c) Connecting) then (c, [])
  else if negb (ErrorCode_is_Success ec) then
    let reply_code := Socks5.ErrorCodeToSocks5Reply ec in
    let reply := Socks5.BuildConnectReply_default reply_code in
    let calls := [SendChannelRequestAck (m_id c) reply (size32 reply)]
                 ++ SendCloseToMux c FRAME_FLAG_RST in
    let c := set_state c Closed in
    let calls := calls ++ match m_target c with
                          | Some _ => [TargetDelete]
                          | None => []
                          end in
    (set_target c None, calls)
  else
    let reply := Socks5.BuildConnectReply_default Socks5.REP_SUCCESS in
    let calls := [SendChannelRequestAck (m_id c) reply (size32 reply)] in
    let c := set_state c Relaying in
    (c, calls ++ [TargetStartReading]).

(** [Channel::ProcessSocks5()].  [connect_async host port] is what
    [TcpConnection::ConnectAsync] returns at once (name resolution, socket
    creation and the start of the connect), which the environment decides. *)
Definition ProcessSocks5 (connect_async : list byte -> Z -> ErrorCode)
    (c : Channel) : Channel * list Call :=
  let method_phase : (Channel * list Call) + (Channel * list Call) :=
    (* [inl] : returned from inside the block; [inr] : fell through *)
    if negb (m_method_done c) then
      let '(consumed, supports_no_auth) :=
        Socks5.ParseMethodRequest (m_socks5_buf c) in
      if consumed =? 0 then inl (c, [])
      else if (consumed <? 0) || negb supports_no_auth then
        let resp := Socks5.BuildMethodResponse Socks5.AUTH_NO_ACCEPTABLE in
        let calls := [SendChannelRequestAck (m_id c) resp (size32 resp)]
                     ++ SendCloseToMux c FRAME_FLAG_RST in
        inl (set_state c Closed, calls)
      else
        let resp := Socks5.BuildMethodResponse Socks5.AUTH_NONE in
        let calls := [SendChannelRequestAck (m_id c) resp (size32 resp)] in
        let c := set_socks5_buf c (drop (Z.to_nat consumed) (m_socks5_buf c)) in
        inr (set_method_done c true, calls)
    else inr (c, []) in
  match method_phase with
  | inl r => r
  | inr (c, calls) =>
      if (length (m_socks5_buf c) =? 0)%nat then (c, calls)
      else
        let '(consumed, req) :=
          Socks5.ParseConnectRequest (m_socks5_buf c) (m_connect_req c) in
        let c := set_connect_req c req in
        if consumed =? 0 then (c, calls)
        else if consumed <? 0 then
          let reply := Socks5.BuildConnectReply_default Socks5.REP_GENERAL_FAILURE in
          let calls := calls ++ [SendChannelRequestAck (m_id c) reply (size32 reply)]
                       ++ SendCloseToMux c FRAME_FLAG_RST in
          (set_state c Closed, calls)
        else
          let c := set_socks5_buf c (drop (Z.to_nat consumed) (m_socks5_buf c)) in
          let c := set_state c Connecting in
          (* m_target = make_unique<TcpConnection>() destroys a connection
             still owned *)
          let calls := calls ++ match m_target c with
                                | Some _ => [TargetDelete]
                                | None => []
                                end in
          let c := set_target c (Some TcpConnection_new) in
          let host := Socks5.host (m_connect_req c) in
          let port := Socks5.port (m_connect_req c) in
          let ec := connect_async host port in
          let calls := calls ++ [TargetConnectAsync host port] in
          if negb (ErrorCode_is_Success ec) then
            let '(c, calls') := OnTargetConnected c ec in
            (c, calls ++ calls')
          else (c, calls)
  end.

(** [Channel::OnRequest(data, len)]. *)
Definition OnRequest (connect_async : list byte -> Z -> ErrorCode)
    (c : Channel) (data : list byte) : Channel * list Call :=
  if negb (ChannelState_eqb (m_state c) Requesting) then (c, [])
  else
    let c := set_socks5_buf c (m_socks5_buf c ++ data) in
    ProcessSocks5 connect_async c.

(** [Channel::OnData(data, len)]. *)
Definition OnData (c : Channel) (data : list byte) : Channel * list Call :=
  if negb (ChannelState_eqb (m_state c) Relaying) then (c, [])
  else
    let c := set_recv_consumed c (wrap32 (m_recv_consumed c + size32 data)) in
    let calls := match m_target c with
                 | Some _ => [TargetSend data]
                 | None => []
                 end in
    if m_recv_window_initial c / 2 <=? m_recv_consumed c then
      let calls := calls ++ [SendWindowUpdate (m_id c) (m_recv_consumed c)] in
      let c := set_recv_window c (wrap32 (m_recv_window c + m_recv_consumed c)) in
      (set_recv_consumed c 0, calls)
    else (c, calls).

(** [Channel::OnWindowUpdate(increment)]. *)
Definition OnWindowUpdate (c : Channel) (increment : Z) : Channel * list Call :=
  (set_send_window c (wrap32 (m_send_window c + increment)), []).

(** [Channel::OnClose(flags)]. *)
Definition OnClose (c : Channel) (fl : byte) : Channel * list Call :=
  let calls := [SendChannelCloseAck (m_id c)] in
  let '(c, calls) :=
    match m_target c with
    | Some _ => (set_target c None, calls ++ [TargetClose; TargetDelete])
    | None => (c, calls)
    end in
  (set_state c Closed, calls).

(** The loop of [Channel::SendToMux], [while (offset < len)], on the bytes
    from [data + offset] on.  A chunk is never empty, so [fuel = length rest]
    iterations are never exhausted (see [SendToMux_loop_fuel]). *)
Fixpoint SendToMux_loop (fuel : nat) (id : Z) (send_window : Z)
    (rest : list byte) : Z * list Call :=
  match rest with
  | [] => (send_window, [])
  | _ :: _ =>
      match fuel with
      | O => (send_window, [])
      | S fuel' =>
          let chunk := wrap32 (Z.min (Z.of_nat (length rest)) FRAME_MAX_PAYLOAD) in
          let '(chunk, send_window) :=
            if 0 <? send_window then
              let chunk := Z.min chunk send_window in
              (chunk, wrap32 (send_window - chunk))
            else (chunk, send_window) in
          let call := SendData id rest chunk in
          let '(w, calls) :=
            SendToMux_loop fuel' id send_window (drop (Z.to_nat chunk) rest) in
          (w, call :: calls)
      end
  end.

(** [Channel::SendToMux(data, len)]. *)
Definition SendToMux (c : Channel) (data : list byte) : Channel * list Call :=
  let '(w, calls) := SendToMux_loop (length data) (m_id c) (m_send_window c) data in
  (set_send_window c w, calls).

(** [Channel::OnTargetData(data, len)]. *)
Definition OnTargetData (c : Channel) (data : list byte) : Channel * list Call :=
  if negb (ChannelState_eqb (m_state c) Relaying) then (c, [])
  else SendToMux c data.

(** [Channel::OnTargetDisconnected(ec)]. *)
Definition OnTargetDisconnected (c : Channel) (ec : ErrorCode) : Channel * list Call :=
  let '(c, calls) :=
    if ChannelState_eqb (m_state c) Relaying
       || ChannelState_eqb (m_state c) Connecting then
      (set_state c Closing, SendCloseToMux c FRAME_FLAG_FIN)
    else (c, []) in
  (c, calls ++ match m_target c with Some _ => [TargetClose] | None => [] end).

(* ===================================================================== *)
(** * mux_session.h / mux_session.cpp                                     *)
(* ===================================================================== *)

(** The transport the session points to.  The session only calls
    [SslTransport::Send]; [sent] lists the buffers it was given, oldest
    first. *)
Record SslTransport := mkSslTransport {
  sent : list ByteBuffer
}.

(** [class MuxSession].  Two fields record what leaves the session for
    objects it does not own the state of: [target_calls], the calls made on
    the outbound connections (with the id of the owning channel), and
    [disconnect_calls], the invocations of [m_on_disconnect]. *)
Record MuxSession := mkMuxSession {
  m_transport : option SslTransport;        (* SslTransport*, None = null *)
  m_channel_window_size : Z;                (* uint32_t *)
  m_keepalive_ms : Z;                       (* int *)
  m_codec : FrameCodec;
  m_channels : gmap Z Channel;
  m_on_disconnect : bool;                   (* a callback is installed *)
  m_running : bool;
  m_keepalive_timer : bool;                 (* HANDLE, false = nullptr *)
  target_calls : list (Z * Call);
  disconnect_calls : list ErrorCode
}.

Definition set_transport (s : MuxSession) (t : option SslTransport) : MuxSession :=
  mkMuxSession t (m_channel_window_size s) (m_keepalive_ms s) (m_codec s)
    (m_channels s) (m_on_disconnect s) (m_running s) (m_keepalive_timer s)
    (target_calls s) (disconnect_calls s).

Definition set_codec (s : MuxSession) (c : FrameCodec) : MuxSession :=
  mkMuxSession (m_transport s) (m_channel_window_size s) (m_keepalive_ms s) c
    (m_channels s) (m_on_disconnect s) (m_running s) (m_keepalive_timer s)
    (target_calls s) (disconnect_calls s).

Definition set_channels (s : MuxSession) (m : gmap Z Channel) : MuxSession :=
  mkMuxSession (m_transport s) (m_channel_window_size s) (m_keepalive_ms s)
    (m_codec s) m (m_on_disconnect s) (m_running s) (m_keepalive_timer s)
    (target_calls s) (disconnect_calls s).

Definition set_on_disconnect (s : MuxSession) (b : bool) : MuxSession :=
  mkMuxSession (m_transport s) (m_channel_window_size s) (m_keepalive_ms s)
    (m_codec s) (m_channels s) b (m_running s) (m_keepalive_timer s)
    (target_calls s) (disconnect_calls s).

Definition set_running (s : MuxSession) (b : bool) : MuxSession :=
  mkMuxSession (m_transport s) (m_channel_window_size s) (m_keepalive_ms s)
    (m_codec s) (m_channels s) (m_on_disconnect s) b (m_keepalive_timer s)
    (target_calls s) (disconnect_calls s).

Definition set_keepalive_timer (s : MuxSession) (b : bool) : MuxSession :=
  mkMuxSession (m_transport s) (m_channel_window_size s) (m_keepalive_ms s)
    (m_codec s) (m_channels s) (m_on_disconnect s) (m_running s) b
    (target_calls s) (disconnect_calls s).

Definition set_target_calls (s : MuxSession) (l : list (Z * Call)) : MuxSession :=
  mkMuxSession (m_transport s) (m_channel_window_size s) (m_keepalive_ms s)
    (m_codec s) (m_channels s) (m_on_disconnect s) (m_running s)
    (m_keepalive_timer s) l (disconnect_calls s).

Definition set_disconnect_calls (s : MuxSession) (l : list ErrorCode) : MuxSession :=
  mkMuxSession (m_transport s) (m_channel_window_size s) (m_keepalive_ms s)
    (m_codec s) (m_channels s) (m_on_disconnect s) (m_running s)
    (m_keepalive_timer s) (target_calls s) l.

(** [MuxSession::MuxSession(transport, channel_window_size, keepalive_ms)]. *)
Definition MuxSession_new (transport : option SslTransport)
    (channel_window_size keepalive_ms : Z) : MuxSession :=
  {| m_transport := transport;
     m_channel_window_size := channel_window_size;
     m_keepalive_ms := keepalive_ms;
     m_codec := FrameCodec_new;
     m_channels := ∅;
     m_on_disconnect := false;
     m_running := false;
     m_keepalive_timer := false;
     target_calls := [];
     disconnect_calls := [] |}.

(** [MuxSession::SendFrame(frame_bytes)]. *)
Definition SendFrame (s : MuxSession) (frame_bytes : ByteBuffer) : MuxSession :=
  match m_running s, m_transport s with
  | true, Some t => set_transport s (Some {| sent := sent t ++ [frame_bytes] |})
  | _, _ => s
  end.

(** One call of a channel, performed: the send helpers build a frame and
    pass it to [SendFrame]; calls on the channel's connection are
    recorded. *)
Definition perform (id : Z) (s : MuxSession) (call : Call) : MuxSession :=
  match call with
  | SendChannelOpenAck cid => SendFrame s (BuildChannelOpenAck cid)
  | SendChannelRequestAck cid data len =>
      SendFrame s (BuildChannelRequestAck cid data len)
  | SendData cid data len => SendFrame s (BuildData cid data len)
  | SendChannelClose cid fl => SendFrame s (BuildChannelClose cid fl)
  | SendChannelCloseAck cid => SendFrame s (BuildChannelCloseAck cid)
  | SendWindowUpdate cid increment =>
      SendFrame s (BuildWindowUpdate cid increment)
  | _ => set_target_calls s (target_calls s ++ [(id, call)])
  end.

Definition perform_all (id : Z) (s : MuxSession) (calls : list Call) : MuxSession :=
  fold_left (perform id) calls s.

(** [MuxSession::FindChannel(id)]. *)
Definition FindChannel (s : MuxSession) (id : Z) : option Channel :=
  m_channels s !! id.

(** A method of the channel registered under [id] runs on it in place; what
    it asks of the session is performed as it goes. *)
Definition run_on (s : MuxSession) (id : Z) (r : Channel * list Call)
  : MuxSession :=
  perform_all id (set_channels s (<[id := fst r]> (m_channels s))) (snd r).

(** [MuxSession::RemoveChannel(id)]: erasing the entry destroys the
    channel. *)
Definition RemoveChannel (s : MuxSession) (id : Z) : MuxSession :=
  match m_channels s !! id with
  | Some ch =>
      perform_all id (set_channels s (delete id (m_channels s))) (Channel_delete ch)
  | None => s
  end.

(** [MuxSession::CloseAllChannels()], in the iteration order of the map:
    every channel is force-closed, then [clear()] destroys them. *)
Definition CloseAllChannels (s : MuxSession) : MuxSession :=
  let s :=
    fold_left (fun s '(id, ch) => run_on s id (ForceClose ch))
              (map_to_list (m_channels s)) s in
  let s' :=
    fold_left (fun s '(id, ch) => perform_all id s (Channel_delete ch))
              (map_to_list (m_channels s)) s in
  set_channels s' ∅.

(** [MuxSession::StartKeepaliveTimer()] / [StopKeepaliveTimer()]. *)
Definition StartKeepaliveTimer (s : MuxSession) : MuxSession :=
  if m_keepalive_ms s <=? 0 then s else set_keepalive_timer s true.

Definition StopKeepaliveTimer (s : MuxSession) : MuxSession :=
  if m_keepalive_timer s then set_keepalive_timer s false else s.

(** [MuxSession::Start(on_disconnect)].  Hooking [OnDataReceived] and
    [OnTransportDisconnected] into the transport changes nothing in the
    session itself. *)
Definition Start (s : MuxSession) : MuxSession :=
  let s := set_on_disconnect s true in
  let s := set_running s true in
  StartKeepaliveTimer s.

(** [MuxSession::Shutdown()]. *)
Definition Shutdown (s : MuxSession) : MuxSession :=
  if negb (m_running s) then s
  else
    let s := set_running s false in
    let s := StopKeepaliveTimer s in
    CloseAllChannels s.

(** [MuxSession::HandleChannelOpen(frame)]: assigning to [m_channels[id]]
    destroys the channel that was registered under [id], if any. *)
Definition HandleChannelOpen (s : MuxSession) (frame : Frame) : MuxSession :=
  let id := channel_id (header frame) in
  let ch := Channel_new id (m_channel_window_size s) in
  let s :=
    match m_channels s !! id with
    | Some old => perform_all id s (Channel_delete old)
    | None => s
    end in
  let s := set_channels s (<[id := ch]> (m_channels s)) in
  run_on s id (OnOpen ch).

(** [MuxSession::HandleChannelRequest(frame)]. *)
Definition HandleChannelRequest (connect_async : list byte -> Z -> ErrorCode)
    (s : MuxSession) (frame : Frame) : MuxSession :=
  match FindChannel s (channel_id (header frame)) with
  | None => s
  | Some ch =>
      run_on s (channel_id (header frame))
             (OnRequest connect_async ch (payload frame))
  end.

(** [MuxSession::HandleData(frame)]. *)
Definition HandleData (s : MuxSession) (frame : Frame) : MuxSession :=
  match FindChannel s (channel_id (header frame)) with
  | None => s
  | Some ch => run_on s (channel_id (header frame)) (OnData ch (payload frame))
  end.

(** [MuxSession::HandleChannelClose(frame)]. *)
Definition HandleChannelClose (s : MuxSession) (frame : Frame) : MuxSession :=
  let id := channel_id (header frame) in
  match FindChannel s id with
  | None => perform id s (SendChannelCloseAck id)
  | Some ch =>
      let r := OnClose ch (flags (header frame)) in
      let s := run_on s id r in
      if ChannelState_eqb (m_state (fst r)) Closed then RemoveChannel s id
      else s
  end.

(** [MuxSession::HandleChannelCloseAck(frame)]. *)
Definition HandleChannelCloseAck (s : MuxSession) (frame : Frame) : MuxSession :=
  let id := channel_id (header frame) in
  match FindChannel s id with
  | Some ch => RemoveChannel (run_on s id (ForceClose ch)) id
  | None => s
  end.

(** [MuxSession::HandlePing(frame)]. *)
Definition HandlePing (s : MuxSession) (frame : Frame) : MuxSession :=
  SendFrame s BuildPong.

(** [MuxSession::HandleWindowUpdate(frame)]. *)
Definition HandleWindowUpdate (s : MuxSession) (frame : Frame) : MuxSession :=
  if (length (payload frame) <? 4)%nat then s
  else
    let p := payload frame in
    let increment := le32_value (at_ p 0) (at_ p 1) (at_ p 2) (at_ p 3) in
    match FindChannel s (channel_id (header frame)) with
    | Some ch => run_on s (channel_id (header frame)) (OnWindowUpdate ch increment)
    | None => s
    end.

(** [MuxSession::DispatchFrame(frame)]. *)
Definition DispatchFrame (connect_async : list byte -> Z -> ErrorCode)
    (s : MuxSession) (frame : Frame) : MuxSession :=
  match type (header frame) with
  | x01 => HandleChannelOpen s frame
  | x03 => HandleChannelRequest connect_async s frame
  | x05 => HandleData s frame
  | x06 => HandleChannelClose s frame
  | x07 => HandleChannelCloseAck s frame
  | x08 => HandlePing s frame
  | x0a => HandleWindowUpdate s frame
  | _ => s
  end.

(** [MuxSession::OnDataReceived(data, len)]. *)
Definition OnDataReceived (connect_async : list byte -> Z -> ErrorCode)
    (s : MuxSession) (data : list byte) : MuxSession :=
  let '(codec, frames) := Feed (m_codec s) data [] in
  fold_left (DispatchFrame connect_async) frames (set_codec s codec).

(** [MuxSession::OnTransportDisconnected(ec)]. *)
Definition OnTransportDisconnected (s : MuxSession) (ec : ErrorCode) : MuxSession :=
  let s := set_running s false in
  let s := StopKeepaliveTimer s in
  let s := CloseAllChannels s in
  if m_on_disconnect s then set_disconnect_calls s (disconnect_calls s ++ [ec])
  else s.

(** [MuxSession::KeepaliveTimerCallback]. *)
Definition KeepaliveTimerCallback (s : MuxSession) : MuxSession :=
  if m_running s then SendFrame s BuildPing else s.

(** The callbacks a channel installs on its connection capture the channel
    itself; they run its handler and what it asks of the session. *)
Definition target_event (s : MuxSession) (id : Z)
    (handler : Channel -> Channel * list Call) : MuxSession :=
  match m_channels s !! id with
  | Some ch => run_on s id (handler ch)
  | None => s
  end.

(* ===================================================================== *)
(** * Vocabulary of the statements                                        *)
(* ===================================================================== *)

(** Bytes of a frame on the wire: the packed header, then the payload. *)
Definition wire (f : Frame) : list byte :=
  FrameHeader_bytes (header f) ++ payload f.

Definition stream (fs : list Frame) : list byte := concat (map wire fs).

(** A frame whose fields fit their wire types, whose header length is the
    length of its payload, and whose payload respects the limit. *)
Definition wf_frame (f : Frame) : Prop :=
  0 <= channel_id (header f) < 65536 /\
  payload_length (header f) = Z.of_nat (length (payload f)) /\
  Z.of_nat (length (payload f)) <= FRAME_MAX_PAYLOAD.

(** The frame that [Encode] is asked to put on the wire. *)
Definition frame_of (t : FrameType) (fl : byte) (cid : Z) (p : list byte) : Frame :=
  {| header := {| type := FrameType_value t; flags := fl; channel_id := cid;
                  payload_length := Z.of_nat (length p) |};
     payload := p |}.

(** A tuple [(type, flags, channel_id, payload)] is valid when the id is a
    [uint16_t] and the payload respects the limit. *)
Definition valid_tuple (x : FrameType * byte * Z * list byte) : Prop :=
  let '(_, _, cid, p) := x in
  0 <= cid < 65536 /\ Z.of_nat (length p) <= FRAME_MAX_PAYLOAD.

Definition encode_tuple (x : FrameType * byte * Z * list byte) : ByteBuffer :=
  let '(t, fl, cid, p) := x in Encode t fl cid (Some p) (Z.of_nat (length p)).

Definition frame_of_tuple (x : FrameType * byte * Z * list byte) : Frame :=
  let '(t, fl, cid, p) := x in frame_of t fl cid p.

(** Successive calls of [Feed], each with an empty output vector as
    [OnDataReceived] makes them; the outputs are concatenated. *)
Fixpoint feed_chunks (c : FrameCodec) (chunks : list (list byte))
  : FrameCodec * list Frame :=
  match chunks with
  | [] => (c, [])
  | d :: chunks' =>
      let '(c1, fs1) := Feed c d [] in
      let '(c2, fs2) := feed_chunks c1 chunks' in
      (c2, fs1 ++ fs2)
  end.

(** The codec is between two calls of [Feed]: its buffer holds no complete
    frame and no header over the limit.  True of a new codec and kept by
    [Feed] ([settled_nil], [Feed_settled]). *)
Definition settled (buf : list byte) : Prop :=
  parse_frames buf [] = (NeedMore, buf, []).

(** The frame read at the front of a buffer by one iteration of the inner
    loop of [Feed], and its length on the wire. *)
Definition front_total (buf : list byte) : nat :=
  (FRAME_HEADER_SIZE + Z.to_nat (payload_length (FrameHeader_of_bytes buf)))%nat.

Definition front_frame (buf : list byte) : Frame :=
  {| header := FrameHeader_of_bytes buf;
     payload := take (Z.to_nat (payload_length (FrameHeader_of_bytes buf)))
                     (drop FRAME_HEADER_SIZE buf) |}.

(** What no frame handler touches: every field of the session except the
    transport, the registry and the record of the calls on outbound
    connections. *)
Definition same_control (s s' : MuxSession) : Prop :=
  m_running s' = m_running s /\
  m_codec s' = m_codec s /\
  m_channel_window_size s' = m_channel_window_size s /\
  m_keepalive_ms s' = m_keepalive_ms s /\
  m_on_disconnect s' = m_on_disconnect s /\
  m_keepalive_timer s' = m_keepalive_timer s /\
  disconnect_calls s' = disconnect_calls s.

(** The buffers handed to the transport so far (none without a transport). *)
Definition sent_frames (s : MuxSession) : list ByteBuffer :=
  match m_transport s with
  | Some t => sent t
  | None => []
  end.

(** A session as [main] creates and starts it, on a transport that has not
    been written to. *)
Definition started_session (window_size keepalive_ms : Z) : MuxSession :=
  Start (MuxSession_new (Some {| sent := [] |}) window_size keepalive_ms).

(** An environment in which every outbound connect starts without error. *)
Definition connect_pending : list byte -> Z -> ErrorCode := fun _ _ => Success.

(** ** SOCKS5 messages (RFC 1928), as a client writes them *)

(** Method selection: VER, NMETHODS, METHODS. *)
Definition method_request (methods : list byte) : list byte :=
  Socks5.VERSION :: to_u8 (Z.of_nat (length methods)) :: methods.

(** Destination address of a request. *)
Inductive Address :=
| AddrIPv4 (a : list byte)
| AddrDomain (name : list byte)
| AddrIPv6 (a : list byte).

Definition valid_address (a : Address) : Prop :=
  match a with
  | AddrIPv4 a => length a = 4%nat
  | AddrDomain name => (length name <= 255)%nat
  | AddrIPv6 a => length a = 16%nat
  end.

(** ATYP and DST.ADDR. *)
Definition address_bytes (a : Address) : list byte :=
  match a with
  | AddrIPv4 a => Socks5.ATYP_IPV4 :: a
  | AddrDomain name =>
      Socks5.ATYP_DOMAIN :: to_u8 (Z.of_nat (length name)) :: name
  | AddrIPv6 a => Socks5.ATYP_IPV6 :: a
  end.

(** Request: VER, CMD, RSV, ATYP, DST.ADDR, DST.PORT (big-endian). *)
Definition connect_request (cmd rsv : byte) (a : Address) (port : Z) : list byte :=
  [Socks5.VERSION; cmd; rsv] ++ address_bytes a ++
  [to_u8 (port / 256); to_u8 port].

(** What [ParseConnectRequest] is to write into [out] for such a request. *)
Definition parsed_request (a : Address) (port : Z) (out : Socks5.ConnectRequest)
  : Socks5.ConnectRequest :=
  match a with
  | AddrIPv4 a =>
      {| Socks5.atyp := Socks5.ATYP_IPV4; Socks5.host := Socks5.fmt_ipv4 a;
         Socks5.ipv4 := a; Socks5.ipv6 := Socks5.ipv6 out;
         Socks5.port := port |}
  | AddrDomain name =>
      {| Socks5.atyp := Socks5.ATYP_DOMAIN; Socks5.host := name;
         Socks5.ipv4 := Socks5.ipv4 out; Socks5.ipv6 := Socks5.ipv6 out;
         Socks5.port := port |}
  | AddrIPv6 a =>
      {| Socks5.atyp := Socks5.ATYP_IPV6; Socks5.host := Socks5.fmt_ipv6 a;
         Socks5.ipv4 := Socks5.ipv4 out; Socks5.ipv6 := a;
         Socks5.port := port |}
  end.

(** ** Channels used in the examples *)

(** A channel in the relay phase, as [OnOpen], the SOCKS5 exchange and a
    successful connect leave it, with the given send window. *)
Definition relaying_channel (id window_size send_window : Z) : Channel :=
  {| m_id := id;
     m_state := Relaying;
     m_socks5_buf := [];
     m_method_done := true;
     m_connect_req := Socks5.ConnectRequest_zero;
     m_target := Some TcpConnection_new;
     m_send_window := send_window;
     m_recv_window := window_size;
     m_recv_window_initial := window_size;
     m_recv_consumed := 0 |}.

(** What a channel forwards to its connection on DATA. *)
Definition forwarded (c : Channel) (data : list byte) : list Call :=
  match m_target c with
  | Some _ => [TargetSend data]
  | None => []
  end.

(** Two DATA frames with the same payload, one after the other. *)
Definition two_frames (full : list byte) (c : Channel) : Channel :=
  (OnData (OnData c full).1 full).1.

(** The payload bytes that a list of calls asks the session to send in
    DATA frames, in order. *)
Definition data_bytes (calls : list Call) : list byte :=
  concat (map (fun call =>
                 match call with
                 | SendData _ d len => take (Z.to_nat len) d
                 | _ => []
                 end) calls).

(** ** Vocabulary of the further properties *)

(** The bytes [buf] bring no header over the limit to the front of the
    buffer: the inner loop of [Feed] leaves them by waiting for more. *)
Definition no_oversize (buf : list byte) : Prop :=
  (parse_frames buf []).1.1 = NeedMore.

(** The frame types that [DispatchFrame] has a handler for. *)
Definition handled_types : list byte :=
  map FrameType_value
      [ChannelOpen; ChannelRequest; Data; ChannelClose; ChannelCloseAck;
       Ping; WindowUpdate].

(** A value of a [uint32_t]. *)
Definition is_uint32 (z : Z) : Prop := 0 <= z < 4294967296.

(** What holds of every channel in the registry: it owns a connection in
    the states [Connecting] and [Relaying] and none in the states [Opening],
    [Requesting] and [Closed]; its window counters are 32-bit values; and
    the bytes consumed since the last WINDOW_UPDATE are below the
    threshold. *)
Definition channel_ok (c : Channel) : Prop :=
  match m_state c with
  | Opening | Requesting | Closed => m_target c = None
  | Connecting | Relaying => is_Some (m_target c)
  | Closing => True
  end /\
  is_uint32 (m_send_window c) /\
  is_uint32 (m_recv_window c) /\
  0 <= m_recv_consumed c /\
  (m_recv_consumed c = 0 \/ m_recv_consumed c < m_recv_window_initial c / 2).

(** The registry maps every id to a channel of that id that is
    [channel_ok], and the configured window is a 32-bit value. *)
Definition session_ok (s : MuxSession) : Prop :=
  is_uint32 (m_channel_window_size s) /\
  forall id ch, m_channels s !! id = Some ch -> m_id ch = id /\ channel_ok ch.

(** The calls of a list that go to the session, not to the connection. *)
Definition is_mux_call (call : Call) : bool :=
  match call with
  | SendChannelOpenAck _ | SendChannelRequestAck _ _ _ | SendData _ _ _
  | SendChannelClose _ _ | SendChannelCloseAck _ | SendWindowUpdate _ _ => true
  | _ => false
  end.

Definition mux_calls (calls : list Call) : list Call := filter is_mux_call calls.

(** The frame that a call on the session puts on the wire. *)
Definition call_frame (call : Call) : option ByteBuffer :=
  match call with
  | SendChannelOpenAck cid => Some (BuildChannelOpenAck cid)
  | SendChannelRequestAck cid data len => Some (BuildChannelRequestAck cid data len)
  | SendData cid data len => Some (BuildData cid data len)
  | SendChannelClose cid fl => Some (BuildChannelClose cid fl)
  | SendChannelCloseAck cid => Some (BuildChannelCloseAck cid)
  | SendWindowUpdate cid increment => Some (BuildWindowUpdate cid increment)
  | _ => None
  end.

Definition frames_of_calls (calls : list Call) : list ByteBuffer :=
  omap call_frame calls.

(** The calls of a list that go to the connection. *)
Definition connection_calls (calls : list Call) : list Call :=
  filter (fun call => negb (is_mux_call call)) calls.

(** The session can put frames on the transport. *)
Definition can_send (s : MuxSession) : bool :=
  match m_transport s with
  | Some _ => m_running s
  | None => false
  end.

(** The record of the calls on connections only grows. *)
Definition calls_kept (s s' : MuxSession) : Prop :=
  forall x, In x (target_calls s) -> In x (target_calls s').

(** Only the registry entry of [cid] differs between [s] and [s'], and the
    calls on connections that [s'] has more are calls on the connection of
    [cid]. *)
Definition only_own (cid : Z) (s s' : MuxSession) : Prop :=
  (forall id, id <> cid -> m_channels s' !! id = m_channels s !! id) /\
  exists calls, target_calls s' = target_calls s ++ (pair cid <$> calls).

(** Two channels that agree in everything but the bytes waiting in the
    SOCKS5 buffer. *)
Definition same_but_socks5_buf (c c' : Channel) : Prop :=
  set_socks5_buf c [] = set_socks5_buf c' [].

(** Splits a conjunction into its parts, without opening [is_uint32]. *)
Ltac split_ok :=
  repeat match goal with |- _ /\ _ => split end.

(** The bytes [b] are one well-formed frame of channel [id] on the wire. *)
Definition frame_for (id : Z) (b : ByteBuffer) : Prop :=
  exists f, wf_frame f /\ channel_id (header f) = id /\ b = wire f.

(** A call that channel [id] may make on its session: it names the channel
    itself, its length is within the buffer passed and within the limit of
    a frame, and a window increment is a 32-bit value. *)
Definition call_ok (id : Z) (call : Call) : Prop :=
  match call with
  | SendChannelOpenAck cid | SendChannelCloseAck cid
  | SendChannelClose cid _ => cid = id
  | SendChannelRequestAck cid d len | SendData cid d len =>
      cid = id /\ 0 <= len <= Z.of_nat (length d) /\ len <= FRAME_MAX_PAYLOAD
  | SendWindowUpdate cid inc => cid = id /\ is_uint32 inc
  | _ => True
  end.

(** Solves [Forall (call_ok id)] of an explicit list of calls. *)
Ltac calls_ok :=
  unfold SendCloseToMux;
  repeat first
    [ apply List.Forall_nil
    | apply List.Forall_cons; [cbn [call_ok m_id set_state set_target
                               set_connect_req set_socks5_buf set_method_done
                               set_recv_consumed set_recv_window];
                          try done | ]
    | apply Forall_app; split ].

(** ** Text of an address, as a reader of [host] expects it *)

(** The digits of a number in base ten and in base sixteen (lower case),
    most significant first, as ASCII. *)
Fixpoint decimal_digits (u : Decimal.uint) : list byte :=
  match u with
  | Decimal.Nil => []
  | Decimal.D0 u => x30 :: decimal_digits u
  | Decimal.D1 u => x31 :: decimal_digits u
  | Decimal.D2 u => x32 :: decimal_digits u
  | Decimal.D3 u => x33 :: decimal_digits u
  | Decimal.D4 u => x34 :: decimal_digits u
  | Decimal.D5 u => x35 :: decimal_digits u
  | Decimal.D6 u => x36 :: decimal_digits u
  | Decimal.D7 u => x37 :: decimal_digits u
  | Decimal.D8 u => x38 :: decimal_digits u
  | Decimal.D9 u => x39 :: decimal_digits u
  end.

Fixpoint hex_digits (u : Hexadecimal.uint) : list byte :=
  match u with
  | Hexadecimal.Nil => []
  | Hexadecimal.D0 u => x30 :: hex_digits u
  | Hexadecimal.D1 u => x31 :: hex_digits u
  | Hexadecimal.D2 u => x32 :: hex_digits u
  | Hexadecimal.D3 u => x33 :: hex_digits u
  | Hexadecimal.D4 u => x34 :: hex_digits u
  | Hexadecimal.D5 u => x35 :: hex_digits u
  | Hexadecimal.D6 u => x36 :: hex_digits u
  | Hexadecimal.D7 u => x37 :: hex_digits u
  | Hexadecimal.D8 u => x38 :: hex_digits u
  | Hexadecimal.D9 u => x39 :: hex_digits u
  | Hexadecimal.Da u => x61 :: hex_digits u
  | Hexadecimal.Db u => x62 :: hex_digits u
  | Hexadecimal.Dc u => x63 :: hex_digits u
  | Hexadecimal.Dd u => x64 :: hex_digits u
  | Hexadecimal.De u => x65 :: hex_digits u
  | Hexadecimal.Df u => x66 :: hex_digits u
  end.

(** A byte in decimal without leading zeros; a byte as two hexadecimal
    digits. *)
Definition decimal_text (b : byte) : list byte :=
  decimal_digits (N.to_uint (Byte.to_N b)).

Definition hex_text (b : byte) : list byte :=
  match hex_digits (N.to_hex_uint (Byte.to_N b)) with
  | [d] => [x30; d]
  | ds => ds
  end.

(** The parts, with [sep] between them. *)
Fixpoint join (sep : byte) (parts : list (list byte)) : list byte :=
  match parts with
  | [] => []
  | [p] => p
  | p :: ps => p ++ sep :: join sep ps
  end.

(** The bytes of an IPv6 address in groups of two, each group as four
    hexadecimal digits. *)
Fixpoint hex_groups (a : list byte) : list (list byte) :=
  match a with
  | hi :: lo :: rest => (hex_text hi ++ hex_text lo) :: hex_groups rest
  | _ => []
  end.

(** The text of a destination address: dotted decimal for IPv4, the name
    itself for a domain, eight groups of four hexadecimal digits separated
    by colons for IPv6. *)
Definition host_text (a : Address) : list byte :=
  match a with
  | AddrIPv4 a => join x2e (map decimal_text a)
  | AddrDomain name => name
  | AddrIPv6 a => join x3a (hex_groups a)
  end.

(* ===================================================================== *)
(** * Bytes and little-endian integers                                    *)
(* ===================================================================== *)

Lemma u8_range b : 0 <= u8 b < 256.
Proof. unfold u8. pose proof (Byte.to_N_bounded b). lia. Qed.

Lemma to_u8_u8 b : to_u8 (u8 b) = b.
Proof.
  unfold to_u8, u8. pose proof (Byte.to_N_bounded b).
  rewrite Z.mod_small by lia.
  rewrite N2Z.id, Byte.of_to_N. reflexivity.
Qed.

Lemma u8_to_u8 z : u8 (to_u8 z) = z mod 256.
Proof.
  unfold to_u8, u8.
  pose proof (Z.mod_pos_bound z 256 ltac:(lia)) as Hr.
  destruct (Byte.of_N (Z.to_N (z mod 256))) as [b|] eqn:E.
  - apply Byte.to_of_N in E. rewrite E. lia.
  - apply Byte.of_N_None_iff in E. lia.
Qed.

Lemma byte_eqb_eq a b : Byte.eqb a b = true <-> a = b.
Proof.
  split; [apply Byte.byte_dec_bl | apply Byte.byte_dec_lb].
Qed.

Lemma byte_eqb_refl a : Byte.eqb a a = true.
Proof. apply Byte.byte_dec_lb. reflexivity. Qed.

Lemma le16_value_bytes z :
  0 <= z < 65536 ->
  le16_value (to_u8 z) (to_u8 (z / 256)) = z.
Proof.
  intros Hz. unfold le16_value. rewrite !u8_to_u8.
  Z.div_mod_to_equations. lia.
Qed.

Lemma le32_value_bytes z :
  0 <= z < 4294967296 ->
  le32_value (to_u8 z) (to_u8 (z / 256)) (to_u8 (z / 65536))
             (to_u8 (z / 16777216)) = z.
Proof.
  intros Hz. unfold le32_value. rewrite !u8_to_u8.
  Z.div_mod_to_equations. lia.
Qed.

Lemma le32_value_range a b c d : 0 <= le32_value a b c d < 4294967296.
Proof.
  unfold le32_value.
  pose proof (u8_range a). pose proof (u8_range b).
  pose proof (u8_range c). pose proof (u8_range d). lia.
Qed.

(* ===================================================================== *)
(** * The framing codec                                                   *)
(* ===================================================================== *)

Lemma m_buffer_size_val : m_buffer_size = Z.to_nat 65544.
Proof. unfold m_buffer_size, FRAME_HEADER_SIZE, FRAME_MAX_PAYLOAD. lia. Qed.

Lemma FRAME_HEADER_SIZE_val : FRAME_HEADER_SIZE = 8%nat.
Proof. reflexivity. Qed.

Lemma FRAME_MAX_PAYLOAD_val : FRAME_MAX_PAYLOAD = 65536.
Proof. reflexivity. Qed.

#[local] Opaque m_buffer_size FRAME_MAX_PAYLOAD.

(** One iteration of the inner loop, whatever the fuel. *)
Lemma parse_frames_loop_step fuel buf out :
  parse_frames_loop fuel buf out =
  if (length buf <? FRAME_HEADER_SIZE)%nat then (NeedMore, buf, out)
  else if FRAME_MAX_PAYLOAD <? payload_length (FrameHeader_of_bytes buf)
  then (TooLarge, buf, out)
  else if (length buf <? front_total buf)%nat then (NeedMore, buf, out)
  else match fuel with
       | O => (NeedMore, buf, out)
       | S fuel' =>
           parse_frames_loop fuel' (drop (front_total buf) buf)
                             (out ++ [front_frame buf])
       end.
Proof. destruct fuel; reflexivity. Qed.

(** The fuel given by [parse_frames] is never exhausted: any larger amount
    gives the same result. *)
Lemma parse_frames_loop_fuel f1 : forall f2 buf out,
  (length buf <= f1)%nat -> (length buf <= f2)%nat ->
  parse_frames_loop f1 buf out = parse_frames_loop f2 buf out.
Proof.
  induction f1 as [|f1 IH]; intros f2 buf out H1 H2;
    rewrite (parse_frames_loop_step _ buf), (parse_frames_loop_step f2 buf).
  - destruct (Nat.ltb_spec (length buf) FRAME_HEADER_SIZE) as [|Hge]; [done|].
    rewrite FRAME_HEADER_SIZE_val in Hge. lia.
  - destruct (Nat.ltb_spec (length buf) FRAME_HEADER_SIZE) as [|Hge]; [done|].
    destruct (FRAME_MAX_PAYLOAD <? _); [done|].
    destruct (Nat.ltb_spec (length buf) (front_total buf)) as [|Hge']; [done|].
    rewrite FRAME_HEADER_SIZE_val in Hge.
    destruct f2 as [|f2]; [lia|].
    apply IH; rewrite length_drop; unfold front_total;
      rewrite FRAME_HEADER_SIZE_val; lia.
Qed.

(** The inner loop of [Feed] as the source writes it. *)
Lemma parse_frames_eq buf out :
  parse_frames buf out =
  if (length buf <? FRAME_HEADER_SIZE)%nat then (NeedMore, buf, out)
  else if FRAME_MAX_PAYLOAD <? payload_length (FrameHeader_of_bytes buf)
  then (TooLarge, buf, out)
  else if (length buf <? front_total buf)%nat then (NeedMore, buf, out)
  else parse_frames (drop (front_total buf) buf) (out ++ [front_frame buf]).
Proof.
  unfold parse_frames at 1. rewrite parse_frames_loop_step.
  destruct (Nat.ltb_spec (length buf) FRAME_HEADER_SIZE) as [|Hge]; [done|].
  destruct (FRAME_MAX_PAYLOAD <? _); [done|].
  destruct (Nat.ltb_spec (length buf) (front_total buf)) as [|Hge']; [done|].
  rewrite FRAME_HEADER_SIZE_val in Hge.
  destruct (length buf) as [|n] eqn:Hn; [lia|].
  unfold parse_frames. apply parse_frames_loop_fuel; [|done].
  rewrite length_drop, Hn. unfold front_total. rewrite FRAME_HEADER_SIZE_val. lia.
Qed.

(** Induction on the length of the buffer, the measure of the inner loop. *)
Lemma length_ind {A} (P : list A -> Prop) :
  (forall l, (forall l', (length l' < length l)%nat -> P l') -> P l) ->
  forall l, P l.
Proof.
  intros H l. remember (length l) as n eqn:Hn.
  revert l Hn. induction (lt_wf n) as [n _ IH]. intros l ->.
  apply H. intros l' Hl'. by eapply IH.
Qed.

Lemma drop_front_shorter buf :
  (FRAME_HEADER_SIZE <= length buf)%nat ->
  (length (drop (front_total buf) buf) < length buf)%nat.
Proof.
  rewrite length_drop. unfold front_total. rewrite FRAME_HEADER_SIZE_val. lia.
Qed.

(** The output vector is only appended to. *)
Lemma parse_frames_out buf : forall out,
  parse_frames buf out =
  let '(e, r, fs) := parse_frames buf [] in (e, r, out ++ fs).
Proof.
  induction buf as [buf IH] using length_ind. intros out.
  rewrite (parse_frames_eq buf out), (parse_frames_eq buf []).
  destruct (Nat.ltb_spec (length buf) FRAME_HEADER_SIZE) as [|Hge].
  { by rewrite app_nil_r. }
  destruct (FRAME_MAX_PAYLOAD <? _). { by rewrite app_nil_r. }
  destruct (Nat.ltb_spec (length buf) (front_total buf)) as [|Hge'].
  { by rewrite app_nil_r. }
  pose proof (drop_front_shorter buf Hge) as Hlt.
  rewrite (IH _ Hlt (out ++ [front_frame buf])).
  rewrite (IH _ Hlt ([] ++ [front_frame buf])).
  destruct (parse_frames (drop (front_total buf) buf) []) as [[e r] fs].
  by rewrite <- app_assoc.
Qed.

(** What the inner loop leaves in the buffer when it waits for more bytes
    is shorter than the buffer's capacity, and is [settled]. *)
Lemma parse_frames_NeedMore_rest buf : forall out r out',
  parse_frames buf out = (NeedMore, r, out') ->
  (length r < m_buffer_size)%nat /\ settled r.
Proof.
  induction buf as [buf IH] using length_ind. intros out r out'.
  rewrite parse_frames_eq.
  destruct (Nat.ltb_spec (length buf) FRAME_HEADER_SIZE) as [Hlt|Hge].
  { intros [= <- <-]. split.
    - rewrite m_buffer_size_val. rewrite FRAME_HEADER_SIZE_val in Hlt. lia.
    - unfold settled. rewrite parse_frames_eq.
      by destruct (Nat.ltb_spec (length buf) FRAME_HEADER_SIZE); [|lia]. }
  destruct (Z.ltb_spec FRAME_MAX_PAYLOAD
              (payload_length (FrameHeader_of_bytes buf))) as [|Hle]; [done|].
  destruct (Nat.ltb_spec (length buf) (front_total buf)) as [Hlt|Hge'].
  { intros [= <- <-]. split.
    - unfold front_total in Hlt.
      rewrite m_buffer_size_val. rewrite FRAME_HEADER_SIZE_val in Hlt.
      rewrite FRAME_MAX_PAYLOAD_val in Hle. lia.
    - unfold settled. rewrite parse_frames_eq.
      destruct (Nat.ltb_spec (length buf) FRAME_HEADER_SIZE); [lia|].
      destruct (Z.ltb_spec FRAME_MAX_PAYLOAD
                  (payload_length (FrameHeader_of_bytes buf))); [lia|].
      by destruct (Nat.ltb_spec (length buf) (front_total buf)); [|lia]. }
  intros Hp. eapply IH; [|exact Hp]. by apply drop_front_shorter.
Qed.

Lemma settled_nil : settled [].
Proof. reflexivity. Qed.

Lemma settled_length buf : settled buf -> (length buf < m_buffer_size)%nat.
Proof. intros H. by destruct (parse_frames_NeedMore_rest _ _ _ _ H). Qed.

(** The header read at the front of a buffer only depends on its first
    eight bytes. *)
Lemma FrameHeader_of_bytes_app s y :
  (FRAME_HEADER_SIZE <= length s)%nat ->
  FrameHeader_of_bytes (s ++ y) = FrameHeader_of_bytes s.
Proof.
  rewrite FRAME_HEADER_SIZE_val. intros H.
  unfold FrameHeader_of_bytes, at_.
  by rewrite !app_nth1 by lia.
Qed.

Lemma front_total_app s y :
  (FRAME_HEADER_SIZE <= length s)%nat ->
  front_total (s ++ y) = front_total s.
Proof. intros H. unfold front_total. by rewrite FrameHeader_of_bytes_app. Qed.

Lemma front_frame_app s y :
  (FRAME_HEADER_SIZE <= length s)%nat ->
  (front_total s <= length s)%nat ->
  front_frame (s ++ y) = front_frame s.
Proof.
  intros H Ht. unfold front_frame. rewrite FrameHeader_of_bytes_app by done.
  f_equal. unfold front_total in Ht.
  rewrite drop_app_le by done.
  rewrite take_app_le; [done|]. rewrite length_drop. lia.
Qed.

(** Bytes that arrive later do not change what was parsed before them. *)
Lemma parse_frames_app_NeedMore s : forall y out r out',
  parse_frames s out = (NeedMore, r, out') ->
  parse_frames (s ++ y) out = parse_frames (r ++ y) out'.
Proof.
  induction s as [s IH] using length_ind. intros y out r out'.
  rewrite (parse_frames_eq s).
  destruct (Nat.ltb_spec (length s) FRAME_HEADER_SIZE) as [Hlt|Hge].
  { by intros [= <- <-]. }
  destruct (Z.ltb_spec FRAME_MAX_PAYLOAD
              (payload_length (FrameHeader_of_bytes s))) as [|Hle]; [done|].
  destruct (Nat.ltb_spec (length s) (front_total s)) as [Hlt|Hge'].
  { by intros [= <- <-]. }
  intros Hp. rewrite (parse_frames_eq (s ++ y)).
  rewrite FrameHeader_of_bytes_app, front_total_app, front_frame_app by done.
  rewrite length_app.
  destruct (Nat.ltb_spec (length s + length y) FRAME_HEADER_SIZE); [lia|].
  destruct (Z.ltb_spec FRAME_MAX_PAYLOAD
              (payload_length (FrameHeader_of_bytes s))); [lia|].
  destruct (Nat.ltb_spec (length s + length y) (front_total s)); [lia|].
  rewrite drop_app_le by done.
  eapply IH; [|exact Hp]. by apply drop_front_shorter.
Qed.

(** A header over the limit stops the parse wherever it is met, whatever
    follows it. *)
Lemma parse_frames_app_TooLarge s : forall y out r out',
  parse_frames s out = (TooLarge, r, out') ->
  parse_frames (s ++ y) out = (TooLarge, r ++ y, out').
Proof.
  induction s as [s IH] using length_ind. intros y out r out'.
  rewrite (parse_frames_eq s).
  destruct (Nat.ltb_spec (length s) FRAME_HEADER_SIZE) as [Hlt|Hge]; [done|].
  destruct (Z.ltb_spec FRAME_MAX_PAYLOAD
              (payload_length (FrameHeader_of_bytes s))) as [Hgt|Hle].
  { intros [= <- <-]. rewrite parse_frames_eq.
    rewrite FrameHeader_of_bytes_app, length_app by done.
    destruct (Nat.ltb_spec (length s + length y) FRAME_HEADER_SIZE); [lia|].
    by destruct (Z.ltb_spec FRAME_MAX_PAYLOAD
                   (payload_length (FrameHeader_of_bytes s))); [|lia]. }
  destruct (Nat.ltb_spec (length s) (front_total s)) as [Hlt|Hge']; [done|].
  intros Hp. rewrite (parse_frames_eq (s ++ y)).
  rewrite FrameHeader_of_bytes_app, front_total_app, front_frame_app by done.
  rewrite length_app.
  destruct (Nat.ltb_spec (length s + length y) FRAME_HEADER_SIZE); [lia|].
  destruct (Z.ltb_spec FRAME_MAX_PAYLOAD
              (payload_length (FrameHeader_of_bytes s))); [lia|].
  destruct (Nat.ltb_spec (length s + length y) (front_total s)); [lia|].
  rewrite drop_app_le by done.
  rewrite (IH (drop (front_total s) s) (drop_front_shorter s Hge) y _ _ _ Hp).
  done.
Qed.

(** One iteration of the outer loop, whatever the fuel. *)
Lemma Feed_loop_step fuel c b d out :
  Feed_loop (S fuel) c (b :: d) out =
  let to_copy := Nat.min (length (b :: d)) (m_buffer_size - m_used c) in
  match parse_frames (m_buffer c ++ take to_copy (b :: d)) out with
  | (TooLarge, _, out') => ({| m_buffer := [] |}, out')
  | (NeedMore, rest, out') =>
      Feed_loop fuel {| m_buffer := rest |} (drop to_copy (b :: d)) out'
  end.
Proof. reflexivity. Qed.

(** The fuel given by [Feed] is never exhausted: an iteration copies at
    least one byte unless the buffer is full, and it never leaves the buffer
    full. *)
Lemma Feed_loop_fuel f1 : forall f2 c data out,
  (length data < f1 \/ length data <= f1 /\ m_used c < m_buffer_size)%nat ->
  (length data < f2 \/ length data <= f2 /\ m_used c < m_buffer_size)%nat ->
  Feed_loop f1 c data out = Feed_loop f2 c data out.
Proof.
  induction f1 as [|f1 IH]; intros f2 c data out H1 H2.
  - destruct data as [|b d]; [by destruct f2|]. simpl in H1. lia.
  - destruct data as [|b d]; [by destruct f2|].
    destruct f2 as [|f2]; [simpl in H2; lia|].
    rewrite !Feed_loop_step. cbv zeta.
    set (k := Nat.min _ _).
    destruct (parse_frames _ out) as [[[] r] o] eqn:Hp; [|done].
    apply parse_frames_NeedMore_rest in Hp as [Hr _].
    assert (Hk : (m_used c < m_buffer_size -> 1 <= k)%nat).
    { subst k. cbn [length]. lia. }
    cbn [length] in H1, H2.
    apply IH; right; (split; [|done]); rewrite length_drop; cbn [length]; lia.
Qed.

(** The outer loop of [Feed] as the source writes it. *)
Lemma Feed_eq c data out :
  Feed c data out =
  match data with
  | [] => (c, out)
  | _ :: _ =>
      let to_copy := Nat.min (length data) (m_buffer_size - m_used c) in
      match parse_frames (m_buffer c ++ take to_copy data) out with
      | (TooLarge, _, out') => ({| m_buffer := [] |}, out')
      | (NeedMore, rest, out') =>
          Feed {| m_buffer := rest |} (drop to_copy data) out'
      end
  end.
Proof.
  unfold Feed at 1. destruct data as [|b d]; [done|].
  rewrite Feed_loop_step. cbv zeta.
  set (k := Nat.min _ _).
  destruct (parse_frames _ out) as [[[] r] o] eqn:Hp; [|done].
  apply parse_frames_NeedMore_rest in Hp as [Hr _].
  unfold Feed. apply Feed_loop_fuel.
  - right. split; [rewrite length_drop; lia | done].
  - left. lia.
Qed.

(** [Feed] on a settled codec is the parse of the buffered bytes followed
    by the new ones: the frames of that parse are appended to the output;
    the unparsed rest stays buffered, or, at a header over the limit, the
    buffer is emptied and the bytes after that header are lost. *)
Lemma Feed_spec data : forall c out,
  settled (m_buffer c) ->
  Feed c data out =
  match parse_frames (m_buffer c ++ data) out with
  | (NeedMore, r, out') => ({| m_buffer := r |}, out')
  | (TooLarge, _, out') => ({| m_buffer := [] |}, out')
  end.
Proof.
  induction data as [data IH] using length_ind. intros c out Hc.
  rewrite Feed_eq. destruct data as [|b d].
  { rewrite app_nil_r, parse_frames_out, Hc, app_nil_r. by destruct c. }
  cbv zeta. set (k := Nat.min _ _). set (data := b :: d) in *.
  assert (Hk : (1 <= k)%nat).
  { pose proof (settled_length _ Hc). subst k data. unfold m_used.
    cbn [length]. lia. }
  assert (Hsplit : m_buffer c ++ data = (m_buffer c ++ take k data) ++ drop k data).
  { by rewrite <- app_assoc, take_drop. }
  destruct (parse_frames (m_buffer c ++ take k data) out) as [[[] r] o] eqn:Hp.
  - rewrite Hsplit, (parse_frames_app_NeedMore _ _ _ _ _ Hp).
    destruct (parse_frames_NeedMore_rest _ _ _ _ Hp) as [_ Hr].
    rewrite IH; [done| |done].
    rewrite length_drop. subst data. cbn [length]. lia.
  - by rewrite Hsplit, (parse_frames_app_TooLarge _ _ _ _ _ Hp).
Qed.

(** [Feed] leaves the codec settled. *)
Lemma Feed_settled c data out :
  settled (m_buffer c) -> settled (m_buffer (Feed c data out).1).
Proof.
  intros Hc. rewrite Feed_spec by done.
  destruct (parse_frames _ out) as [[[] r] o] eqn:Hp; simpl.
  - by destruct (parse_frames_NeedMore_rest _ _ _ _ Hp).
  - apply settled_nil.
Qed.

(** Successive feeds of the chunks of a stream that meets no header over
    the limit give the frames of the parse of the whole stream. *)
Lemma feed_chunks_spec chunks : forall c r fs,
  settled (m_buffer c) ->
  parse_frames (m_buffer c ++ concat chunks) [] = (NeedMore, r, fs) ->
  feed_chunks c chunks = ({| m_buffer := r |}, fs).
Proof.
  induction chunks as [|d chunks IH]; intros c r fs Hc Hp; simpl in *.
  { rewrite app_nil_r, Hc in Hp. injection Hp as <- <-. by destruct c. }
  rewrite Feed_spec by done.
  rewrite app_assoc in Hp.
  destruct (parse_frames (m_buffer c ++ d) []) as [[[] r1] fs1] eqn:Hd.
  - rewrite (parse_frames_app_NeedMore _ _ _ _ _ Hd) in Hp.
    rewrite parse_frames_out in Hp.
    destruct (parse_frames (r1 ++ concat chunks) []) as [[e r2] fs2] eqn:Hrest.
    injection Hp as -> <- <-.
    destruct (parse_frames_NeedMore_rest _ _ _ _ Hd) as [_ Hr1].
    by rewrite (IH {| m_buffer := r1 |} r2 fs2 Hr1 Hrest).
  - by rewrite (parse_frames_app_TooLarge _ _ _ _ _ Hd) in Hp.
Qed.

(** ** Frames on the wire *)

Lemma wire_length f : length (wire f) = (FRAME_HEADER_SIZE + length (payload f))%nat.
Proof. unfold wire. by rewrite length_app. Qed.

Lemma FrameHeader_of_bytes_wire f rest :
  wf_frame f -> FrameHeader_of_bytes (wire f ++ rest) = header f.
Proof.
  intros (Hid & Hlen & Hmax). rewrite FRAME_MAX_PAYLOAD_val in Hmax.
  destruct f as [[t fl cid len] p]. simpl in *.
  unfold FrameHeader_of_bytes, wire, FrameHeader_bytes, at_. simpl.
  rewrite le16_value_bytes by done.
  rewrite le32_value_bytes by lia. done.
Qed.

(** A well-formed frame at the front of the buffer is taken off whole. *)
Lemma parse_frames_wire f rest out :
  wf_frame f ->
  parse_frames (wire f ++ rest) out = parse_frames rest (out ++ [f]).
Proof.
  intros Hf. pose proof Hf as (Hid & Hlen & Hmax).
  rewrite parse_frames_eq.
  unfold front_total, front_frame.
  rewrite FrameHeader_of_bytes_wire by done.
  rewrite length_app, wire_length, Hlen, Nat2Z.id.
  destruct (Nat.ltb_spec (FRAME_HEADER_SIZE + length (payload f) + length rest)
              FRAME_HEADER_SIZE); [lia|].
  destruct (Z.ltb_spec FRAME_MAX_PAYLOAD (Z.of_nat (length (payload f)))); [lia|].
  destruct (Nat.ltb_spec (FRAME_HEADER_SIZE + length (payload f) + length rest)
              (FRAME_HEADER_SIZE + length (payload f))); [lia|].
  assert (Hd : drop (FRAME_HEADER_SIZE + length (payload f)) (wire f ++ rest) = rest).
  { rewrite <- wire_length. by rewrite drop_app_length. }
  assert (Ht : take (length (payload f)) (drop FRAME_HEADER_SIZE (wire f ++ rest))
               = payload f).
  { unfold wire. rewrite <- app_assoc.
    change FRAME_HEADER_SIZE with (length (FrameHeader_bytes (header f))).
    by rewrite drop_app_length, take_app_length. }
  rewrite Hd, Ht. by destruct f.
Qed.

Lemma parse_frames_stream fs : forall rest out,
  Forall wf_frame fs ->
  parse_frames (stream fs ++ rest) out = parse_frames rest (out ++ fs).
Proof.
  induction fs as [|f fs IH]; intros rest out Hfs.
  { by rewrite app_nil_r. }
  inversion Hfs as [|? ? Hf Hfs']; subst.
  unfold stream. cbn [map concat]. rewrite <- app_assoc.
  rewrite parse_frames_wire by done.
  fold (stream fs). rewrite IH by done. by rewrite <- app_assoc.
Qed.

Lemma Encode_wire t fl cid p :
  Encode t fl cid (Some p) (Z.of_nat (length p)) = wire (frame_of t fl cid p).
Proof.
  unfold Encode, wire, frame_of. simpl. do 8 f_equal.
  rewrite Nat2Z.id.
  destruct (Z.ltb_spec 0 (Z.of_nat (length p))) as [Hpos|Hz].
  - by rewrite firstn_all, Nat.sub_diag, app_nil_r.
  - destruct p; [done|]. simpl in Hz. lia.
Qed.

Lemma wf_frame_of t fl cid p :
  0 <= cid < 65536 -> Z.of_nat (length p) <= FRAME_MAX_PAYLOAD ->
  wf_frame (frame_of t fl cid p).
Proof. intros Hid Hp. by repeat split; try apply Hid. Qed.

Lemma encode_tuple_wire x : encode_tuple x = wire (frame_of_tuple x).
Proof. destruct x as [[[t fl] cid] p]. apply Encode_wire. Qed.

Lemma stream_tuples xs :
  concat (map encode_tuple xs) = stream (map frame_of_tuple xs).
Proof.
  unfold stream. rewrite map_map. f_equal.
  apply map_ext. intros x. apply encode_tuple_wire.
Qed.

Lemma wf_frame_tuples xs :
  Forall valid_tuple xs -> Forall wf_frame (map frame_of_tuple xs).
Proof.
  intros H. apply Forall_map. eapply Forall_impl; [exact H|].
  intros [[[t fl] cid] p] [Hid Hp]. by apply wf_frame_of.
Qed.

(** C3.  Feeding the encoding of one valid frame to a new codec yields that
    frame alone and leaves the codec empty; and when valid frames are
    encoded, concatenated and cut into chunks in any way, the successive
    calls of [Feed] on the chunks yield exactly those frames, in order. *)
Theorem frame_round_trip :
  (forall t fl cid p,
     0 <= cid < 65536 -> Z.of_nat (length p) <= FRAME_MAX_PAYLOAD ->
     Feed FrameCodec_new (Encode t fl cid (Some p) (Z.of_nat (length p))) []
     = (FrameCodec_new, [frame_of t fl cid p])) /\
  (forall xs chunks,
     Forall valid_tuple xs ->
     concat chunks = concat (map encode_tuple xs) ->
     feed_chunks FrameCodec_new chunks
     = (FrameCodec_new, map frame_of_tuple xs)).
Proof.
  split.
  - intros t fl cid p Hid Hp.
    rewrite Feed_spec by apply settled_nil.
    change (m_buffer FrameCodec_new ++ ?d) with d.
    rewrite Encode_wire, <- (app_nil_r (wire _)).
    by rewrite parse_frames_wire by (by apply wf_frame_of).
  - intros xs chunks Hxs Hcat.
    apply feed_chunks_spec; [apply settled_nil|].
    change (m_buffer FrameCodec_new ++ ?d) with d.
    rewrite Hcat, stream_tuples, <- (app_nil_r (stream _)).
    by rewrite parse_frames_stream by (by apply wf_frame_tuples).
Qed.

(** A DATA frame fed whole, and a DATA frame followed by a PING fed in
    five chunks, one of them empty. *)
Lemma frame_round_trip_witness :
  Feed FrameCodec_new (Encode Data x00 7 (Some [x61; x62; x63]) 3) []
  = (FrameCodec_new, [frame_of Data x00 7 [x61; x62; x63]]) /\
  feed_chunks FrameCodec_new
    [[x05; x00; x07]; [x00; x03; x00; x00; x00; x61]; []; [x62; x63; x08; x00];
     [x00; x00; x00; x00; x00; x00]]
  = (FrameCodec_new,
     map frame_of_tuple [(Data, x00, 7, [x61; x62; x63]); (Ping, x00, 0, [])]).
Proof.
  split.
  - apply (proj1 frame_round_trip Data x00 7 [x61; x62; x63]);
      [lia | vm_compute; discriminate].
  - apply (proj2 frame_round_trip
             [(Data, x00, 7, [x61; x62; x63]); (Ping, x00, 0, [])]).
    + repeat constructor; vm_compute; discriminate.
    + reflexivity.
Defined.

(* ===================================================================== *)
(** * The session: what the frame handlers leave alone                    *)
(* ===================================================================== *)

Lemma same_control_refl s : same_control s s.
Proof. by repeat split. Qed.

Lemma same_control_trans s1 s2 s3 :
  same_control s1 s2 -> same_control s2 s3 -> same_control s1 s3.
Proof.
  unfold same_control. intros H1 H2.
  destruct H1 as (?&?&?&?&?&?&?), H2 as (?&?&?&?&?&?&?).
  repeat split; congruence.
Qed.

Lemma same_control_fold {A} (f : MuxSession -> A -> MuxSession) l :
  (forall s x, same_control s (f s x)) ->
  forall s, same_control s (fold_left f l s).
Proof.
  intros Hf. induction l as [|x l IH]; intros s; simpl.
  - apply same_control_refl.
  - eapply same_control_trans; [apply Hf | apply IH].
Qed.

Lemma SendFrame_control s b : same_control s (SendFrame s b).
Proof.
  unfold SendFrame. destruct (m_running s), (m_transport s); by repeat split.
Qed.

Lemma perform_control id s call : same_control s (perform id s call).
Proof.
  destruct call; simpl; first [apply SendFrame_control | by repeat split].
Qed.

Lemma perform_all_control id s calls : same_control s (perform_all id s calls).
Proof. apply same_control_fold. intros. apply perform_control. Qed.

Lemma set_channels_control s m : same_control s (set_channels s m).
Proof. by repeat split. Qed.

Lemma run_on_control s id r : same_control s (run_on s id r).
Proof.
  unfold run_on. eapply same_control_trans;
    [apply set_channels_control | apply perform_all_control].
Qed.

Lemma RemoveChannel_control s id : same_control s (RemoveChannel s id).
Proof.
  unfold RemoveChannel. destruct (m_channels s !! id).
  - eapply same_control_trans;
      [apply set_channels_control | apply perform_all_control].
  - apply same_control_refl.
Qed.

Lemma HandleChannelOpen_control s f : same_control s (HandleChannelOpen s f).
Proof.
  unfold HandleChannelOpen. cbv zeta.
  eapply same_control_trans; [|apply run_on_control].
  eapply same_control_trans; [|apply set_channels_control].
  destruct (m_channels s !! _);
    [apply perform_all_control | apply same_control_refl].
Qed.

Lemma HandleChannelRequest_control env s f :
  same_control s (HandleChannelRequest env s f).
Proof.
  unfold HandleChannelRequest. destruct (FindChannel s _);
    [apply run_on_control | apply same_control_refl].
Qed.

Lemma HandleData_control s f : same_control s (HandleData s f).
Proof.
  unfold HandleData. destruct (FindChannel s _);
    [apply run_on_control | apply same_control_refl].
Qed.

Lemma HandleChannelClose_control s f : same_control s (HandleChannelClose s f).
Proof.
  unfold HandleChannelClose. cbv zeta. destruct (FindChannel s _).
  - destruct (ChannelState_eqb _ _).
    + eapply same_control_trans; [apply run_on_control | apply RemoveChannel_control].
    + apply run_on_control.
  - apply perform_control.
Qed.

Lemma HandleChannelCloseAck_control s f :
  same_control s (HandleChannelCloseAck s f).
Proof.
  unfold HandleChannelCloseAck. cbv zeta. destruct (FindChannel s _).
  - eapply same_control_trans; [apply run_on_control | apply RemoveChannel_control].
  - apply same_control_refl.
Qed.

Lemma HandleWindowUpdate_control s f : same_control s (HandleWindowUpdate s f).
Proof.
  unfold HandleWindowUpdate. destruct (_ <? _)%nat; [apply same_control_refl|].
  destruct (FindChannel s _); [apply run_on_control | apply same_control_refl].
Qed.

Lemma DispatchFrame_control env s f : same_control s (DispatchFrame env s f).
Proof.
  unfold DispatchFrame.
  destruct (type (header f));
    first [ apply same_control_refl
          | apply HandleChannelOpen_control
          | apply HandleChannelRequest_control
          | apply HandleData_control
          | apply HandleChannelClose_control
          | apply HandleChannelCloseAck_control
          | apply SendFrame_control
          | apply HandleWindowUpdate_control ].
Qed.

(** Receiving bytes never changes whether the session is running. *)
Lemma OnDataReceived_running env s data :
  m_running (OnDataReceived env s data) = m_running s.
Proof.
  unfold OnDataReceived. destruct (Feed _ _ _) as [c fs].
  pose proof (same_control_fold (DispatchFrame env) fs
                (DispatchFrame_control env) (set_codec s c)) as (H & _).
  exact H.
Qed.

Lemma OnDataReceived_codec env s data :
  m_codec (OnDataReceived env s data) = (Feed (m_codec s) data []).1.
Proof.
  unfold OnDataReceived. destruct (Feed _ _ _) as [c fs].
  pose proof (same_control_fold (DispatchFrame env) fs
                (DispatchFrame_control env) (set_codec s c)) as (_ & H & _).
  exact H.
Qed.

(* ===================================================================== *)
(** * C1: a header over the payload limit                                 *)
(* ===================================================================== *)

(** A header over the limit met after the frames [fs]: the frames are
    emitted, the buffer is emptied and what follows the header is lost. *)
Lemma Feed_TooLarge c data out fs h rest :
  settled (m_buffer c) ->
  m_buffer c ++ data = stream fs ++ h ++ rest ->
  Forall wf_frame fs ->
  length h = FRAME_HEADER_SIZE ->
  FRAME_MAX_PAYLOAD < payload_length (FrameHeader_of_bytes h) ->
  Feed c data out = (FrameCodec_new, out ++ fs).
Proof.
  intros Hc Hdata Hfs Hh Hbig.
  rewrite Feed_spec, Hdata, parse_frames_stream by done.
  rewrite parse_frames_eq, length_app, Hh.
  rewrite FrameHeader_of_bytes_app by lia.
  destruct (Nat.ltb_spec (FRAME_HEADER_SIZE + length rest) FRAME_HEADER_SIZE); [lia|].
  by destruct (Z.ltb_spec FRAME_MAX_PAYLOAD
                 (payload_length (FrameHeader_of_bytes h))); [|lia].
Qed.

(** C1, as the code has it.  When the bytes fed to a settled codec bring a
    header whose payload length is over 65536 to the front of the buffer
    (after the frames [fs]), [Feed] returns nothing but the frames decoded
    before it, empties the buffer and drops the rest of the input; the
    session dispatches those frames and goes on as before: it is running
    exactly if it was. *)
Theorem oversize_discards_codec_state env s data fs h rest :
  settled (m_buffer (m_codec s)) ->
  m_buffer (m_codec s) ++ data = stream fs ++ h ++ rest ->
  Forall wf_frame fs ->
  length h = FRAME_HEADER_SIZE ->
  FRAME_MAX_PAYLOAD < payload_length (FrameHeader_of_bytes h) ->
  Feed (m_codec s) data [] = (FrameCodec_new, fs) /\
  OnDataReceived env s data
  = fold_left (DispatchFrame env) fs (set_codec s FrameCodec_new) /\
  m_codec (OnDataReceived env s data) = FrameCodec_new /\
  m_running (OnDataReceived env s data) = m_running s.
Proof.
  intros Hc Hdata Hfs Hh Hbig.
  pose proof (Feed_TooLarge _ _ [] _ _ _ Hc Hdata Hfs Hh Hbig) as HF.
  simpl in HF. repeat split.
  - exact HF.
  - unfold OnDataReceived. by rewrite HF.
  - by rewrite OnDataReceived_codec, HF.
  - apply OnDataReceived_running.
Qed.

(** A PING, then a header announcing 65537 bytes, then two more bytes. *)
Lemma oversize_discards_codec_state_witness :
  let s := started_session 262144 30000 in
  let h := [x05; x00; x07; x00; x01; x00; x01; x00] in
  let data := BuildPing ++ h ++ [x61; x62] in
  Feed (m_codec s) data [] = (FrameCodec_new, [frame_of Ping x00 0 []]) /\
  OnDataReceived connect_pending s data
  = fold_left (DispatchFrame connect_pending) [frame_of Ping x00 0 []]
              (set_codec s FrameCodec_new) /\
  m_codec (OnDataReceived connect_pending s data) = FrameCodec_new /\
  m_running (OnDataReceived connect_pending s data) = m_running s.
Proof.
  intros s h data.
  apply (oversize_discards_codec_state connect_pending s data
           [frame_of Ping x00 0 []] h [x61; x62]).
  - reflexivity.
  - reflexivity.
  - repeat constructor; vm_compute; discriminate.
  - reflexivity.
  - reflexivity.
Defined.

(** C1 as stated fails.  A header announcing 65537 bytes is fed to the
    codec of a started session: [Feed] hands its caller exactly what it
    hands it for an empty input (no frame, an empty buffer), so nothing
    tells the caller of an error; and the session is not terminated: it is
    still running and answers the next PING with a PONG. *)
Lemma oversize_is_not_fatal :
  let s := started_session 262144 30000 in
  let h := [x05; x00; x07; x00; x01; x00; x01; x00] in
  payload_length (FrameHeader_of_bytes h) = 65537 /\
  Feed (m_codec s) h [] = Feed (m_codec s) [] [] /\
  m_running (OnDataReceived connect_pending s h) = true /\
  sent_frames (OnDataReceived connect_pending
                 (OnDataReceived connect_pending s h) BuildPing)
  = [BuildPong].
Proof. vm_compute. repeat split. Qed.

(* ===================================================================== *)
(** * The SOCKS5 parser                                                   *)
(* ===================================================================== *)

Lemma at_take l : forall n i, (i < n)%nat -> at_ (take n l) i = at_ l i.
Proof.
  unfold at_. induction l as [|x l IH]; intros n i Hi.
  - by rewrite take_nil.
  - destruct n as [|n]; [lia|]. destruct i as [|i]; [done|].
    simpl. apply IH. lia.
Qed.

Lemma length_take_lt {A} (l : list A) n :
  (n < length l)%nat -> length (take n l) = n.
Proof. intros H. rewrite length_take. lia. Qed.

(** The big-endian port of a request is read back. *)
Lemma port_value hi lo :
  wrap16 (Z.lor (Z.shiftl (u8 hi) 8) (u8 lo)) = 256 * u8 hi + u8 lo.
Proof.
  pose proof (u8_range hi) as Hhi. pose proof (u8_range lo) as Hlo.
  assert (Hland : Z.land (Z.shiftl (u8 hi) 8) (u8 lo) = 0).
  { apply Z.bits_inj'. intros n Hn.
    rewrite Z.land_spec, Z.bits_0.
    destruct (Z.ltb_spec n 8) as [Hlt|Hge].
    - by rewrite Z.shiftl_spec_low.
    - replace (u8 lo) with (u8 lo mod 2 ^ 8) by (apply Z.mod_small; lia).
      rewrite Z.mod_pow2_bits_high by lia. apply andb_false_r. }
  rewrite <- Z.lxor_lor, <- Z.add_nocarry_lxor by done.
  rewrite Z.shiftl_mul_pow2 by lia. unfold wrap16.
  rewrite Z.mod_small; lia.
Qed.

Lemma port_round_trip p :
  0 <= p < 65536 ->
  wrap16 (Z.lor (Z.shiftl (u8 (to_u8 (p / 256))) 8) (u8 (to_u8 p))) = p.
Proof.
  intros Hp. rewrite port_value, !u8_to_u8.
  Z.div_mod_to_equations. lia.
Qed.

(** *** Method selection *)

Lemma ParseMethodRequest_full methods :
  (length methods <= 255)%nat ->
  Socks5.ParseMethodRequest (method_request methods)
  = (Z.of_nat (length (method_request methods)),
     existsb (fun m => Byte.eqb m Socks5.AUTH_NONE) methods).
Proof.
  intros Hlen. unfold Socks5.ParseMethodRequest, method_request.
  cbn [length]. unfold at_. cbn [nth].
  destruct (Nat.ltb_spec (S (S (length methods))) 2); [lia|].
  rewrite byte_eqb_refl. cbn [negb].
  rewrite u8_to_u8, Z.mod_small, Nat2Z.id by lia.
  destruct (Nat.ltb_spec (S (S (length methods))) (2 + length methods)); [lia|].
  cbn [drop]. by rewrite firstn_all.
Qed.

(** A message of which [ParseMethodRequest] consumes every byte is not
    consumed before its last byte has arrived. *)
Lemma ParseMethodRequest_prefix msg n :
  (Socks5.ParseMethodRequest msg).1 = Z.of_nat (length msg) ->
  (n < length msg)%nat ->
  Socks5.ParseMethodRequest (take n msg) = (0, false).
Proof.
  unfold Socks5.ParseMethodRequest. intros Hfull Hn.
  rewrite length_take_lt by done.
  destruct (Nat.ltb_spec n 2) as [|Hn2]; [done|].
  destruct (Nat.ltb_spec (length msg) 2); [lia|].
  rewrite !at_take by lia.
  destruct (negb (Byte.eqb (at_ msg 0) Socks5.VERSION)); [simpl in Hfull; lia|].
  destruct (Nat.ltb_spec (length msg) (2 + Z.to_nat (u8 (at_ msg 1))));
    [simpl in Hfull; lia|].
  simpl in Hfull.
  by destruct (Nat.ltb_spec n (2 + Z.to_nat (u8 (at_ msg 1)))); [|lia].
Qed.

(** *** CONNECT request *)

#[local] Arguments u8 : simpl never.
#[local] Arguments to_u8 : simpl never.
#[local] Arguments Socks5.fmt_ipv4 : simpl never.
#[local] Arguments Socks5.fmt_ipv6 : simpl never.
#[local] Arguments wrap16 : simpl never.

Lemma at_app_r l1 l2 i : at_ (l1 ++ l2) (length l1 + i) = at_ l2 i.
Proof.
  unfold at_. rewrite app_nth2 by lia. f_equal. lia.
Qed.

(** The three ways through [ParseConnectRequest] that consume a request,
    one for each address type. *)
Lemma ParseConnectRequest_ipv4 data out :
  (10 <= length data)%nat ->
  at_ data 0 = Socks5.VERSION -> at_ data 3 = Socks5.ATYP_IPV4 ->
  Socks5.ParseConnectRequest data out
  = (10,
     {| Socks5.atyp := Socks5.ATYP_IPV4;
        Socks5.host := Socks5.fmt_ipv4 (take 4 (drop 4 data));
        Socks5.ipv4 := take 4 (drop 4 data);
        Socks5.ipv6 := Socks5.ipv6 out;
        Socks5.port := wrap16 (Z.lor (Z.shiftl (u8 (at_ data 8)) 8)
                                     (u8 (at_ data 9))) |}).
Proof.
  intros Hlen H0 H3. unfold Socks5.ParseConnectRequest. cbv zeta.
  destruct (Nat.ltb_spec (length data) 4); [lia|].
  rewrite H0, H3, !byte_eqb_refl. cbn [negb].
  destruct (Nat.ltb_spec (length data) (4 + 4 + 2)); [lia|].
  by destruct (negb (Byte.eqb (at_ data 1) Socks5.CMD_CONNECT)).
Qed.

Lemma ParseConnectRequest_domain data out n :
  n = Z.to_nat (u8 (at_ data 4)) ->
  (7 + n <= length data)%nat ->
  at_ data 0 = Socks5.VERSION -> at_ data 3 = Socks5.ATYP_DOMAIN ->
  Socks5.ParseConnectRequest data out
  = (Z.of_nat (7 + n),
     {| Socks5.atyp := Socks5.ATYP_DOMAIN;
        Socks5.host := take n (drop 5 data);
        Socks5.ipv4 := Socks5.ipv4 out;
        Socks5.ipv6 := Socks5.ipv6 out;
        Socks5.port := wrap16 (Z.lor (Z.shiftl (u8 (at_ data (5 + n))) 8)
                                     (u8 (at_ data (6 + n)))) |}).
Proof.
  intros Hn Hlen H0 H3. unfold Socks5.ParseConnectRequest. cbv zeta.
  destruct (Nat.ltb_spec (length data) 4); [lia|].
  rewrite H0, H3, !byte_eqb_refl.
  change (Byte.eqb Socks5.ATYP_DOMAIN Socks5.ATYP_IPV4) with false.
  cbn [negb].
  destruct (Nat.ltb_spec (length data) 5); [lia|].
  rewrite <- Hn.
  destruct (Nat.ltb_spec (length data) (4 + (1 + n) + 2)); [lia|].
  replace (4 + (1 + n) + 1)%nat with (6 + n)%nat by lia.
  replace (4 + (1 + n))%nat with (5 + n)%nat by lia.
  replace (5 + n + 2)%nat with (7 + n)%nat by lia.
  by destruct (negb (Byte.eqb (at_ data 1) Socks5.CMD_CONNECT)).
Qed.

Lemma ParseConnectRequest_ipv6 data out :
  (22 <= length data)%nat ->
  at_ data 0 = Socks5.VERSION -> at_ data 3 = Socks5.ATYP_IPV6 ->
  Socks5.ParseConnectRequest data out
  = (22,
     {| Socks5.atyp := Socks5.ATYP_IPV6;
        Socks5.host := Socks5.fmt_ipv6 (take 16 (drop 4 data));
        Socks5.ipv4 := Socks5.ipv4 out;
        Socks5.ipv6 := take 16 (drop 4 data);
        Socks5.port := wrap16 (Z.lor (Z.shiftl (u8 (at_ data 20)) 8)
                                     (u8 (at_ data 21))) |}).
Proof.
  intros Hlen H0 H3. unfold Socks5.ParseConnectRequest. cbv zeta.
  destruct (Nat.ltb_spec (length data) 4); [lia|].
  rewrite H0, H3, !byte_eqb_refl.
  change (Byte.eqb Socks5.ATYP_IPV6 Socks5.ATYP_IPV4) with false.
  change (Byte.eqb Socks5.ATYP_IPV6 Socks5.ATYP_DOMAIN) with false.
  cbn [negb].
  destruct (Nat.ltb_spec (length data) (4 + 16 + 2)); [lia|].
  by destruct (negb (Byte.eqb (at_ data 1) Socks5.CMD_CONNECT)).
Qed.

(** A well-formed request is consumed whole and parsed in full, whatever
    its command byte. *)
Lemma ParseConnectRequest_full cmd rsv a port out :
  valid_address a -> 0 <= port < 65536 ->
  Socks5.ParseConnectRequest (connect_request cmd rsv a port) out
  = (Z.of_nat (length (connect_request cmd rsv a port)),
     parsed_request a port out).
Proof.
  intros Ha Hport.
  destruct a as [a|name|a]; simpl in Ha.
  - do 5 (destruct a as [|? a]; try discriminate).
    rewrite ParseConnectRequest_ipv4 by (done || (simpl; lia)).
    unfold connect_request, at_. simpl.
    by rewrite port_round_trip.
  - assert (Hn : Z.to_nat (u8 (at_ (connect_request cmd rsv (AddrDomain name) port) 4))
                 = length name).
    { unfold connect_request, at_. simpl.
      rewrite u8_to_u8, Z.mod_small; lia. }
    assert (Hl : length (connect_request cmd rsv (AddrDomain name) port)
                 = (7 + length name)%nat).
    { unfold connect_request. simpl. rewrite length_app. simpl. lia. }
    rewrite (ParseConnectRequest_domain _ _ (length name)); [|done|lia|done|done].
    rewrite Hl. f_equal. unfold parsed_request. f_equal.
    + unfold connect_request. cbn [app address_bytes drop].
      apply take_app_length.
    + replace (connect_request cmd rsv (AddrDomain name) port)
        with (([Socks5.VERSION; cmd; rsv; Socks5.ATYP_DOMAIN;
                to_u8 (Z.of_nat (length name))] ++ name)
              ++ [to_u8 (port / 256); to_u8 port])
        by reflexivity.
      replace (5 + length name)%nat
        with (length ([Socks5.VERSION; cmd; rsv; Socks5.ATYP_DOMAIN;
                       to_u8 (Z.of_nat (length name))] ++ name) + 0)%nat
        by (rewrite length_app; simpl; lia).
      replace (6 + length name)%nat
        with (length ([Socks5.VERSION; cmd; rsv; Socks5.ATYP_DOMAIN;
                       to_u8 (Z.of_nat (length name))] ++ name) + 1)%nat
        by (rewrite length_app; simpl; lia).
      rewrite !at_app_r. unfold at_. simpl. by apply port_round_trip.
  - do 17 (destruct a as [|? a]; try discriminate).
    rewrite ParseConnectRequest_ipv6 by (done || (simpl; lia)).
    unfold connect_request, at_. simpl.
    by rewrite port_round_trip.
Qed.

(** A message of which [ParseConnectRequest] consumes every byte is not
    consumed before its last byte has arrived. *)
Lemma ParseConnectRequest_prefix msg out out' n :
  (Socks5.ParseConnectRequest msg out).1 = Z.of_nat (length msg) ->
  (n < length msg)%nat ->
  (Socks5.ParseConnectRequest (take n msg) out').1 = 0.
Proof.
  unfold Socks5.ParseConnectRequest. cbv zeta. intros Hfull Hn.
  rewrite length_take_lt by done.
  destruct (Nat.ltb_spec n 4) as [|Hn4]; [done|].
  destruct (Nat.ltb_spec (length msg) 4); [lia|].
  rewrite !at_take by lia.
  destruct (negb (Byte.eqb (at_ msg 0) Socks5.VERSION)); [simpl in Hfull; lia|].
  destruct (Byte.eqb (at_ msg 3) Socks5.ATYP_IPV4).
  { destruct (Nat.ltb_spec (length msg) (4 + 4 + 2)); [simpl in Hfull; lia|].
    destruct (negb _); simpl in Hfull;
      by destruct (Nat.ltb_spec n (4 + 4 + 2)); [|lia]. }
  destruct (Byte.eqb (at_ msg 3) Socks5.ATYP_DOMAIN).
  { destruct (Nat.ltb_spec (length msg) 5); [simpl in Hfull; lia|].
    destruct (Nat.ltb_spec n 5) as [|Hn5]; [done|].
    rewrite at_take by lia.
    set (k := Z.to_nat (u8 (at_ msg 4))) in *.
    destruct (Nat.ltb_spec (length msg) (4 + (1 + k) + 2)); [simpl in Hfull; lia|].
    destruct (negb _); simpl in Hfull;
      by destruct (Nat.ltb_spec n (4 + (1 + k) + 2)); [|lia]. }
  destruct (Byte.eqb (at_ msg 3) Socks5.ATYP_IPV6).
  { destruct (Nat.ltb_spec (length msg) (4 + 16 + 2)); [simpl in Hfull; lia|].
    destruct (negb _); simpl in Hfull;
      by destruct (Nat.ltb_spec n (4 + 16 + 2)); [|lia]. }
  simpl in Hfull. lia.
Qed.

(** ** The text of the host *)

(** The formats of the parser print what [host_text] describes. *)
Lemma fmt_u_text b : Socks5.fmt_u b = decimal_text b.
Proof. destruct b; vm_compute; reflexivity. Qed.

Lemma fmt_02x_text b : Socks5.fmt_02x b = hex_text b.
Proof. destruct b; vm_compute; reflexivity. Qed.

Lemma fmt_ipv4_text a :
  length a = 4%nat -> Socks5.fmt_ipv4 a = host_text (AddrIPv4 a).
Proof.
  intros Ha. do 5 (destruct a as [|? a]; try discriminate).
  unfold Socks5.fmt_ipv4, host_text, at_. cbn [nth map join app].
  by rewrite !fmt_u_text.
Qed.

Lemma fmt_ipv6_text a :
  length a = 16%nat -> Socks5.fmt_ipv6 a = host_text (AddrIPv6 a).
Proof.
  intros Ha. do 17 (destruct a as [|? a]; try discriminate).
  unfold Socks5.fmt_ipv6, Socks5.fmt_group, host_text, at_.
  cbn [nth Nat.mul Nat.add hex_groups join].
  rewrite !fmt_02x_text. by rewrite <- !app_assoc.
Qed.

Lemma parsed_request_text a port out :
  valid_address a ->
  parsed_request a port out
  = {| Socks5.atyp := match a with
                      | AddrIPv4 _ => x01
                      | AddrDomain _ => x03
                      | AddrIPv6 _ => x04
                      end;
       Socks5.host := host_text a;
       Socks5.ipv4 := match a with AddrIPv4 b => b | _ => Socks5.ipv4 out end;
       Socks5.ipv6 := match a with AddrIPv6 b => b | _ => Socks5.ipv6 out end;
       Socks5.port := port |}.
Proof.
  intros Ha. destruct a as [a|name|a]; cbn [valid_address] in Ha;
    unfold parsed_request.
  - by rewrite fmt_ipv4_text.
  - reflexivity.
  - by rewrite fmt_ipv6_text.
Qed.

(** C5.  A method-selection message and a CONNECT request, as RFC 1928
    lays them out, are parsed incrementally: every proper prefix returns
    [consumed = 0], and the whole message returns its length and the
    complete result: for the method selection whether NO_AUTH is on offer,
    for the request the address type, the text of the host (dotted decimal
    for IPv4, the name for a domain, eight colon-separated groups of four
    hexadecimal digits for IPv6), the address bytes and the port. *)
Theorem socks5_parse_incremental :
  (forall methods,
     (length methods <= 255)%nat ->
     let msg := method_request methods in
     Socks5.ParseMethodRequest msg
     = (Z.of_nat (length msg),
        existsb (fun m => Byte.eqb m Socks5.AUTH_NONE) methods) /\
     forall n, (n < length msg)%nat ->
       Socks5.ParseMethodRequest (take n msg) = (0, false)) /\
  (forall rsv a port out,
     valid_address a -> 0 <= port < 65536 ->
     let msg := connect_request Socks5.CMD_CONNECT rsv a port in
     Socks5.ParseConnectRequest msg out
     = (Z.of_nat (length msg),
        {| Socks5.atyp := match a with
                          | AddrIPv4 _ => x01
                          | AddrDomain _ => x03
                          | AddrIPv6 _ => x04
                          end;
           Socks5.host := host_text a;
           Socks5.ipv4 := match a with
                          | AddrIPv4 b => b
                          | _ => Socks5.ipv4 out
                          end;
           Socks5.ipv6 := match a with
                          | AddrIPv6 b => b
                          | _ => Socks5.ipv6 out
                          end;
           Socks5.port := port |}) /\
     forall n out', (n < length msg)%nat ->
       (Socks5.ParseConnectRequest (take n msg) out').1 = 0).
Proof.
  split.
  - intros methods Hlen msg. split.
    + by apply ParseMethodRequest_full.
    + intros n Hn. apply ParseMethodRequest_prefix; [|done].
      subst msg. by rewrite ParseMethodRequest_full.
  - intros rsv a port out Ha Hport msg. split.
    + subst msg. rewrite ParseConnectRequest_full by done.
      by rewrite parsed_request_text.
    + intros n out' Hn. apply (ParseConnectRequest_prefix msg out); [|done].
      subst msg. by rewrite ParseConnectRequest_full.
Qed.

(** A selection offering two methods, a CONNECT to 192.168.1.1:8080 and a
    CONNECT to 2001:db8::2a, port 443. *)
Lemma socks5_parse_incremental_witness :
  (let msg := [x05; x02; x02; x00] in
   Socks5.ParseMethodRequest msg = (4, true) /\
   forall n, (n < 4)%nat ->
     Socks5.ParseMethodRequest (take n msg) = (0, false)) /\
  (let msg := [x05; x01; x00; x01; xc0; xa8; x01; x01; x1f; x90] in
   Socks5.ParseConnectRequest msg Socks5.ConnectRequest_zero
   = (10,
      {| Socks5.atyp := x01;
         Socks5.host := [x31; x39; x32; x2e; x31; x36; x38; x2e; x31; x2e; x31];
         Socks5.ipv4 := [xc0; xa8; x01; x01];
         Socks5.ipv6 := [x00; x00; x00; x00; x00; x00; x00; x00;
                         x00; x00; x00; x00; x00; x00; x00; x00];
         Socks5.port := 8080 |}) /\
   forall n out', (n < 10)%nat ->
     (Socks5.ParseConnectRequest (take n msg) out').1 = 0) /\
  (let msg := [x05; x01; x00; x04;
               x20; x01; x0d; xb8; x00; x00; x00; x00;
               x00; x00; x00; x00; x00; x00; x00; x2a; x01; xbb] in
   Socks5.ParseConnectRequest msg Socks5.ConnectRequest_zero
   = (22,
      {| Socks5.atyp := x04;
         Socks5.host :=
           [x32; x30; x30; x31; x3a; x30; x64; x62; x38; x3a;
            x30; x30; x30; x30; x3a; x30; x30; x30; x30; x3a;
            x30; x30; x30; x30; x3a; x30; x30; x30; x30; x3a;
            x30; x30; x30; x30; x3a; x30; x30; x32; x61];
         Socks5.ipv4 := [x00; x00; x00; x00];
         Socks5.ipv6 := [x20; x01; x0d; xb8; x00; x00; x00; x00;
                         x00; x00; x00; x00; x00; x00; x00; x2a];
         Socks5.port := 443 |}) /\
   forall n out', (n < 22)%nat ->
     (Socks5.ParseConnectRequest (take n msg) out').1 = 0).
Proof.
  split; [|split].
  - apply (proj1 socks5_parse_incremental [x02; x00]). simpl. lia.
  - apply (proj2 socks5_parse_incremental x00
             (AddrIPv4 [xc0; xa8; x01; x01]) 8080 Socks5.ConnectRequest_zero).
    + reflexivity.
    + lia.
  - apply (proj2 socks5_parse_incremental x00
             (AddrIPv6 [x20; x01; x0d; xb8; x00; x00; x00; x00;
                        x00; x00; x00; x00; x00; x00; x00; x2a])
             443 Socks5.ConnectRequest_zero).
    + reflexivity.
    + lia.
Defined.


(** The command byte has no part in what [ParseConnectRequest] returns. *)
Lemma ParseConnectRequest_ignores_command v cmd cmd' rest out :
  Socks5.ParseConnectRequest (v :: cmd :: rest) out
  = Socks5.ParseConnectRequest (v :: cmd' :: rest) out.
Proof.
  unfold Socks5.ParseConnectRequest, at_. cbv zeta. cbn [length nth drop].
  destruct (S (S (length rest)) <? 4)%nat; [done|].
  destruct (negb (Byte.eqb v Socks5.VERSION)); [done|].
  destruct (Byte.eqb _ Socks5.ATYP_IPV4);
    [|destruct (Byte.eqb _ Socks5.ATYP_DOMAIN);
      [destruct (_ <? 5)%nat; [done|]|destruct (Byte.eqb _ Socks5.ATYP_IPV6); [|done]]];
    (destruct (_ <? _)%nat; [done|]);
    by destruct (negb (Byte.eqb cmd _)), (negb (Byte.eqb cmd' _)).
Qed.

(** C6 at a BIND request (command 0x02) for 192.168.1.1:8080: the parser
    hands back exactly what it hands back for the CONNECT request with the
    same address, so its caller cannot tell that the command is not
    supported; the channel goes on to connect. *)
Lemma bind_request_taken_for_connect :
  let bind := [x05; x02; x00; x01; xc0; xa8; x01; x01; x1f; x90] in
  let connect := [x05; x01; x00; x01; xc0; xa8; x01; x01; x1f; x90] in
  let c := set_method_done (set_state (Channel_new 7 262144) Requesting) true in
  Socks5.ParseConnectRequest bind Socks5.ConnectRequest_zero
  = Socks5.ParseConnectRequest connect Socks5.ConnectRequest_zero /\
  (Socks5.ParseConnectRequest bind Socks5.ConnectRequest_zero).1 = 10 /\
  m_state (OnRequest connect_pending c bind).1 = Connecting /\
  (OnRequest connect_pending c bind).2
  = [TargetConnectAsync
       [x31; x39; x32; x2e; x31; x36; x38; x2e; x31; x2e; x31] 8080].
Proof. vm_compute. repeat split. Qed.

(* ===================================================================== *)
(** * The channel: flow control                                           *)
(* ===================================================================== *)

#[local] Arguments wrap32 : simpl never.

Lemma wrap32_small z : 0 <= z < 4294967296 -> wrap32 z = z.
Proof. intros H. unfold wrap32. by apply Z.mod_small. Qed.

Lemma wrap32_add_l a b : wrap32 (wrap32 a + b) = wrap32 (a + b).
Proof. unfold wrap32. by rewrite Z.add_mod_idemp_l by lia. Qed.

Lemma wrap32_range z : 0 <= wrap32 z < 4294967296.
Proof. unfold wrap32. apply Z.mod_pos_bound. lia. Qed.

(** C4, as the code has it.  A channel in state [Relaying] that receives a
    DATA payload adds its size to [recv_consumed], modulo 2^32.  If the new
    value reaches [recv_window_initial / 2], the channel asks the session
    for a WINDOW_UPDATE carrying that value, adds it to [recv_window],
    modulo 2^32, and resets [recv_consumed] to zero; otherwise it asks for
    no WINDOW_UPDATE and leaves [recv_window] alone.  The sums are the
    exact ones whenever they are below 2^32. *)
Theorem recv_window_update c data :
  m_state c = Relaying ->
  let consumed := wrap32 (m_recv_consumed c + size32 data) in
  let '(c', calls) := OnData c data in
  (if m_recv_window_initial c / 2 <=? consumed then
     calls = forwarded c data ++ [SendWindowUpdate (m_id c) consumed] /\
     m_recv_window c' = wrap32 (m_recv_window c + consumed) /\
     m_recv_consumed c' = 0
   else
     calls = forwarded c data /\
     (forall cid inc, SendWindowUpdate cid inc ∉ calls) /\
     m_recv_window c' = m_recv_window c /\
     m_recv_consumed c' = consumed) /\
  (0 <= m_recv_consumed c ->
   m_recv_consumed c + Z.of_nat (length data) < 4294967296 ->
   consumed = m_recv_consumed c + Z.of_nat (length data)) /\
  (0 <= m_recv_window c -> m_recv_window c + consumed < 4294967296 ->
   wrap32 (m_recv_window c + consumed) = m_recv_window c + consumed) /\
  m_state c' = Relaying /\
  m_recv_window_initial c' = m_recv_window_initial c /\
  m_send_window c' = m_send_window c.
Proof.
  intros Hst consumed. unfold OnData. rewrite Hst. cbn [ChannelState_eqb negb].
  cbn [m_recv_consumed set_recv_consumed m_recv_window_initial m_target
       m_id m_recv_window set_recv_window].
  fold consumed. fold (forwarded c data).
  assert (Hexact1 : 0 <= m_recv_consumed c ->
            m_recv_consumed c + Z.of_nat (length data) < 4294967296 ->
            consumed = m_recv_consumed c + Z.of_nat (length data)).
  { intros H0 Hlt. subst consumed. unfold size32.
    rewrite (wrap32_small (Z.of_nat _)) by lia. apply wrap32_small. lia. }
  assert (Hexact2 : 0 <= m_recv_window c ->
            m_recv_window c + consumed < 4294967296 ->
            wrap32 (m_recv_window c + consumed) = m_recv_window c + consumed).
  { intros H0 Hlt. apply wrap32_small.
    pose proof (wrap32_range (m_recv_consumed c + size32 data)). lia. }
  destruct (m_recv_window_initial c / 2 <=? consumed).
  - by repeat split.
  - repeat split; try done.
    intros cid inc. unfold forwarded. destruct (m_target c).
    + intros Hin. apply list_elem_of_singleton in Hin. discriminate.
    + apply not_elem_of_nil.
Qed.

(** A window of 1024 bytes and a first DATA frame of 600 bytes. *)
Lemma recv_window_update_witness :
  let c := relaying_channel 7 1024 1024 in
  let data := replicate 600 x41 in
  (OnData c data).2 = [TargetSend data; SendWindowUpdate 7 600] /\
  m_recv_window (OnData c data).1 = 1624 /\
  m_recv_consumed (OnData c data).1 = 0.
Proof.
  intros c data.
  pose proof (recv_window_update c data eq_refl) as H. cbv zeta in H.
  destruct (OnData c data) as [c' calls].
  change (m_recv_window_initial c / 2 <=? wrap32 (m_recv_consumed c + size32 data))
    with true in H.
  destruct H as ((Hcalls & Hwin & Hcons) & _).
  cbn [fst snd]. rewrite Hcalls, Hwin, Hcons. repeat split.
Defined.

(** Two frames of 65536 bytes on a channel with the default window of
    262144 bytes and nothing pending make one WINDOW_UPDATE of 131072. *)
Lemma two_frames_window full c :
  size32 full = 65536 ->
  m_state c = Relaying ->
  m_recv_window_initial c = 262144 ->
  m_recv_consumed c = 0 ->
  two_frames full c = set_recv_window c (wrap32 (m_recv_window c + 131072)).
Proof.
  destruct c as [id st buf md req tg sw rw ri rc].
  cbn [m_state m_recv_window_initial m_recv_consumed m_recv_window].
  intros Hsz -> -> ->. unfold two_frames.
  unfold OnData, set_recv_consumed, set_recv_window.
  cbn [m_state ChannelState_eqb negb m_recv_consumed m_recv_window_initial
       m_target m_recv_window m_id m_socks5_buf m_method_done m_connect_req
       m_send_window fst].
  rewrite Hsz.
  change (wrap32 (0 + 65536)) with 65536.
  change (262144 / 2 <=? 65536) with false.
  cbn [m_state ChannelState_eqb negb m_recv_consumed m_recv_window_initial
       m_target m_recv_window m_id m_socks5_buf m_method_done m_connect_req
       m_send_window fst].
  change (wrap32 (65536 + 65536)) with 131072.
  change (262144 / 2 <=? 131072) with true.
  reflexivity.
Qed.

(** After [k] such pairs of frames, [recv_window] has grown by
    [k * 131072], modulo 2^32. *)
Lemma iter_two_frames full k : forall c,
  size32 full = 65536 ->
  m_state c = Relaying ->
  m_recv_window_initial c = 262144 ->
  m_recv_consumed c = 0 ->
  0 <= m_recv_window c < 4294967296 ->
  Nat.iter k (two_frames full) c
  = set_recv_window c (wrap32 (m_recv_window c + Z.of_nat k * 131072)).
Proof.
  induction k as [|k IH]; intros c Hsz Hst Hini Hcons Hrw.
  - change (Nat.iter 0 (two_frames full) c) with c.
    rewrite Z.mul_0_l, Z.add_0_r, wrap32_small by done.
    by destruct c.
  - change (Nat.iter (S k) (two_frames full) c)
      with (two_frames full (Nat.iter k (two_frames full) c)).
    rewrite IH by done.
    rewrite two_frames_window by done.
    cbn [m_recv_window set_recv_window].
    rewrite wrap32_add_l.
    replace (m_recv_window c + Z.of_nat k * 131072 + 131072)
      with (m_recv_window c + Z.of_nat (S k) * 131072) by lia.
    by destruct c.
Qed.

Lemma size32_replicate n (b : byte) :
  0 <= n < 4294967296 -> size32 (replicate (Z.to_nat n) b) = n.
Proof.
  intros Hn. unfold size32. rewrite length_replicate, Z2Nat.id by lia.
  by apply wrap32_small.
Qed.

(** The state of a channel with the default window after 32765 pairs of
    full frames, one more full frame and a frame one byte short of full. *)
Lemma window_nearly_wrapped full almost :
  size32 full = 65536 -> size32 almost = 65535 ->
  let c0 := relaying_channel 7 262144 262144 in
  let c1 := Nat.iter (Z.to_nat 32765) (two_frames full) c0 in
  let c2 := (OnData c1 full).1 in
  (OnData c2 almost).1
  = set_recv_consumed (set_recv_window c0 4294836224) 131071.
Proof.
  intros Hfull Halmost c0 c1 c2.
  assert (Hc1 : c1 = set_recv_window c0 4294836224).
  { subst c1. rewrite iter_two_frames by (done || (cbn; lia)).
    by rewrite Z2Nat.id by lia. }
  subst c2. rewrite Hc1. unfold OnData.
  cbn [c0 relaying_channel m_state set_recv_window set_recv_consumed
       ChannelState_eqb negb m_recv_consumed m_recv_window_initial
       m_target m_recv_window m_id m_socks5_buf m_method_done
       m_connect_req m_send_window fst].
  rewrite Hfull.
  change (262144 / 2 <=? wrap32 (0 + 65536)) with false.
  cbn [c0 relaying_channel m_state set_recv_window set_recv_consumed
       ChannelState_eqb negb m_recv_consumed m_recv_window_initial
       m_target m_recv_window m_id m_socks5_buf m_method_done
       m_connect_req m_send_window fst].
  rewrite Halmost. reflexivity.
Qed.

(** C4 as stated fails.  A channel with the default window of 262144 bytes
    has received 32765 pairs of frames of 65536 bytes, then frames of 65536
    and of 65535 bytes: [recv_window] has grown to 4294836224 and 131071
    bytes are pending.  One more byte of DATA brings [recv_consumed] to the
    threshold and a WINDOW_UPDATE of 131072 is asked for, but [recv_window]
    does not increase by 131072: the 32-bit counter wraps to zero. *)
Lemma recv_window_wraps :
  let full := replicate (Z.to_nat 65536) x41 in
  let almost := replicate (Z.to_nat 65535) x41 in
  let c0 := relaying_channel 7 262144 262144 in
  let c1 := Nat.iter (Z.to_nat 32765) (two_frames full) c0 in
  let c2 := (OnData c1 full).1 in
  let c := (OnData c2 almost).1 in
  let r := OnData c [x41] in
  m_state c = Relaying /\
  m_recv_window c = 4294836224 /\
  m_recv_consumed c = 131071 /\
  r.2 = [TargetSend [x41]; SendWindowUpdate 7 131072] /\
  m_recv_window r.1 = 0 /\
  m_recv_window r.1 <> m_recv_window c + 131072.
Proof.
  intros full almost c0 c1 c2 c r.
  assert (Hc : c = set_recv_consumed (set_recv_window c0 4294836224) 131071).
  { apply window_nearly_wrapped; apply size32_replicate; lia. }
  clearbody c. subst c r. vm_compute. repeat split; discriminate.
Qed.

(** ** Sending to the mux *)

(** One iteration of the loop of [SendToMux], whatever the fuel. *)
Lemma SendToMux_loop_step fuel id w b rest :
  SendToMux_loop (S fuel) id w (b :: rest) =
  let chunk := wrap32 (Z.min (Z.of_nat (length (b :: rest))) FRAME_MAX_PAYLOAD) in
  let '(chunk, w') :=
    if 0 <? w then (Z.min chunk w, wrap32 (w - Z.min chunk w)) else (chunk, w) in
  let '(w'', calls) :=
    SendToMux_loop fuel id w' (drop (Z.to_nat chunk) (b :: rest)) in
  (w'', SendData id (b :: rest) chunk :: calls).
Proof. reflexivity. Qed.

(** A chunk is never empty. *)
Lemma chunk_positive (data : list byte) w :
  data <> [] ->
  let chunk := wrap32 (Z.min (Z.of_nat (length data)) FRAME_MAX_PAYLOAD) in
  1 <= (if 0 <? w then Z.min chunk w else chunk).
Proof.
  intros Hne chunk.
  assert (1 <= chunk).
  { subst chunk. rewrite FRAME_MAX_PAYLOAD_val.
    destruct data; [done|]. cbn [length]. rewrite wrap32_small; lia. }
  destruct (Z.ltb_spec 0 w); lia.
Qed.

(** The fuel given by [SendToMux] is never exhausted. *)
Lemma SendToMux_loop_fuel f1 : forall f2 id w rest,
  (length rest <= f1)%nat -> (length rest <= f2)%nat ->
  SendToMux_loop f1 id w rest = SendToMux_loop f2 id w rest.
Proof.
  induction f1 as [|f1 IH]; intros f2 id w rest H1 H2.
  - destruct rest; [by destruct f2 | simpl in H1; lia].
  - destruct rest as [|b rest]; [by destruct f2|].
    destruct f2 as [|f2]; [simpl in H2; lia|].
    rewrite !SendToMux_loop_step. cbv zeta.
    pose proof (chunk_positive (b :: rest) w ltac:(done)) as Hpos.
    cbv zeta in Hpos.
    set (chunk := wrap32 _) in *.
    destruct (0 <? w);
      (erewrite IH; [reflexivity| |]); rewrite length_drop;
      cbn [length] in *; lia.
Qed.

(** Whatever the send window, every byte given to [SendToMux] is sent in
    DATA frames at once, in order. *)
Lemma SendToMux_loop_sends_all fuel : forall id w rest,
  (length rest <= fuel)%nat ->
  data_bytes (SendToMux_loop fuel id w rest).2 = rest.
Proof.
  induction fuel as [|fuel IH]; intros id w rest Hlen.
  - destruct rest; [done | simpl in Hlen; lia].
  - destruct rest as [|b rest]; [done|].
    rewrite SendToMux_loop_step. cbv zeta.
    pose proof (chunk_positive (b :: rest) w ltac:(done)) as Hpos.
    cbv zeta in Hpos.
    set (chunk := wrap32 _) in *.
    destruct (0 <? w).
    + specialize (IH id (wrap32 (w - Z.min chunk w))
                    (drop (Z.to_nat (Z.min chunk w)) (b :: rest))).
      destruct (SendToMux_loop fuel _ _ _) as [w'' calls].
      cbn [snd] in *. unfold data_bytes in *. cbn [map concat].
      rewrite IH; [apply take_drop|].
      rewrite length_drop. cbn [length] in *. lia.
    + specialize (IH id w (drop (Z.to_nat chunk) (b :: rest))).
      destruct (SendToMux_loop fuel _ _ _) as [w'' calls].
      cbn [snd] in *. unfold data_bytes in *. cbn [map concat].
      rewrite IH; [apply take_drop|].
      rewrite length_drop. cbn [length] in *. lia.
Qed.

Lemma SendToMux_sends_all c data : data_bytes (SendToMux c data).2 = data.
Proof.
  unfold SendToMux.
  pose proof (SendToMux_loop_sends_all (length data) (m_id c)
                (m_send_window c) data ltac:(done)) as H.
  by destruct (SendToMux_loop _ _ _ _).
Qed.

(** C2 at a channel whose send window is exhausted.  Three bytes arrive
    from the outbound connection: they are not retained but sent at once in
    a DATA frame, which a running session puts on the transport, and the
    window stays at zero.  With a window of two bytes and five bytes
    arriving, the three bytes beyond the window are sent as well. *)
Lemma send_window_zero_still_sends :
  let data := [x61; x62; x63] in
  let c := relaying_channel 7 262144 0 in
  let s := set_channels (started_session 262144 30000) {[ 7 := c ]} in
  OnTargetData c data = (c, [SendData 7 data 3]) /\
  sent_frames (target_event s 7 (fun ch => OnTargetData ch data))
  = [BuildData 7 data 3] /\
  (OnTargetData (relaying_channel 7 262144 2) [x61; x62; x63; x64; x65]).2
  = [SendData 7 [x61; x62; x63; x64; x65] 2; SendData 7 [x63; x64; x65] 3].
Proof. vm_compute. repeat split. Qed.

(* ===================================================================== *)
(** * The channel: completion of the outbound connect                     *)
(* ===================================================================== *)

(** C10.  On a channel that is not in state [Connecting], the completion
    of the outbound connect does nothing, whatever the error code: the
    channel is unchanged (its state, SOCKS5 buffer and windows with it), it
    asks nothing of the session, and the session that holds it is unchanged
    (the frames sent to the transport with it). *)
Theorem connect_completion_outside_connecting c ec :
  m_state c <> Connecting ->
  OnTargetConnected c ec = (c, []) /\
  forall s id,
    m_channels s !! id = Some c ->
    target_event s id (fun ch => OnTargetConnected ch ec) = s.
Proof.
  intros Hst.
  assert (H : OnTargetConnected c ec = (c, [])).
  { unfold OnTargetConnected. by destruct (m_state c). }
  split; [done|].
  intros s id Hid. unfold target_event, run_on. rewrite Hid, H.
  cbn [fst snd perform_all fold_left].
  rewrite insert_id by done. by destruct s.
Qed.

(** A refused connect reported to a channel that is already relaying. *)
Lemma connect_completion_outside_connecting_witness :
  let c := relaying_channel 7 262144 262144 in
  let s := set_channels (started_session 262144 30000) {[ 7 := c ]} in
  OnTargetConnected c ConnectionRefused = (c, []) /\
  target_event s 7 (fun ch => OnTargetConnected ch ConnectionRefused) = s.
Proof.
  intros c s.
  destruct (connect_completion_outside_connecting c ConnectionRefused
              ltac:(discriminate)) as [H1 H2].
  split; [exact H1|]. apply H2. reflexivity.
Defined.

(* ===================================================================== *)
(** * The session: closing, shutdown and reopening                        *)
(* ===================================================================== *)

(** ** The frames of the session, byte by byte *)

Lemma BuildChannelOpenAck_bytes cid :
  BuildChannelOpenAck cid
  = [x02; x00; to_u8 cid; to_u8 (cid / 256); x00; x00; x00; x00].
Proof. reflexivity. Qed.

Lemma BuildChannelCloseAck_bytes cid :
  BuildChannelCloseAck cid
  = [x07; x00; to_u8 cid; to_u8 (cid / 256); x00; x00; x00; x00].
Proof. reflexivity. Qed.

Lemma BuildChannelRequestAck_method_bytes cid :
  BuildChannelRequestAck cid [x05; x00] 2
  = [x04; x00; to_u8 cid; to_u8 (cid / 256); x02; x00; x00; x00; x05; x00].
Proof. reflexivity. Qed.

Lemma BuildChannelRequestAck_success_bytes cid :
  BuildChannelRequestAck cid
    [x05; x00; x00; x01; x00; x00; x00; x00; x00; x00] 10
  = [x04; x00; to_u8 cid; to_u8 (cid / 256); x0a; x00; x00; x00;
     x05; x00; x00; x01; x00; x00; x00; x00; x00; x00].
Proof. reflexivity. Qed.

Lemma Channel_new_fields id ws :
  set_state (Channel_new id ws) Requesting
  = {| m_id := id; m_state := Requesting; m_socks5_buf := [];
       m_method_done := false;
       m_connect_req :=
         {| Socks5.atyp := x00; Socks5.host := [];
            Socks5.ipv4 := [x00; x00; x00; x00];
            Socks5.ipv6 := [x00; x00; x00; x00; x00; x00; x00; x00;
                            x00; x00; x00; x00; x00; x00; x00; x00];
            Socks5.port := 0 |};
       m_target := None; m_send_window := ws; m_recv_window := ws;
       m_recv_window_initial := ws; m_recv_consumed := 0 |}.
Proof. reflexivity. Qed.

(** C7, as the code has it.  A CHANNEL_CLOSE for an id that is not in the
    registry is answered by a session that is running and has a transport:
    it puts the eight bytes of a CHANNEL_CLOSE_ACK for that id on the
    transport (type 07, flags 00, the id in little-endian order, length 0)
    and changes nothing else.  A session that is not running, or has no
    transport, answers nothing and is unchanged.  A CHANNEL_CLOSE_ACK for
    an id that is not in the registry is ignored by every session: nothing
    is sent and the session is unchanged. *)
Theorem close_of_unknown_channel env s f :
  m_channels s !! channel_id (header f) = None ->
  let id := channel_id (header f) in
  (type (header f) = x06 ->
   (forall t, m_running s = true -> m_transport s = Some t ->
      DispatchFrame env s f
      = set_transport s
          (Some {| sent := sent t ++
                     [[x07; x00; to_u8 id; to_u8 (id / 256);
                       x00; x00; x00; x00]] |})) /\
   (m_running s = false \/ m_transport s = None ->
    DispatchFrame env s f = s)) /\
  (type (header f) = x07 -> DispatchFrame env s f = s).
Proof.
  intros Habsent id. split.
  - intros Hty.
    assert (Hd : DispatchFrame env s f = SendFrame s (BuildChannelCloseAck id)).
    { unfold DispatchFrame. rewrite Hty. unfold HandleChannelClose, FindChannel.
      cbv zeta. by rewrite Habsent. }
    rewrite Hd. unfold SendFrame. split.
    + intros t Hrun Htr. by rewrite Hrun, Htr, BuildChannelCloseAck_bytes.
    + intros [Hrun|Htr]; [by rewrite Hrun|].
      rewrite Htr. by destruct (m_running s).
  - intros Hty. unfold DispatchFrame. rewrite Hty.
    unfold HandleChannelCloseAck, FindChannel. cbv zeta. by rewrite Habsent.
Qed.

(** A started session with an empty registry. *)
Lemma close_of_unknown_channel_witness :
  let s := started_session 262144 30000 in
  let close := {| header := {| type := x06; flags := x00; channel_id := 9;
                               payload_length := 0 |};
                  payload := [] |} in
  let ack := {| header := {| type := x07; flags := x00; channel_id := 9;
                             payload_length := 0 |};
                payload := [] |} in
  sent_frames (DispatchFrame connect_pending s close)
  = [[x07; x00; x09; x00; x00; x00; x00; x00]] /\
  DispatchFrame connect_pending s ack = s.
Proof.
  intros s close ack.
  destruct (close_of_unknown_channel connect_pending s close eq_refl)
    as [H1 _].
  destruct (close_of_unknown_channel connect_pending s ack eq_refl)
    as [_ H2].
  split.
  - destruct (H1 eq_refl) as [H _].
    rewrite (H {| sent := [] |} eq_refl eq_refl). reflexivity.
  - exact (H2 eq_refl).
Defined.

(** C7 as stated fails on a session that has been shut down, which still
    dispatches what it receives: the CHANNEL_CLOSE for the unknown channel
    9 is not answered. *)
Lemma close_after_shutdown_not_acknowledged :
  let s := Shutdown (started_session 262144 30000) in
  let close := [x06; x00; x09; x00; x00; x00; x00; x00] in
  m_running s = false /\
  m_channels s !! 9 = None /\
  sent_frames (OnDataReceived connect_pending s close) = [] /\
  OnDataReceived connect_pending s close = s.
Proof. vm_compute. repeat split. Qed.


(** C8 at a session that was started and then shut down.  A CHANNEL_OPEN
    for id 7 that arrives afterwards is not ignored: a channel is created
    and registered in state [Requesting], although no frame is sent in
    response; and the SOCKS5 exchange that follows on that channel starts
    an outbound connect. *)
Lemma frames_after_shutdown_are_dispatched :
  let s := Shutdown (started_session 262144 30000) in
  let s1 := OnDataReceived connect_pending s (BuildChannelOpen 7) in
  let s2 := OnDataReceived connect_pending s1
              (BuildChannelRequest 7 [x05; x01; x00] 3 ++
               BuildChannelRequest 7
                 [x05; x01; x00; x01; xc0; xa8; x01; x01; x1f; x90] 10) in
  m_running s = false /\
  m_channels s = ∅ /\
  m_state <$> (m_channels s1 !! 7) = Some Requesting /\
  sent_frames s1 = [] /\
  m_state <$> (m_channels s2 !! 7) = Some Connecting /\
  target_calls s2
  = [(7, TargetConnectAsync
           [x31; x39; x32; x2e; x31; x36; x38; x2e; x31; x2e; x31] 8080)] /\
  sent_frames s2 = [].
Proof. vm_compute. repeat split. Qed.

Lemma SendFrame_channels s b : m_channels (SendFrame s b) = m_channels s.
Proof. unfold SendFrame. by destruct (m_running s), (m_transport s). Qed.

Lemma SendFrame_target_calls s b : target_calls (SendFrame s b) = target_calls s.
Proof. unfold SendFrame. by destruct (m_running s), (m_transport s). Qed.

(** What the destruction of a channel asks of its connection: nothing if
    it owns none; otherwise its destruction, after an explicit [Close] if
    the channel was not yet closed. *)
Lemma Channel_delete_calls c :
  Channel_delete c =
  match m_target c with
  | None => []
  | Some _ =>
      if ChannelState_eqb (m_state c) Closed then [TargetDelete]
      else [TargetClose; TargetDelete]
  end.
Proof.
  unfold Channel_delete, ForceClose.
  destruct c as [id st buf md req tg sw rw ri rc].
  by destruct st, tg.
Qed.

Lemma perform_all_Channel_delete id s c :
  perform_all id s (Channel_delete c)
  = set_target_calls s (target_calls s ++ (pair id <$> Channel_delete c)).
Proof.
  rewrite Channel_delete_calls.
  destruct (m_target c); [destruct (ChannelState_eqb _ _)|].
  - reflexivity.
  - cbn [perform_all fold_left perform fmap list_fmap].
    unfold set_target_calls. cbn. by rewrite <- app_assoc.
  - cbn [perform_all fold_left fmap list_fmap]. rewrite app_nil_r.
    by destruct s.
Qed.

(** What [HandleChannelOpen] does when the id is already registered, in
    terms of the constructor and the destructor of a channel. *)
Lemma HandleChannelOpen_reopen env s f old :
  type (header f) = FrameType_value ChannelOpen ->
  m_channels s !! channel_id (header f) = Some old ->
  let id := channel_id (header f) in
  let s' := DispatchFrame env s f in
  m_channels s'
  = <[id := set_state (Channel_new id (m_channel_window_size s)) Requesting]>
      (m_channels s) /\
  dom (m_channels s') = dom (m_channels s) /\
  target_calls s' = target_calls s ++ (pair id <$> Channel_delete old) /\
  (is_Some (m_target old) -> TargetDelete ∈ Channel_delete old) /\
  (is_Some (m_target old) -> m_state old <> Closed ->
   Channel_delete old = [TargetClose; TargetDelete]).
Proof.
  intros Hty Hold id s'.
  assert (Hs' : s' = SendFrame
            (set_channels
               (set_target_calls s
                  (target_calls s ++ (pair id <$> Channel_delete old)))
               (<[id := set_state (Channel_new id (m_channel_window_size s))
                                  Requesting]> (m_channels s)))
            (BuildChannelOpenAck id)).
  { subst s'. unfold DispatchFrame. rewrite Hty. cbn [FrameType_value].
    unfold HandleChannelOpen. cbv zeta. rewrite Hold. fold id.
    rewrite perform_all_Channel_delete. unfold run_on, OnOpen.
    cbn [fst snd perform_all fold_left perform m_id set_state Channel_new
         m_channels set_channels set_target_calls m_channel_window_size].
    by rewrite insert_insert_eq. }
  rewrite Hs', SendFrame_channels, SendFrame_target_calls.
  cbn [m_channels set_channels target_calls set_target_calls].
  repeat split.
  - rewrite dom_insert_L.
    assert (Hin : id ∈ dom (m_channels s)) by (apply elem_of_dom; eauto).
    apply subseteq_union_1_L, singleton_subseteq_l, Hin.
  - intros [t Ht]. rewrite Channel_delete_calls, Ht.
    destruct (ChannelState_eqb _ _);
      [apply list_elem_of_singleton; reflexivity|].
    apply list_elem_of_further, list_elem_of_singleton. reflexivity.
  - intros [t Ht] Hst. rewrite Channel_delete_calls, Ht.
    by destruct (m_state old).
Qed.

(** C9.  A CHANNEL_OPEN for an id that is already in the registry destroys
    the channel registered under it, and with it the outbound connection
    that channel owns (the connection is destroyed, after an explicit close
    unless the channel was already closed), and registers a new channel
    under the same id: the registry has the same ids as before, and maps
    this one to a channel with this id, in state [Requesting], with an
    empty SOCKS5 buffer, no method negotiated, no connection, both windows
    and the initial window at the configured size and nothing consumed. *)
Theorem reopen_replaces_channel env s f old :
  type (header f) = x01 ->
  m_channels s !! channel_id (header f) = Some old ->
  let id := channel_id (header f) in
  let ws := m_channel_window_size s in
  let s' := DispatchFrame env s f in
  m_channels s'
  = <[id := {| m_id := id; m_state := Requesting; m_socks5_buf := [];
               m_method_done := false;
               m_connect_req :=
                 {| Socks5.atyp := x00; Socks5.host := [];
                    Socks5.ipv4 := [x00; x00; x00; x00];
                    Socks5.ipv6 := [x00; x00; x00; x00; x00; x00; x00; x00;
                                    x00; x00; x00; x00; x00; x00; x00; x00];
                    Socks5.port := 0 |};
               m_target := None; m_send_window := ws; m_recv_window := ws;
               m_recv_window_initial := ws; m_recv_consumed := 0 |}]>
      (m_channels s) /\
  dom (m_channels s') = dom (m_channels s) /\
  target_calls s'
  = target_calls s ++
    match m_target old, m_state old with
    | None, _ => []
    | Some _, Closed => [(id, TargetDelete)]
    | Some _, _ => [(id, TargetClose); (id, TargetDelete)]
    end.
Proof.
  intros Hty Hold id ws s'.
  destruct (HandleChannelOpen_reopen env s f old Hty Hold)
    as (Hm & Hdom & Ht & _). fold id s' in Hm, Hdom, Ht.
  split_ok.
  - by rewrite Hm.
  - exact Hdom.
  - rewrite Ht, Channel_delete_calls. f_equal.
    by destruct (m_target old), (m_state old).
Qed.

(** Channel 7 is relaying when CHANNEL_OPEN for 7 arrives again. *)
Lemma reopen_replaces_channel_witness :
  let old := relaying_channel 7 262144 1000 in
  let s := set_channels (started_session 262144 30000) {[ 7 := old ]} in
  let open := {| header := {| type := x01; flags := x00; channel_id := 7;
                              payload_length := 0 |};
                 payload := [] |} in
  let s' := DispatchFrame connect_pending s open in
  m_channels s'
  = {[ 7 := {| m_id := 7; m_state := Requesting; m_socks5_buf := [];
               m_method_done := false;
               m_connect_req :=
                 {| Socks5.atyp := x00; Socks5.host := [];
                    Socks5.ipv4 := [x00; x00; x00; x00];
                    Socks5.ipv6 := [x00; x00; x00; x00; x00; x00; x00; x00;
                                    x00; x00; x00; x00; x00; x00; x00; x00];
                    Socks5.port := 0 |};
               m_target := None; m_send_window := 262144;
               m_recv_window := 262144; m_recv_window_initial := 262144;
               m_recv_consumed := 0 |} ]} /\
  target_calls s' = [(7, TargetClose); (7, TargetDelete)].
Proof.
  intros old s open s'.
  destruct (reopen_replaces_channel connect_pending s open old
              eq_refl eq_refl) as (Hmap & _ & Hcalls).
  split.
  - fold s' in Hmap. rewrite Hmap. apply insert_singleton_eq.
  - fold s' in Hcalls. rewrite Hcalls. reflexivity.
Defined.


(* ===================================================================== *)
(** * Further properties of the framing codec                             *)
(* ===================================================================== *)

(** X1.  After a call of [Feed] that was given at least one byte, or that
    found the codec settled, the codec is settled: its buffer holds no
    complete frame and no header over the limit, and it is not full, so the
    next call can always copy at least one byte. *)
Theorem Feed_leaves_codec_settled c data out :
  data <> [] \/ settled (m_buffer c) ->
  settled (m_buffer (Feed c data out).1) /\
  (m_used (Feed c data out).1 < m_buffer_size)%nat.
Proof.
  intros H.
  assert (Hs : settled (m_buffer (Feed c data out).1)).
  { destruct H as [Hne|Hc]; [|by apply Feed_settled].
    rewrite Feed_eq. destruct data as [|b d]; [done|]. cbv zeta.
    destruct (parse_frames _ out) as [[[] r] o] eqn:Hp; cbn [fst].
    - apply Feed_settled. by destruct (parse_frames_NeedMore_rest _ _ _ _ Hp).
    - apply settled_nil. }
  split; [done|]. by apply settled_length.
Qed.

(** With two bytes already buffered, six more complete a PING header. *)
Lemma Feed_leaves_codec_settled_witness :
  let c := {| m_buffer := [x08; x00] |} in
  let data := [x00; x00; x00; x00; x00; x00; x05] in
  settled (m_buffer (Feed c data []).1) /\
  (m_used (Feed c data []).1 < m_buffer_size)%nat.
Proof.
  intros c data. apply (Feed_leaves_codec_settled c data []).
  left. discriminate.
Defined.

(** X2.  Cutting the input of [Feed] in two changes nothing, as long as the
    first part brings no header over the limit to the front: feeding
    [d1 ++ d2] is feeding [d1] and then [d2]. *)
Theorem Feed_app c d1 d2 out :
  settled (m_buffer c) ->
  no_oversize (m_buffer c ++ d1) ->
  Feed c (d1 ++ d2) out
  = Feed (Feed c d1 out).1 d2 (Feed c d1 out).2.
Proof.
  unfold no_oversize. intros Hc Hclean.
  rewrite (Feed_spec d1) by done.
  destruct (parse_frames (m_buffer c ++ d1) out) as [[e r] o] eqn:Hp.
  rewrite parse_frames_out in Hp.
  destruct (parse_frames (m_buffer c ++ d1) []) as [[e' r'] fs] eqn:Hp0.
  cbn [fst] in Hclean. subst e'. injection Hp as <- <- <-.
  assert (Hp' : parse_frames (m_buffer c ++ d1) out = (NeedMore, r', out ++ fs)).
  { by rewrite parse_frames_out, Hp0. }
  destruct (parse_frames_NeedMore_rest _ _ _ _ Hp0) as [_ Hr].
  cbn [fst snd]. rewrite !Feed_spec by done. cbn [m_buffer].
  by rewrite app_assoc, (parse_frames_app_NeedMore _ _ _ _ _ Hp').
Qed.

(** A DATA frame cut in the middle of its header. *)
Lemma Feed_app_witness :
  let d1 := [x05; x00; x07] in
  let d2 := [x00; x01; x00; x00; x00; x61] in
  Feed FrameCodec_new (d1 ++ d2) []
  = Feed (Feed FrameCodec_new d1 []).1 d2 (Feed FrameCodec_new d1 []).2.
Proof.
  intros d1 d2. apply (Feed_app FrameCodec_new d1 d2 []); reflexivity.
Defined.

(** [Feed] only appends to the output vector it is given. *)
Lemma Feed_loop_out fuel : forall c data out,
  Feed_loop fuel c data out
  = ((Feed_loop fuel c data []).1, out ++ (Feed_loop fuel c data []).2).
Proof.
  induction fuel as [|fuel IH]; intros c data out.
  - destruct data; simpl; by rewrite app_nil_r.
  - destruct data as [|b d]; [simpl; by rewrite app_nil_r|].
    rewrite !Feed_loop_step. cbv zeta.
    rewrite (parse_frames_out _ out).
    destruct (parse_frames _ []) as [[[] r] fs]; [|done].
    rewrite (IH _ _ (out ++ fs)), (IH _ _ fs). cbn [fst snd].
    by rewrite app_assoc.
Qed.

(** X3.  [Feed] never drops or reorders what its output vector already
    holds: the frames of this call are appended to it, and they and the
    state of the codec do not depend on it. *)
Theorem Feed_appends c data out :
  Feed c data out = ((Feed c data []).1, out ++ (Feed c data []).2).
Proof. apply Feed_loop_out. Qed.

Lemma to_u8_of_mod z b : z mod 256 = u8 b -> to_u8 z = b.
Proof.
  intros H. unfold to_u8. rewrite H. unfold u8.
  by rewrite N2Z.id, Byte.of_to_N.
Qed.

(** Writing back the header read at the front of a buffer gives its first
    eight bytes. *)
Lemma FrameHeader_bytes_of_bytes buf :
  (FRAME_HEADER_SIZE <= length buf)%nat ->
  FrameHeader_bytes (FrameHeader_of_bytes buf) = take FRAME_HEADER_SIZE buf.
Proof.
  rewrite FRAME_HEADER_SIZE_val. intros Hlen.
  do 8 (destruct buf as [|? buf]; [simpl in Hlen; lia|]).
  unfold FrameHeader_bytes, FrameHeader_of_bytes, le16_bytes, le32_bytes,
    le16_value, le32_value, at_.
  cbn [nth type flags channel_id payload_length app take].
  repeat match goal with
         | |- context [u8 ?x] =>
             lazymatch goal with
             | _ : 0 <= u8 x < 256 |- _ => fail
             | _ => pose proof (u8_range x)
             end
         end.
  repeat f_equal; apply to_u8_of_mod; Z.div_mod_to_equations; lia.
Qed.

Lemma wire_front_frame buf :
  (FRAME_HEADER_SIZE <= length buf)%nat ->
  wire (front_frame buf) = take (front_total buf) buf.
Proof.
  intros Hlen. unfold wire, front_frame, front_total. cbn [header payload].
  rewrite FrameHeader_bytes_of_bytes by done. apply take_take_drop.
Qed.

Lemma wf_front_frame buf :
  (FRAME_HEADER_SIZE <= length buf)%nat ->
  payload_length (FrameHeader_of_bytes buf) <= FRAME_MAX_PAYLOAD ->
  (front_total buf <= length buf)%nat ->
  wf_frame (front_frame buf).
Proof.
  intros Hlen Hmax Htot. unfold wf_frame, front_frame, front_total in *.
  cbn [header payload].
  assert (Hpl : 0 <= payload_length (FrameHeader_of_bytes buf)).
  { unfold FrameHeader_of_bytes. cbn [payload_length].
    apply le32_value_range. }
  assert (Hl : length (take (Z.to_nat (payload_length (FrameHeader_of_bytes buf)))
                         (drop FRAME_HEADER_SIZE buf))
               = Z.to_nat (payload_length (FrameHeader_of_bytes buf))).
  { rewrite length_take, length_drop. lia. }
  rewrite Hl. repeat split; try lia.
  - unfold FrameHeader_of_bytes, le16_value. cbn [channel_id].
    pose proof (u8_range (at_ buf 2)). pose proof (u8_range (at_ buf 3)). lia.
  - unfold FrameHeader_of_bytes, le16_value. cbn [channel_id].
    pose proof (u8_range (at_ buf 2)). pose proof (u8_range (at_ buf 3)). lia.
Qed.

(** The inner loop of [Feed] takes well-formed frames off the front of the
    buffer and loses no byte: the frames it emits, written back to the wire,
    followed by what it leaves, are the bytes it was given. *)
Lemma parse_frames_conserves buf : forall out e r out',
  parse_frames buf out = (e, r, out') ->
  exists fs, out' = out ++ fs /\ stream fs ++ r = buf /\ Forall wf_frame fs.
Proof.
  induction buf as [buf IH] using length_ind. intros out e r out'.
  rewrite parse_frames_eq.
  destruct (Nat.ltb_spec (length buf) FRAME_HEADER_SIZE) as [Hlt|Hge].
  { intros [= <- <- <-]. exists []. by rewrite app_nil_r. }
  destruct (Z.ltb_spec FRAME_MAX_PAYLOAD
              (payload_length (FrameHeader_of_bytes buf))) as [|Hle].
  { intros [= <- <- <-]. exists []. by rewrite app_nil_r. }
  destruct (Nat.ltb_spec (length buf) (front_total buf)) as [Hlt|Hge'].
  { intros [= <- <- <-]. exists []. by rewrite app_nil_r. }
  intros Hp.
  destruct (IH _ (drop_front_shorter buf Hge) _ _ _ _ Hp) as (fs & -> & Hs & Hwf).
  exists (front_frame buf :: fs). split; [by rewrite <- app_assoc|]. split.
  - unfold stream in *. cbn [map concat]. rewrite <- app_assoc, Hs.
    rewrite wire_front_frame by done. apply take_drop.
  - constructor; [by apply wf_front_frame | done].
Qed.

(** X4.  [Feed] decodes well-formed frames only (the id fits 16 bits, the
    payload has the length of the header and respects the limit), and as
    long as no header over the limit comes to the front it loses no byte:
    the frames emitted, written back to the wire, followed by what stays
    buffered, are the bytes that were buffered followed by the input. *)
Theorem Feed_conserves_bytes c data :
  settled (m_buffer c) ->
  Forall wf_frame (Feed c data []).2 /\
  (no_oversize (m_buffer c ++ data) ->
   stream (Feed c data []).2 ++ m_buffer (Feed c data []).1
   = m_buffer c ++ data).
Proof.
  intros Hc. rewrite Feed_spec by done. unfold no_oversize.
  destruct (parse_frames (m_buffer c ++ data) []) as [[e r] fs] eqn:Hp.
  destruct (parse_frames_conserves _ _ _ _ _ Hp) as (fs' & Hfs & Hs & Hwf).
  cbn [app] in Hfs. subst fs'.
  destruct e; cbn [fst snd m_buffer]; split; try done.
Qed.

(** A DATA frame, then the first five bytes of the next header. *)
Lemma Feed_conserves_bytes_witness :
  let data := [x05; x00; x07; x00; x01; x00; x00; x00; x61;
               x08; x00; x00; x00; x00] in
  Forall wf_frame (Feed FrameCodec_new data []).2 /\
  stream (Feed FrameCodec_new data []).2 ++ m_buffer (Feed FrameCodec_new data []).1
  = data.
Proof.
  intros data.
  destruct (Feed_conserves_bytes FrameCodec_new data eq_refl) as [H1 H2].
  split; [exact H1 | exact (H2 eq_refl)].
Defined.

(** X5.  A frame that has not arrived in full is buffered and nothing is
    emitted: fed any proper prefix of the encoding of a well-formed frame, a
    new codec keeps exactly those bytes. *)
Theorem Feed_partial_frame f n :
  wf_frame f ->
  (n < length (wire f))%nat ->
  Feed FrameCodec_new (take n (wire f)) []
  = ({| m_buffer := take n (wire f) |}, []).
Proof.
  intros Hf Hn. rewrite Feed_spec by apply settled_nil.
  change (m_buffer FrameCodec_new ++ ?d) with d.
  rewrite parse_frames_eq, length_take_lt by done.
  destruct (Nat.ltb_spec n FRAME_HEADER_SIZE) as [|Hn8]; [done|].
  assert (Hhdr : FrameHeader_of_bytes (take n (wire f)) = header f).
  { rewrite <- (FrameHeader_of_bytes_wire f []), app_nil_r by done.
    symmetry. rewrite <- (take_drop n (wire f)) at 1.
    apply FrameHeader_of_bytes_app. by rewrite length_take_lt. }
  unfold front_total. rewrite Hhdr.
  destruct Hf as (_ & Hlen & Hmax).
  destruct (Z.ltb_spec FRAME_MAX_PAYLOAD (payload_length (header f))); [lia|].
  rewrite wire_length in Hn. rewrite Hlen, Nat2Z.id.
  by destruct (Nat.ltb_spec n (FRAME_HEADER_SIZE + length (payload f))); [|lia].
Qed.

(** Ten of the eleven bytes of a DATA frame. *)
Lemma Feed_partial_frame_witness :
  let f := frame_of Data x00 7 [x61; x62; x63] in
  Feed FrameCodec_new (take 10 (wire f)) []
  = ({| m_buffer := take 10 (wire f) |}, []).
Proof.
  intros f. apply (Feed_partial_frame f 10).
  - repeat split; vm_compute; discriminate.
  - simpl. lia.
Defined.

(* ===================================================================== *)
(** * Further properties of the session                                   *)
(* ===================================================================== *)

Lemma Feed_new_wire f :
  wf_frame f -> Feed FrameCodec_new (wire f) [] = (FrameCodec_new, [f]).
Proof.
  intros Hf. rewrite Feed_spec by apply settled_nil.
  change (m_buffer FrameCodec_new ++ ?d) with d.
  rewrite <- (app_nil_r (wire f)). by rewrite parse_frames_wire.
Qed.

Lemma set_codec_same s : set_codec s (m_codec s) = s.
Proof. by destruct s. Qed.

(** X6.  A WINDOW_UPDATE as [BuildWindowUpdate] writes it is understood by
    the receiving session: fed to a session whose codec buffer is empty, it
    adds the increment to the send window of the channel it names, modulo
    2^32, and changes nothing else. *)
Theorem window_update_received env s cid inc ch :
  m_codec s = FrameCodec_new ->
  0 <= cid < 65536 ->
  0 <= inc < 4294967296 ->
  m_channels s !! cid = Some ch ->
  OnDataReceived env s (BuildWindowUpdate cid inc)
  = set_channels s
      (<[cid := set_send_window ch (wrap32 (m_send_window ch + inc))]>
         (m_channels s)).
Proof.
  intros Hcodec Hcid Hinc Hch. unfold OnDataReceived. rewrite Hcodec.
  unfold BuildWindowUpdate.
  change 4 with (Z.of_nat (length (le32_bytes inc))).
  rewrite Encode_wire, Feed_new_wire.
  2:{ apply wf_frame_of; [done|]. rewrite FRAME_MAX_PAYLOAD_val. simpl. lia. }
  rewrite <- Hcodec, set_codec_same.
  cbn [fold_left]. unfold DispatchFrame, frame_of. cbn [header type FrameType_value].
  unfold HandleWindowUpdate, FindChannel. cbn [payload header channel_id].
  rewrite Hch. unfold le32_bytes, at_. cbn [length nth Nat.ltb Nat.leb].
  rewrite le32_value_bytes by done.
  unfold run_on, OnWindowUpdate. by cbn [fst snd perform_all fold_left].
Qed.

(** Channel 7 is granted 4096 more bytes. *)
Lemma window_update_received_witness :
  let ch := relaying_channel 7 262144 100 in
  let s := set_channels (started_session 262144 30000) {[ 7 := ch ]} in
  OnDataReceived connect_pending s (BuildWindowUpdate 7 4096)
  = set_channels s {[ 7 := set_send_window ch 4196 ]}.
Proof.
  intros ch s.
  rewrite (window_update_received connect_pending s 7 4096 ch)
    by (reflexivity || lia).
  f_equal; apply insert_singleton_eq.
Defined.

(** ** Relations that every frame handler keeps *)

Section handlers_keep.
Variable R : MuxSession -> MuxSession -> Prop.
Hypothesis R_refl : forall s, R s s.
Hypothesis R_trans : forall s1 s2 s3, R s1 s2 -> R s2 s3 -> R s1 s3.
Hypothesis R_SendFrame : forall s b, R s (SendFrame s b).
Hypothesis R_set_channels : forall s m, R s (set_channels s m).
Hypothesis R_log :
  forall s x, R s (set_target_calls s (target_calls s ++ [x])).

Lemma keep_fold {A} (f : MuxSession -> A -> MuxSession) l :
  (forall s x, R s (f s x)) -> forall s, R s (fold_left f l s).
Proof using R_refl R_trans.
  intros Hf. induction l as [|x l IH]; intros s; simpl.
  - apply R_refl.
  - eapply R_trans; [apply Hf | apply IH].
Qed.

Lemma keep_perform id s call : R s (perform id s call).
Proof using R_SendFrame R_log.
  destruct call; simpl; first [apply R_SendFrame | apply R_log].
Qed.

Lemma keep_perform_all id s calls : R s (perform_all id s calls).
Proof using R_refl R_trans R_SendFrame R_log.
  apply keep_fold. intros. apply keep_perform.
Qed.

Lemma keep_run_on s id r : R s (run_on s id r).
Proof using All.
  unfold run_on. eapply R_trans;
    [apply R_set_channels | apply keep_perform_all].
Qed.

Lemma keep_RemoveChannel s id : R s (RemoveChannel s id).
Proof using All.
  unfold RemoveChannel. destruct (m_channels s !! id); [|apply R_refl].
  eapply R_trans; [apply R_set_channels | apply keep_perform_all].
Qed.

Lemma keep_target_event s id handler : R s (target_event s id handler).
Proof using All.
  unfold target_event. destruct (m_channels s !! id);
    [apply keep_run_on | apply R_refl].
Qed.

Lemma keep_DispatchFrame env s f : R s (DispatchFrame env s f).
Proof using All.
  assert (Hopen : R s (HandleChannelOpen s f)).
  { unfold HandleChannelOpen. cbv zeta.
    eapply R_trans; [|apply keep_run_on].
    eapply R_trans; [|apply R_set_channels].
    destruct (m_channels s !! _); [apply keep_perform_all | apply R_refl]. }
  assert (Hreq : R s (HandleChannelRequest env s f)).
  { unfold HandleChannelRequest. destruct (FindChannel s _);
      [apply keep_run_on | apply R_refl]. }
  assert (Hdata : R s (HandleData s f)).
  { unfold HandleData. destruct (FindChannel s _);
      [apply keep_run_on | apply R_refl]. }
  assert (Hclose : R s (HandleChannelClose s f)).
  { unfold HandleChannelClose. cbv zeta. destruct (FindChannel s _);
      [|apply keep_perform].
    destruct (ChannelState_eqb _ _); [|apply keep_run_on].
    eapply R_trans; [apply keep_run_on | apply keep_RemoveChannel]. }
  assert (Hack : R s (HandleChannelCloseAck s f)).
  { unfold HandleChannelCloseAck. cbv zeta. destruct (FindChannel s _);
      [|apply R_refl].
    eapply R_trans; [apply keep_run_on | apply keep_RemoveChannel]. }
  assert (Hwin : R s (HandleWindowUpdate s f)).
  { unfold HandleWindowUpdate. destruct (_ <? _)%nat; [apply R_refl|].
    destruct (FindChannel s _); [apply keep_run_on | apply R_refl]. }
  unfold DispatchFrame.
  destruct (type (header f));
    first [ apply R_refl | exact Hopen | exact Hreq | exact Hdata
          | exact Hclose | exact Hack | apply R_SendFrame | exact Hwin ].
Qed.

Lemma keep_OnDataReceived env s data :
  R (set_codec s (Feed (m_codec s) data []).1) (OnDataReceived env s data).
Proof using All.
  unfold OnDataReceived. destruct (Feed _ _ _) as [c fs].
  apply keep_fold. intros. apply keep_DispatchFrame.
Qed.
End handlers_keep.

(** ** What performing the calls of a channel does to the session *)

Lemma perform_channels id s call : m_channels (perform id s call) = m_channels s.
Proof.
  destruct call; simpl; first [apply SendFrame_channels | reflexivity].
Qed.

Lemma perform_all_channels id s calls :
  m_channels (perform_all id s calls) = m_channels s.
Proof.
  revert s. induction calls as [|call calls IH]; intros s; [done|].
  cbn [perform_all fold_left]. fold (perform_all id (perform id s call) calls).
  by rewrite IH, perform_channels.
Qed.

Lemma perform_target_calls id s call :
  target_calls (perform id s call)
  = target_calls s ++ (pair id <$> connection_calls [call]).
Proof.
  destruct call; simpl;
    first [by rewrite SendFrame_target_calls, app_nil_r | reflexivity].
Qed.

Lemma connection_calls_app a b :
  connection_calls (a ++ b) = connection_calls a ++ connection_calls b.
Proof. apply filter_app. Qed.

Lemma perform_all_target_calls id calls : forall s,
  target_calls (perform_all id s calls)
  = target_calls s ++ (pair id <$> connection_calls calls).
Proof.
  induction calls as [|call calls IH]; intros s.
  { simpl. by rewrite app_nil_r. }
  cbn [perform_all fold_left]. fold (perform_all id (perform id s call) calls).
  rewrite IH, perform_target_calls, <- app_assoc, <- fmap_app.
  by rewrite <- connection_calls_app.
Qed.

Lemma SendFrame_sent s b :
  sent_frames (SendFrame s b)
  = sent_frames s ++ (if can_send s then [b] else []).
Proof.
  unfold SendFrame, sent_frames, can_send.
  destruct s as [[t|] ws ka c m d [] k tc dc]; simpl; by rewrite ?app_nil_r.
Qed.

Lemma SendFrame_can_send s b : can_send (SendFrame s b) = can_send s.
Proof.
  unfold SendFrame, can_send.
  by destruct s as [[t|] ws ka c m d [] k tc dc].
Qed.

Lemma perform_sent id s call :
  sent_frames (perform id s call)
  = sent_frames s ++ (if can_send s then frames_of_calls [call] else []).
Proof.
  destruct call; simpl; first [apply SendFrame_sent | by destruct (can_send s); rewrite app_nil_r].
Qed.

Lemma perform_can_send id s call : can_send (perform id s call) = can_send s.
Proof.
  destruct call; simpl; first [apply SendFrame_can_send | reflexivity].
Qed.

Lemma frames_of_calls_app a b :
  frames_of_calls (a ++ b) = frames_of_calls a ++ frames_of_calls b.
Proof. apply omap_app. Qed.

(** The frames that a channel asks for reach the transport in the order
    asked, if the session is running and has a transport, and not at all
    otherwise. *)
Lemma perform_all_sent id calls : forall s,
  sent_frames (perform_all id s calls)
  = sent_frames s ++ (if can_send s then frames_of_calls calls else []).
Proof.
  induction calls as [|call calls IH]; intros s.
  { simpl. destruct (can_send s); by rewrite app_nil_r. }
  cbn [perform_all fold_left]. fold (perform_all id (perform id s call) calls).
  rewrite IH, perform_sent, perform_can_send, <- app_assoc.
  destruct (can_send s); [|done].
  by rewrite <- frames_of_calls_app.
Qed.

Lemma SendFrame_cannot s b : can_send s = false -> SendFrame s b = s.
Proof.
  unfold SendFrame, can_send.
  by destruct s as [[t|] ws ka c m d [] k tc dc].
Qed.

(** X7.  A session that is not running, or that has no transport, never
    writes to the transport: whatever bytes it receives, whatever its
    channels' connections report and whenever the keepalive timer fires, the
    transport is left as it was. *)
Theorem stopped_session_sends_nothing env s :
  can_send s = false ->
  (forall data, m_transport (OnDataReceived env s data) = m_transport s) /\
  (forall id handler, m_transport (target_event s id handler) = m_transport s) /\
  m_transport (KeepaliveTimerCallback s) = m_transport s.
Proof.
  intros Hs.
  set (R := fun s s' : MuxSession =>
              can_send s = false ->
              can_send s' = false /\ m_transport s' = m_transport s).
  assert (R_refl : forall s, R s s) by (by intros ? ?).
  assert (R_trans : forall s1 s2 s3, R s1 s2 -> R s2 s3 -> R s1 s3).
  { intros s1 s2 s3 H12 H23 H1. destruct (H12 H1) as [H2 Ht2].
    destruct (H23 H2) as [H3 Ht3]. split; [done|congruence]. }
  assert (R_send : forall s b, R s (SendFrame s b)).
  { intros s0 b H0. by rewrite SendFrame_cannot. }
  assert (R_chan : forall s m, R s (set_channels s m)).
  { intros s0 m H0. by destruct s0. }
  assert (R_log : forall s x, R s (set_target_calls s (target_calls s ++ [x]))).
  { intros s0 x H0. by destruct s0. }
  repeat split.
  - intros data.
    destruct (keep_OnDataReceived R R_refl R_trans R_send R_chan R_log
                env s data) as [_ Ht]; [by destruct s|].
    rewrite Ht. by destruct s.
  - intros id handler.
    by destruct (keep_target_event R R_refl R_trans R_send R_chan R_log
                   s id handler Hs).
  - unfold KeepaliveTimerCallback. destruct (m_running s); [|done].
    by rewrite SendFrame_cannot.
Qed.

(** A PING and a CHANNEL_OPEN reach a session that has been shut down. *)
Lemma stopped_session_sends_nothing_witness :
  let s := Shutdown (started_session 262144 30000) in
  m_transport (OnDataReceived connect_pending s (BuildPing ++ BuildChannelOpen 3))
  = m_transport s.
Proof.
  intros s.
  destruct (stopped_session_sends_nothing connect_pending s eq_refl) as [H _].
  apply H.
Defined.

(** X8.  A frame whose type has no handler (CHANNEL_OPEN_ACK,
    CHANNEL_REQUEST_ACK, PONG, and every type byte that is not a frame type)
    is ignored: the session is unchanged. *)
Theorem unhandled_frame_ignored env s f :
  ~ In (type (header f)) handled_types ->
  DispatchFrame env s f = s.
Proof.
  intros H. unfold DispatchFrame.
  destruct (type (header f)); try reflexivity;
    exfalso; apply H; simpl; tauto.
Qed.

(** A PONG, and a frame of type 0xFF. *)
Lemma unhandled_frame_ignored_witness :
  let s := started_session 262144 30000 in
  DispatchFrame connect_pending s (frame_of Pong x00 0 []) = s /\
  DispatchFrame connect_pending s
    {| header := {| type := xff; flags := x00; channel_id := 1;
                    payload_length := 1 |};
       payload := [x00] |} = s.
Proof.
  intros s. split; apply unhandled_frame_ignored; simpl;
    intros H; repeat (destruct H as [H|H]; [discriminate|]); exact H.
Defined.

Lemma run_on_same s id ch :
  m_channels s !! id = Some ch -> run_on s id (ch, []) = s.
Proof.
  intros H. unfold run_on. cbn [fst snd perform_all fold_left].
  rewrite insert_id by done. by destruct s.
Qed.

(** X9.  Frames that find no use are dropped without a trace: DATA for a
    channel that is unknown or not in state [Relaying], CHANNEL_REQUEST for
    a channel that is unknown or not in state [Requesting], and
    WINDOW_UPDATE for an unknown channel or with a payload of fewer than
    four bytes all leave the session unchanged. *)
Theorem useless_frame_dropped env s f :
  let known := m_channels s !! channel_id (header f) in
  (type (header f) = FrameType_value Data /\
   forall ch, known = Some ch -> m_state ch <> Relaying) \/
  (type (header f) = FrameType_value ChannelRequest /\
   forall ch, known = Some ch -> m_state ch <> Requesting) \/
  (type (header f) = FrameType_value WindowUpdate /\
   (known = None \/ (length (payload f) < 4)%nat)) ->
  DispatchFrame env s f = s.
Proof.
  intros known H. unfold DispatchFrame.
  destruct H as [[Hty Hst]|[[Hty Hst]|[Hty Hw]]]; rewrite Hty;
    cbn [FrameType_value].
  - unfold HandleData, FindChannel. fold known.
    destruct known as [ch|] eqn:Hk; [|done].
    assert (Hd : OnData ch (payload f) = (ch, [])).
    { unfold OnData. specialize (Hst ch eq_refl). by destruct (m_state ch). }
    rewrite Hd. by apply run_on_same.
  - unfold HandleChannelRequest, FindChannel. fold known.
    destruct known as [ch|] eqn:Hk; [|done].
    assert (Hd : OnRequest env ch (payload f) = (ch, [])).
    { unfold OnRequest. specialize (Hst ch eq_refl). by destruct (m_state ch). }
    rewrite Hd. by apply run_on_same.
  - unfold HandleWindowUpdate, FindChannel. fold known.
    destruct (Nat.ltb_spec (length (payload f)) 4) as [|Hge]; [done|].
    destruct Hw as [->|Hw]; [done|lia].
Qed.

(** DATA for a channel that is still in the SOCKS5 exchange. *)
Lemma useless_frame_dropped_witness :
  let ch := (OnOpen (Channel_new 7 262144)).1 in
  let s := set_channels (started_session 262144 30000) {[ 7 := ch ]} in
  DispatchFrame connect_pending s (frame_of Data x00 7 [x61]) = s.
Proof.
  intros ch s. apply useless_frame_dropped. left. split; [reflexivity|].
  intros ch' Hch'. vm_compute in Hch'. injection Hch' as <-. discriminate.
Defined.

Lemma run_on_channels s id r :
  m_channels (run_on s id r) = <[id := r.1]> (m_channels s).
Proof. unfold run_on. by rewrite perform_all_channels. Qed.

Lemma run_on_sent s id r :
  sent_frames (run_on s id r)
  = sent_frames s ++ (if can_send s then frames_of_calls r.2 else []).
Proof. unfold run_on. rewrite perform_all_sent. by destruct s. Qed.

Lemma run_on_target_calls s id r :
  target_calls (run_on s id r)
  = target_calls s ++ (pair id <$> connection_calls r.2).
Proof. unfold run_on. rewrite perform_all_target_calls. by destruct s. Qed.

Lemma run_on_can_send s id r : can_send (run_on s id r) = can_send s.
Proof.
  unfold run_on, perform_all.
  assert (H : forall calls s0, can_send (fold_left (perform id) calls s0)
                               = can_send s0).
  { induction calls as [|c calls IH]; intros s0; [done|].
    simpl. by rewrite IH, perform_can_send. }
  rewrite H. by destruct s.
Qed.

(** Erasing a registered channel: the entry goes, nothing is sent, and the
    connection the channel still owns is closed and destroyed. *)
Lemma RemoveChannel_present s id ch :
  m_channels s !! id = Some ch ->
  m_channels (RemoveChannel s id) = delete id (m_channels s) /\
  sent_frames (RemoveChannel s id) = sent_frames s /\
  target_calls (RemoveChannel s id)
  = target_calls s ++ (pair id <$> Channel_delete ch).
Proof.
  intros H. unfold RemoveChannel. rewrite H.
  rewrite perform_all_Channel_delete. by destruct s.
Qed.

Lemma connection_calls_Channel_delete c :
  connection_calls (Channel_delete c) = Channel_delete c.
Proof.
  rewrite Channel_delete_calls.
  by destruct (m_target c); [destruct (ChannelState_eqb _ _)|].
Qed.

Lemma ForceClose_then_delete ch :
  connection_calls (ForceClose ch).2 ++ Channel_delete (ForceClose ch).1
  = Channel_delete ch.
Proof.
  destruct ch as [i st b md rq tg sw rw ri rc].
  by destruct st, tg.
Qed.

(** What the two close frames do, in terms of the frame builder and the
    destructor of a channel. *)
Lemma close_frames_dispatch env s f :
  let id := channel_id (header f) in
  let s' := DispatchFrame env s f in
  (forall ch, m_channels s !! id = Some ch -> m_id ch = id) ->
  (type (header f) = FrameType_value ChannelClose ->
   m_channels s' = delete id (m_channels s) /\
   sent_frames s'
   = sent_frames s ++ (if can_send s then [BuildChannelCloseAck id] else []) /\
   target_calls s'
   = target_calls s ++
     match m_channels s !! id with
     | Some ch => match m_target ch with
                  | Some _ => [(id, TargetClose); (id, TargetDelete)]
                  | None => []
                  end
     | None => []
     end) /\
  (type (header f) = FrameType_value ChannelCloseAck ->
   m_channels s' = delete id (m_channels s) /\
   sent_frames s' = sent_frames s /\
   target_calls s'
   = target_calls s ++
     match m_channels s !! id with
     | Some ch => pair id <$> Channel_delete ch
     | None => []
     end).
Proof.
  intros id s' Hid. subst s'. unfold DispatchFrame. split; intros Hty;
    rewrite Hty; cbn [FrameType_value].
  - unfold HandleChannelClose, FindChannel. cbv zeta. fold id.
    destruct (m_channels s !! id) as [ch|] eqn:Hch.
    + specialize (Hid ch eq_refl).
      set (r := OnClose ch (flags (header f))).
      assert (Hr : r = (set_state (set_target ch None) Closed,
                        [SendChannelCloseAck id] ++
                        match m_target ch with
                        | Some _ => [TargetClose; TargetDelete]
                        | None => []
                        end)).
      { subst r. unfold OnClose. rewrite Hid.
        destruct ch as [i st b md rq [t|] sw rw ri rc]; by rewrite ?app_nil_r. }
      rewrite Hr. cbn [fst m_state set_state ChannelState_eqb].
      set (c' := set_state (set_target ch None) Closed).
      set (calls := [SendChannelCloseAck id] ++ _).
      assert (Hl : m_channels (run_on s id (c', calls)) !! id = Some c').
      { by rewrite run_on_channels, lookup_insert_eq. }
      destruct (RemoveChannel_present _ _ _ Hl) as (Hm & Hs & Ht).
      rewrite Hm, Hs, Ht, run_on_channels, run_on_sent, run_on_target_calls.
      cbn [fst snd]. rewrite delete_insert_eq.
      repeat split.
      * subst calls. rewrite frames_of_calls_app.
        destruct (m_target ch), (can_send s); by rewrite ?app_nil_r.
      * subst calls c'. rewrite connection_calls_app.
        change (Channel_delete (set_state (set_target ch None) Closed))
          with (@nil Call).
        destruct (m_target ch); by rewrite ?app_nil_r.
    + cbn [perform]. rewrite SendFrame_channels, SendFrame_sent,
        SendFrame_target_calls, app_nil_r.
      by rewrite delete_id.
  - unfold HandleChannelCloseAck, FindChannel. cbv zeta. fold id.
    destruct (m_channels s !! id) as [ch|] eqn:Hch.
    + set (r := ForceClose ch).
      assert (Hl : m_channels (run_on s id r) !! id = Some r.1).
      { by rewrite run_on_channels, lookup_insert_eq. }
      destruct (RemoveChannel_present _ _ _ Hl) as (Hm & Hs & Ht).
      rewrite Hm, Hs, Ht, run_on_channels, run_on_sent, run_on_target_calls.
      rewrite delete_insert_eq. repeat split.
      * assert (Hf : frames_of_calls r.2 = []).
        { subst r. unfold ForceClose.
          by destruct (ChannelState_eqb _ _), (m_target ch). }
        rewrite Hf. destruct (can_send s); by rewrite app_nil_r.
      * rewrite <- app_assoc, <- fmap_app. subst r.
        by rewrite ForceClose_then_delete.
    + by rewrite app_nil_r, delete_id.
Qed.

(** X10.  Both close frames take the channel they name out of the registry,
    whether it was there or not, and leave the other channels alone.  A
    CHANNEL_CLOSE is answered by exactly one CHANNEL_CLOSE_ACK, the eight
    bytes 07 00, the id in little-endian order, and a zero length (if the
    session can send); a CHANNEL_CLOSE_ACK is answered by nothing.  The
    connection that the channel owned is closed and destroyed (only
    destroyed, on CHANNEL_CLOSE_ACK for a channel that was already
    closed). *)
Theorem close_frames_remove_channel env s f :
  let id := channel_id (header f) in
  let s' := DispatchFrame env s f in
  (forall ch, m_channels s !! id = Some ch -> m_id ch = id) ->
  (type (header f) = x06 ->
   m_channels s' = delete id (m_channels s) /\
   sent_frames s'
   = sent_frames s ++
     (if can_send s
      then [[x07; x00; to_u8 id; to_u8 (id / 256); x00; x00; x00; x00]]
      else []) /\
   target_calls s'
   = target_calls s ++
     match m_channels s !! id with
     | Some ch => match m_target ch with
                  | Some _ => [(id, TargetClose); (id, TargetDelete)]
                  | None => []
                  end
     | None => []
     end) /\
  (type (header f) = x07 ->
   m_channels s' = delete id (m_channels s) /\
   sent_frames s' = sent_frames s /\
   target_calls s'
   = target_calls s ++
     match m_channels s !! id with
     | Some ch => match m_target ch, m_state ch with
                  | None, _ => []
                  | Some _, Closed => [(id, TargetDelete)]
                  | Some _, _ => [(id, TargetClose); (id, TargetDelete)]
                  end
     | None => []
     end).
Proof.
  intros id s' Hid.
  destruct (close_frames_dispatch env s f Hid) as [Hclose Hack].
  fold id s' in Hclose, Hack. split; intros Hty.
  - destruct (Hclose Hty) as (Hm & Hs & Ht).
    by rewrite Hm, Hs, Ht, BuildChannelCloseAck_bytes.
  - destruct (Hack Hty) as (Hm & Hs & Ht). rewrite Hm, Hs, Ht.
    split_ok; try done. f_equal.
    destruct (m_channels s !! id) as [ch|]; [|done].
    rewrite Channel_delete_calls.
    by destruct (m_target ch), (m_state ch).
Qed.

(** Channel 7 is relaying when the peer closes it. *)
Lemma close_frames_remove_channel_witness :
  let s := set_channels (started_session 262144 30000)
             {[ 7 := relaying_channel 7 262144 262144 ]} in
  let close := {| header := {| type := x06; flags := x01; channel_id := 7;
                               payload_length := 0 |};
                  payload := [] |} in
  let s' := DispatchFrame connect_pending s close in
  m_channels s' = ∅ /\
  sent_frames s' = [[x07; x00; x07; x00; x00; x00; x00; x00]] /\
  target_calls s' = [(7, TargetClose); (7, TargetDelete)].
Proof.
  intros s close s'.
  destruct (close_frames_remove_channel connect_pending s close) as [H _].
  { intros ch Hch. vm_compute in Hch. by injection Hch as <-. }
  destruct (H eq_refl) as (Hm & Hs & Ht). fold s' in Hm, Hs, Ht.
  rewrite Hm, Hs, Ht. repeat split; apply delete_singleton_eq.
Defined.


(** ** Closing every channel *)

Section close_all_keeps.
Variable R : MuxSession -> MuxSession -> Prop.
Hypothesis R_refl : forall s, R s s.
Hypothesis R_trans : forall s1 s2 s3, R s1 s2 -> R s2 s3 -> R s1 s3.
Hypothesis R_SendFrame : forall s b, R s (SendFrame s b).
Hypothesis R_set_channels : forall s m, R s (set_channels s m).
Hypothesis R_log :
  forall s x, R s (set_target_calls s (target_calls s ++ [x])).

Lemma keep_CloseAllChannels s : R s (CloseAllChannels s).
Proof using All.
  unfold CloseAllChannels. cbv zeta.
  eapply R_trans; [|apply R_set_channels].
  eapply R_trans; [|apply (@keep_fold R R_refl R_trans (Z * Channel));
                     intros s0 [id ch]; apply keep_perform_all; auto].
  apply (@keep_fold R R_refl R_trans (Z * Channel)).
  intros s0 [id ch]. apply keep_run_on; auto.
Qed.
End close_all_keeps.

Lemma calls_kept_refl s : calls_kept s s.
Proof. by intros x. Qed.

Lemma calls_kept_trans s1 s2 s3 :
  calls_kept s1 s2 -> calls_kept s2 s3 -> calls_kept s1 s3.
Proof. intros H12 H23 x Hx. by apply H23, H12. Qed.

Lemma calls_kept_SendFrame s b : calls_kept s (SendFrame s b).
Proof. intros x. by rewrite SendFrame_target_calls. Qed.

Lemma calls_kept_set_channels s m : calls_kept s (set_channels s m).
Proof. by intros x. Qed.

Lemma calls_kept_log s x :
  calls_kept s (set_target_calls s (target_calls s ++ [x])).
Proof. intros y Hy. destruct s. simpl in *. apply in_or_app. by left. Qed.

(** Every channel that is not closed and owns a connection has it closed
    by [CloseAllChannels]. *)
Lemma CloseAllChannels_closes s id ch :
  m_channels s !! id = Some ch ->
  is_Some (m_target ch) -> m_state ch <> Closed ->
  In (id, TargetClose) (target_calls (CloseAllChannels s)).
Proof.
  intros Hch [t Ht] Hst. unfold CloseAllChannels. cbv zeta.
  apply calls_kept_set_channels.
  match goal with
  | |- In _ (target_calls (fold_left ?f ?l ?s0)) =>
      assert (Hk : calls_kept s0 (fold_left f l s0))
  end.
  { apply (@keep_fold calls_kept calls_kept_refl calls_kept_trans
             (Z * Channel)).
    intros s0 [i c].
    apply (keep_perform_all calls_kept calls_kept_refl calls_kept_trans
             calls_kept_SendFrame calls_kept_log). }
  apply Hk. clear Hk.
  apply elem_of_map_to_list, list_elem_of_In in Hch.
  revert Hch. generalize (map_to_list (m_channels s)). intros l Hin.
  revert s. induction l as [|[i c] l IH]; intros s0; [done|].
  cbn [fold_left]. destruct Hin as [[= -> ->]|Hin]; [|by apply IH].
  match goal with
  | |- In _ (target_calls (fold_left ?f ?l ?s1)) =>
      assert (Hk : calls_kept s1 (fold_left f l s1))
  end.
  { apply (@keep_fold calls_kept calls_kept_refl calls_kept_trans
             (Z * Channel)).
    intros s1 [i c].
    apply (keep_run_on calls_kept calls_kept_refl calls_kept_trans
             calls_kept_SendFrame calls_kept_set_channels calls_kept_log). }
  apply Hk. clear Hk.
  rewrite run_on_target_calls. apply in_or_app. right.
  unfold ForceClose. rewrite Ht.
  destruct (m_state ch); try done; simpl; by left.
Qed.

Lemma same_control_log s x :
  same_control s (set_target_calls s (target_calls s ++ [x])).
Proof. by repeat split. Qed.

Lemma CloseAllChannels_control s : same_control s (CloseAllChannels s).
Proof.
  apply (keep_CloseAllChannels same_control same_control_refl
           same_control_trans SendFrame_control set_channels_control
           same_control_log).
Qed.

(** A session that cannot send closes its channels without touching the
    transport. *)
Lemma CloseAllChannels_transport s :
  can_send s = false -> m_transport (CloseAllChannels s) = m_transport s.
Proof.
  intros Hs.
  set (R := fun s s' : MuxSession =>
              can_send s = false ->
              can_send s' = false /\ m_transport s' = m_transport s).
  assert (HR : R s (CloseAllChannels s)); [|by destruct (HR Hs)].
  apply keep_CloseAllChannels; subst R; cbv beta.
  - done.
  - intros s1 s2 s3 H12 H23 H1. destruct (H12 H1) as [H2 Ht2].
    destruct (H23 H2) as [H3 Ht3]. split; [done|congruence].
  - intros s0 b H0. by rewrite SendFrame_cannot.
  - intros s0 m H0. by destruct s0.
  - intros s0 x H0. by destruct s0.
Qed.

Lemma CloseAllChannels_channels s : m_channels (CloseAllChannels s) = ∅.
Proof. reflexivity. Qed.

Lemma StopKeepaliveTimer_timer s : m_keepalive_timer (StopKeepaliveTimer s) = false.
Proof.
  unfold StopKeepaliveTimer. by destruct (m_keepalive_timer s) eqn:E.
Qed.

Lemma can_send_stopped s : m_running s = false -> can_send s = false.
Proof. unfold can_send. intros ->. by destruct (m_transport s). Qed.

(** X11.  [Shutdown] leaves the session stopped and does not touch the
    transport or invoke the disconnect callback; a second [Shutdown] does
    nothing.  On a running session it also empties the registry, stops the
    keepalive timer, and closes the connection of every channel that is not
    closed and owns one. *)
Theorem Shutdown_effects s :
  let s' := Shutdown s in
  m_running s' = false /\
  m_transport s' = m_transport s /\
  disconnect_calls s' = disconnect_calls s /\
  Shutdown s' = s' /\
  (m_running s = true ->
   m_channels s' = ∅ /\
   m_keepalive_timer s' = false /\
   forall id ch,
     m_channels s !! id = Some ch ->
     is_Some (m_target ch) -> m_state ch <> Closed ->
     In (id, TargetClose) (target_calls s')).
Proof.
  intros s'. subst s'. unfold Shutdown.
  destruct (m_running s) eqn:Hrun; cbn [negb].
  2:{ rewrite Hrun. by repeat split. }
  set (s1 := StopKeepaliveTimer (set_running s false)).
  assert (Hrun1 : m_running s1 = false).
  { subst s1. unfold StopKeepaliveTimer. by destruct (m_keepalive_timer _). }
  assert (Htr1 : m_transport s1 = m_transport s).
  { subst s1. unfold StopKeepaliveTimer. by destruct (m_keepalive_timer _). }
  assert (Hdc1 : disconnect_calls s1 = disconnect_calls s).
  { subst s1. unfold StopKeepaliveTimer. by destruct (m_keepalive_timer _). }
  assert (Hch1 : m_channels s1 = m_channels s).
  { subst s1. unfold StopKeepaliveTimer. by destruct (m_keepalive_timer _). }
  assert (Htm1 : m_keepalive_timer s1 = false).
  { apply StopKeepaliveTimer_timer. }
  destruct (CloseAllChannels_control s1) as (Hr & _ & _ & _ & _ & Htm & Hdc).
  assert (Hrun' : m_running (CloseAllChannels s1) = false) by congruence.
  split; [done|]. split.
  { by rewrite CloseAllChannels_transport by (by apply can_send_stopped). }
  split; [congruence|]. split; [by rewrite Hrun'|].
  intros _. split; [apply CloseAllChannels_channels|].
  split; [congruence|].
  intros id ch Hch Ht Hst. apply (CloseAllChannels_closes s1 id ch); [|done..].
  by rewrite Hch1.
Qed.

(** A started session with one relaying channel is shut down. *)
Lemma Shutdown_effects_witness :
  let s := set_channels (started_session 262144 30000)
             {[ 7 := relaying_channel 7 262144 262144 ]} in
  m_channels (Shutdown s) = ∅ /\
  m_keepalive_timer (Shutdown s) = false /\
  In (7, TargetClose) (target_calls (Shutdown s)).
Proof.
  intros s.
  destruct (Shutdown_effects s) as (_ & _ & _ & _ & H).
  destruct (H eq_refl) as (Hm & Ht & Hc).
  split; [exact Hm|]. split; [exact Ht|].
  apply (Hc 7 (relaying_channel 7 262144 262144)).
  - reflexivity.
  - by eexists.
  - discriminate.
Defined.

(** X12.  When the transport reports a disconnect, the session stops,
    empties its registry, stops the keepalive timer, closes the connections
    of its channels, writes nothing to the transport, and invokes the
    installed disconnect callback exactly once, with the error reported; a
    [Shutdown] that follows does nothing more. *)
Theorem OnTransportDisconnected_effects s ec :
  let s' := OnTransportDisconnected s ec in
  m_running s' = false /\
  m_channels s' = ∅ /\
  m_keepalive_timer s' = false /\
  m_transport s' = m_transport s /\
  disconnect_calls s'
  = disconnect_calls s ++ (if m_on_disconnect s then [ec] else []) /\
  Shutdown s' = s' /\
  forall id ch,
    m_channels s !! id = Some ch ->
    is_Some (m_target ch) -> m_state ch <> Closed ->
    In (id, TargetClose) (target_calls s').
Proof.
  intros s'. subst s'. unfold OnTransportDisconnected. cbv zeta.
  set (s1 := StopKeepaliveTimer (set_running s false)).
  assert (Hs1 : m_running s1 = false /\ m_transport s1 = m_transport s /\
                disconnect_calls s1 = disconnect_calls s /\
                m_channels s1 = m_channels s /\
                m_on_disconnect s1 = m_on_disconnect s).
  { subst s1. unfold StopKeepaliveTimer. by destruct (m_keepalive_timer _). }
  destruct Hs1 as (Hrun1 & Htr1 & Hdc1 & Hch1 & Hon1).
  pose proof (StopKeepaliveTimer_timer (set_running s false)) as Htm1.
  fold s1 in Htm1.
  destruct (CloseAllChannels_control s1) as (Hr & _ & _ & _ & Hon & Htm & Hdc).
  pose proof (CloseAllChannels_transport s1 (can_send_stopped _ Hrun1)) as Htr.
  set (s2 := CloseAllChannels s1) in *.
  assert (Hcl : forall id ch, m_channels s !! id = Some ch ->
            is_Some (m_target ch) -> m_state ch <> Closed ->
            In (id, TargetClose) (target_calls s2)).
  { intros id ch Hch Ht Hst. apply (CloseAllChannels_closes s1 id ch); [|done..].
    by rewrite Hch1. }
  rewrite Hon, Hon1.
  destruct (m_on_disconnect s);
    [|rewrite app_nil_r; unfold Shutdown;
      repeat split; try congruence; by rewrite ?Hr, ?Hrun1].
  assert (Hrun2 : m_running s2 = false) by congruence.
  unfold Shutdown. cbn [m_running set_disconnect_calls]. rewrite Hrun2.
  cbn [negb].
  split; [done|]. split; [done|]. split; [by rewrite <- Htm1, <- Htm|].
  split; [by rewrite <- Htr1, <- Htr|].
  split; [by destruct s2; simpl in *; rewrite Hdc, Hdc1|].
  split; [done|]. intros id ch Hch Ht Hst.
  specialize (Hcl id ch Hch Ht Hst). by destruct s2.
Qed.

(** The transport of a started session with one relaying channel reports a
    reset. *)
Lemma OnTransportDisconnected_effects_witness :
  let s := set_channels (started_session 262144 30000)
             {[ 7 := relaying_channel 7 262144 262144 ]} in
  let s' := OnTransportDisconnected s ConnectionReset in
  disconnect_calls s' = [ConnectionReset] /\
  In (7, TargetClose) (target_calls s').
Proof.
  intros s s'.
  destruct (OnTransportDisconnected_effects s ConnectionReset)
    as (_ & _ & _ & _ & Hd & _ & Hc).
  split; [exact Hd|].
  apply (Hc 7 (relaying_channel 7 262144 262144)).
  - reflexivity.
  - by eexists.
  - discriminate.
Defined.

(** ** The invariant of the registry *)


Lemma channel_ok_fields c c' :
  m_state c' = m_state c -> m_target c' = m_target c ->
  m_send_window c' = m_send_window c -> m_recv_window c' = m_recv_window c ->
  m_recv_window_initial c' = m_recv_window_initial c ->
  m_recv_consumed c' = m_recv_consumed c ->
  channel_ok c -> channel_ok c'.
Proof. unfold channel_ok. by intros -> -> -> -> -> ->. Qed.

Lemma channel_ok_closed c :
  channel_ok c -> channel_ok (set_state (set_target c None) Closed).
Proof. unfold channel_ok. cbn. intros (_ & Hsw & Hrw & Hrc & Hthr). by split_ok. Qed.

Lemma Channel_new_ok id window_size :
  is_uint32 window_size -> channel_ok (Channel_new id window_size).
Proof.
  intros H. unfold channel_ok, Channel_new. cbn. unfold is_uint32 in *.
  split_ok; (done || lia).
Qed.

Lemma OnOpen_ok c :
  m_target c = None -> channel_ok c ->
  channel_ok (OnOpen c).1 /\ m_id (OnOpen c).1 = m_id c.
Proof.
  unfold channel_ok, OnOpen. cbn. intros Ht (_ & Hsw & Hrw & Hrc & Hthr). by split_ok.
Qed.

Lemma ForceClose_ok c :
  channel_ok c -> channel_ok (ForceClose c).1 /\ m_id (ForceClose c).1 = m_id c.
Proof.
  intros Hok. unfold ForceClose.
  destruct (ChannelState_eqb (m_state c) Closed) eqn:E; [done|].
  destruct Hok as (Hst & Hsw & Hrw & Hrc & Hthr). unfold channel_ok.
  destruct (m_target c) eqn:Et; cbn; by split_ok.
Qed.

Lemma OnClose_ok c fl :
  channel_ok c -> channel_ok (OnClose c fl).1 /\ m_id (OnClose c fl).1 = m_id c.
Proof.
  unfold channel_ok, OnClose. intros (Hst & Hsw & Hrw & Hrc & Hthr).
  destruct (m_target c) eqn:Et; cbn; by split_ok.
Qed.

Lemma OnWindowUpdate_ok c inc :
  channel_ok c ->
  channel_ok (OnWindowUpdate c inc).1 /\ m_id (OnWindowUpdate c inc).1 = m_id c.
Proof.
  unfold channel_ok, OnWindowUpdate. cbn. intros (Hst & _ & Hrw & Hrc & Hthr).
  split_ok; try tauto; apply wrap32_range.
Qed.

Lemma OnData_ok c data :
  channel_ok c -> channel_ok (OnData c data).1 /\ m_id (OnData c data).1 = m_id c.
Proof.
  intros Hok. unfold OnData.
  destruct (negb (ChannelState_eqb (m_state c) Relaying)); [done|].
  destruct Hok as (Hst & Hsw & Hrw & Hrc & Hthr). unfold channel_ok.
  cbn [m_recv_window_initial m_recv_consumed set_recv_consumed m_target
       m_recv_window m_id].
  pose proof (wrap32_range (m_recv_consumed c + size32 data)) as Hc.
  destruct (Z.leb_spec (m_recv_window_initial c / 2)
              (wrap32 (m_recv_consumed c + size32 data))) as [Hle|Hlt]; cbn.
  - split_ok; try tauto; try apply wrap32_range; lia.
  - split_ok; try tauto; lia.
Qed.

Lemma OnTargetConnected_ok c ec :
  channel_ok c ->
  channel_ok (OnTargetConnected c ec).1 /\
  m_id (OnTargetConnected c ec).1 = m_id c.
Proof.
  intros Hok. unfold OnTargetConnected.
  destruct (m_state c) eqn:Es; cbn [ChannelState_eqb negb]; try done.
  destruct Hok as (Hst & Hsw & Hrw & Hrc & Hthr). rewrite Es in Hst.
  unfold channel_ok.
  destruct (negb (ErrorCode_is_Success ec)); cbn; by split_ok.
Qed.

Lemma SendToMux_loop_window fuel id w rest :
  is_uint32 w -> is_uint32 (SendToMux_loop fuel id w rest).1.
Proof.
  revert w rest. induction fuel as [|fuel IH]; intros w rest Hw.
  - by destruct rest.
  - destruct rest as [|b rest]; [done|]. cbn [SendToMux_loop].
    destruct (0 <? w).
    + match goal with
      | |- context [SendToMux_loop fuel id ?w' ?r] =>
          specialize (IH w' r (wrap32_range _));
          destruct (SendToMux_loop fuel id w' r)
      end. exact IH.
    + match goal with
      | |- context [SendToMux_loop fuel id ?w' ?r] =>
          specialize (IH w' r Hw);
          destruct (SendToMux_loop fuel id w' r)
      end. exact IH.
Qed.

Lemma OnTargetData_ok c data :
  channel_ok c ->
  channel_ok (OnTargetData c data).1 /\ m_id (OnTargetData c data).1 = m_id c.
Proof.
  intros Hok. unfold OnTargetData, SendToMux.
  destruct (negb (ChannelState_eqb (m_state c) Relaying)); [done|].
  destruct Hok as (Hst & Hsw & Hrw & Hrc & Hthr). unfold channel_ok.
  pose proof (SendToMux_loop_window (length data) (m_id c) _ data Hsw) as Hw.
  destruct (SendToMux_loop _ _ _ _) as [w calls]. cbn in *. by split_ok.
Qed.

Lemma OnTargetDisconnected_ok c ec :
  channel_ok c ->
  channel_ok (OnTargetDisconnected c ec).1 /\
  m_id (OnTargetDisconnected c ec).1 = m_id c.
Proof.
  intros Hok. unfold OnTargetDisconnected.
  destruct (m_state c) eqn:Es; cbn [ChannelState_eqb orb fst]; try done.
  all: destruct Hok as (Hst & Hsw & Hrw & Hrc & Hthr); unfold channel_ok;
    cbn; by split_ok.
Qed.

Lemma ProcessSocks5_ok env c :
  m_state c = Requesting -> channel_ok c ->
  channel_ok (ProcessSocks5 env c).1 /\ m_id (ProcessSocks5 env c).1 = m_id c.
Proof.
  intros Es Hok.
  assert (Hclosed : forall c', m_state c' = Closed -> m_target c' = None ->
            m_send_window c' = m_send_window c ->
            m_recv_window c' = m_recv_window c ->
            m_recv_window_initial c' = m_recv_window_initial c ->
            m_recv_consumed c' = m_recv_consumed c -> channel_ok c').
  { intros c' H1 H2 H3 H4 H5 H6. destruct Hok as (_ & Hsw & Hrw & Hrc & Hthr).
    unfold channel_ok. by rewrite H1, H2, H3, H4, H5, H6. }
  assert (Hconn : forall c', m_state c' = Connecting ->
            is_Some (m_target c') ->
            m_send_window c' = m_send_window c ->
            m_recv_window c' = m_recv_window c ->
            m_recv_window_initial c' = m_recv_window_initial c ->
            m_recv_consumed c' = m_recv_consumed c -> channel_ok c').
  { intros c' H1 H2 H3 H4 H5 H6. destruct Hok as (_ & Hsw & Hrw & Hrc & Hthr).
    unfold channel_ok. by rewrite H1, H3, H4, H5, H6. }
  unfold ProcessSocks5.
  destruct (negb (m_method_done c)).
  - destruct (Socks5.ParseMethodRequest (m_socks5_buf c)) as [consumed ok].
    destruct (consumed =? 0); [done|].
    destruct ((consumed <? 0) || negb ok).
    { split; [|done]. apply Hclosed; try done.
      cbn. destruct Hok as (Ht & _). by rewrite Es in Ht. }
    cbn [m_socks5_buf set_method_done set_socks5_buf m_connect_req].
    destruct (length _ =? 0)%nat;
      [split; [|done]; by apply (channel_ok_fields c)|].
    destruct (Socks5.ParseConnectRequest _ _) as [consumed' req].
    destruct (consumed' =? 0);
      [split; [|done]; by apply (channel_ok_fields c)|].
    destruct (consumed' <? 0).
    { split; [|done]. apply Hclosed; try done.
      cbn. destruct Hok as (Ht & _). by rewrite Es in Ht. }
    cbn. destruct (negb (ErrorCode_is_Success _)).
    + split; [|done]. by apply Hclosed.
    + split; [|done]. by apply Hconn.
  - destruct (length _ =? 0)%nat; [done|].
    destruct (Socks5.ParseConnectRequest _ _) as [consumed' req].
    destruct (consumed' =? 0);
      [split; [|done]; by apply (channel_ok_fields c)|].
    destruct (consumed' <? 0).
    { split; [|done]. apply Hclosed; try done.
      cbn. destruct Hok as (Ht & _). by rewrite Es in Ht. }
    cbn. destruct (negb (ErrorCode_is_Success _)).
    + split; [|done]. by apply Hclosed.
    + split; [|done]. by apply Hconn.
Qed.

Lemma OnRequest_ok env c data :
  channel_ok c ->
  channel_ok (OnRequest env c data).1 /\ m_id (OnRequest env c data).1 = m_id c.
Proof.
  intros Hok. unfold OnRequest.
  destruct (m_state c) eqn:Es; cbn [ChannelState_eqb negb]; try done.
  apply (ProcessSocks5_ok env (set_socks5_buf c (m_socks5_buf c ++ data)));
    [done|]. by apply (channel_ok_fields c).
Qed.

Lemma session_ok_same s s' :
  m_channels s' = m_channels s ->
  m_channel_window_size s' = m_channel_window_size s ->
  session_ok s -> session_ok s'.
Proof. unfold session_ok. by intros -> ->. Qed.

Lemma session_ok_control s s' :
  m_channels s' = m_channels s -> same_control s s' ->
  session_ok s -> session_ok s'.
Proof.
  intros Hm (_ & _ & Hw & _). by apply session_ok_same.
Qed.

Lemma perform_all_ok id s calls :
  session_ok s -> session_ok (perform_all id s calls).
Proof.
  apply session_ok_control;
    [apply perform_all_channels | apply perform_all_control].
Qed.

Lemma session_ok_insert s id c :
  session_ok s -> m_id c = id -> channel_ok c ->
  session_ok (set_channels s (<[id := c]> (m_channels s))).
Proof.
  intros [Hw Hs] Hid Hok. split; [done|]. intros i ch. cbn.
  destruct (decide (i = id)) as [->|Hne].
  - rewrite lookup_insert_eq. by intros [= <-].
  - rewrite lookup_insert_ne by done. apply Hs.
Qed.

Lemma session_ok_delete s id :
  session_ok s -> session_ok (set_channels s (delete id (m_channels s))).
Proof.
  intros [Hw Hs]. split; [done|]. intros i ch. cbn.
  intros [_ H]%lookup_delete_Some. by apply Hs.
Qed.

Lemma run_on_ok s id r :
  session_ok s -> m_id r.1 = id -> channel_ok r.1 -> session_ok (run_on s id r).
Proof.
  intros Hs Hid Hok. unfold run_on. apply perform_all_ok.
  by apply session_ok_insert.
Qed.

Lemma RemoveChannel_ok s id : session_ok s -> session_ok (RemoveChannel s id).
Proof.
  intros Hs. unfold RemoveChannel. destruct (m_channels s !! id); [|done].
  apply perform_all_ok. by apply session_ok_delete.
Qed.

(** A method of a channel that keeps [channel_ok] and the id, run on the
    channel registered under [id], keeps [session_ok]. *)
Lemma run_on_found_ok s id ch r :
  session_ok s -> m_channels s !! id = Some ch ->
  (channel_ok ch -> channel_ok r.1 /\ m_id r.1 = m_id ch) ->
  session_ok (run_on s id r).
Proof.
  intros Hs Hch Hr. destruct (proj2 Hs id ch Hch) as [Hid Hok].
  destruct (Hr Hok) as [Hok' Hid']. apply run_on_ok; [done| |done].
  by rewrite Hid'.
Qed.

Lemma target_event_ok s id handler :
  (forall c, channel_ok c ->
     channel_ok (handler c).1 /\ m_id (handler c).1 = m_id c) ->
  session_ok s -> session_ok (target_event s id handler).
Proof.
  intros Hh Hs. unfold target_event.
  destruct (m_channels s !! id) as [ch|] eqn:Hch; [|done].
  apply (run_on_found_ok s id ch); [done..|]. apply Hh.
Qed.

Lemma HandleChannelOpen_ok s f : session_ok s -> session_ok (HandleChannelOpen s f).
Proof.
  intros Hs. unfold HandleChannelOpen. cbv zeta.
  set (id := channel_id (header f)).
  set (s1 := match m_channels s !! id with
             | Some old => perform_all id s (Channel_delete old)
             | None => s
             end).
  assert (Hs1 : session_ok s1).
  { subst s1. destruct (m_channels s !! id); [by apply perform_all_ok|done]. }
  assert (Hw : m_channel_window_size s1 = m_channel_window_size s).
  { subst s1. destruct (m_channels s !! id); [|done].
    by destruct (perform_all_control id s (Channel_delete c)) as (_ & _ & H & _). }
  assert (Hnew : channel_ok (Channel_new id (m_channel_window_size s))).
  { apply Channel_new_ok, Hs. }
  destruct (OnOpen_ok (Channel_new id (m_channel_window_size s)) eq_refl Hnew)
    as [Hok Hid].
  apply run_on_ok; [|done..]. by apply session_ok_insert.
Qed.

Lemma DispatchFrame_ok env s f :
  session_ok s -> session_ok (DispatchFrame env s f).
Proof.
  intros Hs. unfold DispatchFrame.
  destruct (type (header f)); try done.
  - by apply HandleChannelOpen_ok.
  - unfold HandleChannelRequest, FindChannel.
    destruct (m_channels s !! _) as [ch|] eqn:Hch; [|done].
    apply (run_on_found_ok s _ ch); [done..|]. apply OnRequest_ok.
  - unfold HandleData, FindChannel.
    destruct (m_channels s !! _) as [ch|] eqn:Hch; [|done].
    apply (run_on_found_ok s _ ch); [done..|]. apply OnData_ok.
  - unfold HandleChannelClose, FindChannel. cbv zeta.
    destruct (m_channels s !! _) as [ch|] eqn:Hch.
    + assert (session_ok (run_on s (channel_id (header f))
                (OnClose ch (flags (header f))))) as Hr.
      { apply (run_on_found_ok s _ ch); [done..|]. apply OnClose_ok. }
      destruct (ChannelState_eqb _ _); [by apply RemoveChannel_ok|done].
    + revert Hs. apply session_ok_control;
        [apply SendFrame_channels | apply SendFrame_control].
  - unfold HandleChannelCloseAck, FindChannel. cbv zeta.
    destruct (m_channels s !! _) as [ch|] eqn:Hch; [|done].
    apply RemoveChannel_ok.
    apply (run_on_found_ok s _ ch); [done..|]. apply ForceClose_ok.
  - unfold HandlePing. revert Hs. apply session_ok_control;
      [apply SendFrame_channels | apply SendFrame_control].
  - unfold HandleWindowUpdate, FindChannel.
    destruct (length (payload f) <? 4)%nat; [done|]. cbv zeta.
    destruct (m_channels s !! _) as [ch|] eqn:Hch; [|done].
    apply (run_on_found_ok s _ ch); [done..|]. apply OnWindowUpdate_ok.
Qed.

Lemma OnDataReceived_ok env s data :
  session_ok s -> session_ok (OnDataReceived env s data).
Proof.
  intros Hs. unfold OnDataReceived. destruct (Feed _ _ _) as [c fs].
  assert (Hs' : session_ok (set_codec s c)) by done.
  revert Hs'. generalize (set_codec s c). clear Hs.
  induction fs as [|f fs IH]; intros s0 Hs0; [done|].
  cbn [fold_left]. by apply IH, DispatchFrame_ok.
Qed.

Lemma CloseAllChannels_ok s : session_ok s -> session_ok (CloseAllChannels s).
Proof.
  intros [Hw _]. split.
  - by destruct (CloseAllChannels_control s) as (_ & _ & -> & _).
  - intros id ch. by rewrite CloseAllChannels_channels.
Qed.

Lemma StopKeepaliveTimer_ok s : session_ok s -> session_ok (StopKeepaliveTimer s).
Proof. unfold StopKeepaliveTimer. by destruct (m_keepalive_timer s). Qed.

(** X13.  The invariant of the session.  A new session whose configured
    window is a 32-bit value satisfies [session_ok], and every entry point
    of the session keeps it: starting, received bytes, the three callbacks of
    a channel's connection, the keepalive timer, shutdown and the
    disconnect of the transport.  So every registered channel is filed under
    its own id, owns a connection while [Connecting] or [Relaying] and none
    while [Requesting] or [Closed], has 32-bit window counters, and has
    consumed less than half its initial window since its last
    WINDOW_UPDATE. *)
Theorem session_ok_invariant env :
  (forall t window_size keepalive_ms,
     is_uint32 window_size ->
     session_ok (MuxSession_new t window_size keepalive_ms)) /\
  forall s, session_ok s ->
    session_ok (Start s) /\
    (forall data, session_ok (OnDataReceived env s data)) /\
    (forall id ec,
       session_ok (target_event s id (fun c => OnTargetConnected c ec))) /\
    (forall id data,
       session_ok (target_event s id (fun c => OnTargetData c data))) /\
    (forall id ec,
       session_ok (target_event s id (fun c => OnTargetDisconnected c ec))) /\
    session_ok (KeepaliveTimerCallback s) /\
    session_ok (Shutdown s) /\
    (forall ec, session_ok (OnTransportDisconnected s ec)).
Proof.
  split.
  { intros t ws ka Hw. split; [done|]. intros id ch. cbn.
    by rewrite lookup_empty. }
  intros s Hs. split_ok.
  - unfold Start, StartKeepaliveTimer. cbv zeta.
    by destruct (_ <=? 0).
  - intros data. by apply OnDataReceived_ok.
  - intros id ec. apply target_event_ok; [|done].
    intros c. apply OnTargetConnected_ok.
  - intros id data. apply target_event_ok; [|done].
    intros c. apply OnTargetData_ok.
  - intros id ec. apply target_event_ok; [|done].
    intros c. apply OnTargetDisconnected_ok.
  - unfold KeepaliveTimerCallback. destruct (m_running s); [|done].
    revert Hs. apply session_ok_control;
      [apply SendFrame_channels | apply SendFrame_control].
  - unfold Shutdown. destruct (negb (m_running s)); [done|].
    by apply CloseAllChannels_ok, StopKeepaliveTimer_ok.
  - intros ec. unfold OnTransportDisconnected. cbv zeta.
    assert (H : session_ok (CloseAllChannels
                  (StopKeepaliveTimer (set_running s false)))).
    { by apply CloseAllChannels_ok, StopKeepaliveTimer_ok. }
    by destruct (m_on_disconnect _).
Qed.

(** A started session that has received CHANNEL_OPEN for channel 7 and
    then the first byte of a frame. *)
Lemma session_ok_invariant_witness :
  session_ok (OnDataReceived connect_pending
                (OnDataReceived connect_pending
                   (started_session 262144 30000) (BuildChannelOpen 7))
                [x05]).
Proof.
  destruct (session_ok_invariant connect_pending) as [Hnew Hkeep].
  assert (Hw : is_uint32 262144) by (unfold is_uint32; lia).
  pose proof (Hnew (Some {| sent := [] |}) 262144 30000 Hw) as H0.
  destruct (Hkeep _ H0) as (H1 & _).
  destruct (Hkeep _ H1) as (_ & H2 & _).
  destruct (Hkeep _ (H2 (BuildChannelOpen 7))) as (_ & H3 & _).
  exact (H3 [x05]).
Defined.

(** ** Bytes of the outbound connection, relayed to the peer *)

Lemma BuildData_wire id rest chunk :
  1 <= chunk <= Z.of_nat (length rest) ->
  BuildData id rest chunk
  = wire (frame_of Data x00 id (take (Z.to_nat chunk) rest)).
Proof.
  intros Hc. unfold BuildData, Encode, wire, frame_of. cbn [header payload].
  rewrite length_take, Nat.min_l, Z2Nat.id by lia.
  destruct (Z.ltb_spec 0 chunk) as [_|]; [|lia].
  replace (Z.to_nat chunk - length rest)%nat with 0%nat by lia.
  by rewrite app_nil_r.
Qed.

(** The chunks that the loop of [SendToMux] cuts: each holds between 1 and
    [FRAME_MAX_PAYLOAD] bytes, together they are the data, each goes out as
    one DATA frame, and the window is charged what was sent, down to
    zero. *)
Lemma SendToMux_loop_chunks fuel : forall id w rest,
  (length rest <= fuel)%nat -> is_uint32 w ->
  exists chunks,
    concat chunks = rest /\
    Forall (fun p => 1 <= Z.of_nat (length p) <= FRAME_MAX_PAYLOAD) chunks /\
    frames_of_calls (SendToMux_loop fuel id w rest).2
    = map (fun p => wire (frame_of Data x00 id p)) chunks /\
    connection_calls (SendToMux_loop fuel id w rest).2 = [] /\
    (SendToMux_loop fuel id w rest).1 = Z.max 0 (w - Z.of_nat (length rest)).
Proof.
  induction fuel as [|fuel IH]; intros id w rest Hlen Hw.
  { destruct rest; [|simpl in Hlen; lia]. exists []. cbn.
    unfold is_uint32 in Hw. repeat split; try done. lia. }
  destruct rest as [|b rest].
  { exists []. cbn. unfold is_uint32 in Hw. repeat split; try done. lia. }
  rewrite SendToMux_loop_step. cbv zeta.
  pose proof (chunk_positive (b :: rest) w ltac:(done)) as Hpos.
  cbv zeta in Hpos.
  assert (Hchunk :
    wrap32 (Z.min (Z.of_nat (length (b :: rest))) FRAME_MAX_PAYLOAD)
    = Z.min (Z.of_nat (length (b :: rest))) FRAME_MAX_PAYLOAD).
  { apply wrap32_small. rewrite FRAME_MAX_PAYLOAD_val. lia. }
  rewrite Hchunk in *. clear Hchunk.
  set (data := b :: rest) in *.
  set (chunk := Z.min (Z.of_nat (length data)) FRAME_MAX_PAYLOAD) in *.
  assert (Hmax : chunk <= FRAME_MAX_PAYLOAD) by (subst chunk; lia).
  assert (Hlenc : chunk <= Z.of_nat (length data)) by (subst chunk; lia).
  assert (Hfuel : (length data <= S fuel)%nat) by exact Hlen.
  clearbody chunk data. unfold is_uint32 in Hw.
  destruct (Z.ltb_spec 0 w) as [Hwpos|Hwz].
  - set (n := Z.min chunk w) in *.
    assert (Hw' : wrap32 (w - n) = w - n).
    { apply wrap32_small. subst n. lia. }
    rewrite Hw'.
    destruct (IH id (w - n) (drop (Z.to_nat n) data)) as (chunks & H1 & H2 & H3 & H4 & H5).
    { rewrite length_drop. lia. }
    { unfold is_uint32. subst n. lia. }
    destruct (SendToMux_loop fuel id (w - n) _) as [w'' calls].
    cbn [fst snd] in *.
    exists (take (Z.to_nat n) data :: chunks). split_ok.
    + cbn [concat]. rewrite H1. apply take_drop.
    + constructor; [|done]. rewrite length_take. subst n. lia.
    + cbn [map]. rewrite <- H3, <- BuildData_wire by (subst n; lia).
      reflexivity.
    + exact H4.
    + rewrite H5, length_drop. subst n. lia.
  - destruct (IH id w (drop (Z.to_nat chunk) data)) as (chunks & H1 & H2 & H3 & H4 & H5).
    { rewrite length_drop. lia. }
    { unfold is_uint32. lia. }
    destruct (SendToMux_loop fuel id w _) as [w'' calls].
    cbn [fst snd] in *.
    exists (take (Z.to_nat chunk) data :: chunks). split_ok.
    + cbn [concat]. rewrite H1. apply take_drop.
    + constructor; [|done]. rewrite length_take. lia.
    + cbn [map]. rewrite <- H3, <- BuildData_wire by lia.
      reflexivity.
    + exact H4.
    + rewrite H5. lia.
Qed.

(** X14.  Bytes that the outbound connection delivers to a relaying channel
    reach the peer whole and in order: the channel asks for DATA frames
    only, and a fresh frame codec fed everything they put on the wire
    decodes DATA frames of this channel, each with 1 to 65536 bytes of
    payload, whose payloads together are the bytes delivered, and keeps
    nothing back.  The send window is charged the bytes sent, down to
    zero. *)
Theorem target_data_reaches_peer c data :
  m_state c = Relaying -> 0 <= m_id c < 65536 -> is_uint32 (m_send_window c) ->
  exists fs,
    Feed FrameCodec_new (concat (frames_of_calls (OnTargetData c data).2)) []
    = (FrameCodec_new, fs) /\
    Forall (fun f => type (header f) = FrameType_value Data /\
                     flags (header f) = x00 /\
                     channel_id (header f) = m_id c /\
                     1 <= Z.of_nat (length (payload f)) <= FRAME_MAX_PAYLOAD) fs /\
    concat (map payload fs) = data /\
    connection_calls (OnTargetData c data).2 = [] /\
    m_send_window (OnTargetData c data).1
    = Z.max 0 (m_send_window c - Z.of_nat (length data)).
Proof.
  intros Es Hid Hw. unfold OnTargetData, SendToMux. rewrite Es.
  cbn [ChannelState_eqb negb].
  destruct (SendToMux_loop_chunks (length data) (m_id c) (m_send_window c)
              data ltac:(done) Hw) as (chunks & H1 & H2 & H3 & H4 & H5).
  destruct (SendToMux_loop _ _ _ _) as [w calls]. cbn [fst snd] in *.
  exists (map (frame_of Data x00 (m_id c)) chunks).
  assert (Hwf : Forall wf_frame (map (frame_of Data x00 (m_id c)) chunks)).
  { apply Forall_map. eapply Forall_impl; [exact H2|].
    intros p [_ Hp]. by apply wf_frame_of. }
  split_ok.
  - rewrite H3. rewrite Feed_spec by apply settled_nil.
    change (m_buffer FrameCodec_new ++ ?d) with d.
    replace (concat (map _ chunks))
      with (stream (map (frame_of Data x00 (m_id c)) chunks) ++ []).
    2:{ rewrite app_nil_r. unfold stream. by rewrite map_map. }
    rewrite parse_frames_stream by done.
    by rewrite parse_frames_eq.
  - apply Forall_map. eapply Forall_impl; [exact H2|]. by intros p Hp.
  - rewrite map_map. cbn [payload frame_of]. by rewrite map_id.
  - exact H4.
  - exact H5.
Qed.

(** Five bytes arrive on channel 7, whose window has two left: all five
    are decoded by the peer and the window is then exhausted. *)
Lemma target_data_reaches_peer_witness :
  let c := relaying_channel 7 262144 2 in
  let data := [x68; x65; x6c; x6c; x6f] in
  m_send_window (OnTargetData c data).1 = 0 /\
  exists fs,
    Feed FrameCodec_new (concat (frames_of_calls (OnTargetData c data).2)) []
    = (FrameCodec_new, fs) /\
    concat (map payload fs) = data.
Proof.
  intros c data.
  destruct (target_data_reaches_peer c data)
    as (fs & Hf & _ & Hp & _ & Hw).
  - reflexivity.
  - cbn. lia.
  - unfold is_uint32. cbn. lia.
  - split; [exact Hw|]. exists fs. by split.
Defined.

(** ** The SOCKS5 parsers on arbitrary bytes *)

Lemma at_app_l l1 l2 i : (i < length l1)%nat -> at_ (l1 ++ l2) i = at_ l1 i.
Proof. intros H. unfold at_. by rewrite app_nth1. Qed.

Lemma take_drop_app_l {A} (l1 l2 : list A) i n :
  (i + n <= length l1)%nat -> take n (drop i (l1 ++ l2)) = take n (drop i l1).
Proof.
  intros H. rewrite drop_app_le by lia. rewrite take_app_le; [done|].
  rewrite length_drop. lia.
Qed.

(** The outcomes of [ParseMethodRequest] on any bytes. *)
Lemma ParseMethodRequest_cases data :
  let r := Socks5.ParseMethodRequest data in
  (r.1 = -1 \/ r.1 = 0 \/
   r.1 = 2 + u8 (at_ data 1) /\ r.1 <= Z.of_nat (length data)) /\
  (r.2 = true -> 0 < r.1) /\
  (r.1 <> 0 -> forall more, Socks5.ParseMethodRequest (data ++ more) = r).
Proof.
  cbv zeta. unfold Socks5.ParseMethodRequest. cbv zeta.
  pose proof (u8_range (at_ data 1)) as Hu.
  destruct (Nat.ltb_spec (length data) 2) as [Hl2|Hl2].
  { cbn [fst snd]. split_ok; [tauto|done|done]. }
  destruct (negb (Byte.eqb (at_ data 0) Socks5.VERSION)) eqn:Ev.
  { cbn [fst snd]. split_ok; [tauto|done|]. intros _ more.
    rewrite length_app.
    destruct (Nat.ltb_spec (length data + length more) 2); [lia|].
    by rewrite at_app_l, Ev by lia. }
  destruct (Nat.ltb_spec (length data) (2 + Z.to_nat (u8 (at_ data 1))))
    as [Hlt|Hge].
  { cbn [fst snd]. split_ok; [tauto|done|done]. }
  cbn [fst snd]. split_ok.
  - right. right. lia.
  - lia.
  - intros _ more. rewrite length_app.
    destruct (Nat.ltb_spec (length data + length more) 2); [lia|].
    rewrite !at_app_l, Ev by lia.
    destruct (Nat.ltb_spec (length data + length more)
                (2 + Z.to_nat (u8 (at_ data 1)))); [lia|].
    by rewrite take_drop_app_l by lia.
Qed.

(** X15.  [ParseMethodRequest] on any bytes returns -1, 0 or the size
    [2 + NMETHODS] of the message at the front, never more than it was
    given; it reports NO_AUTH only with a complete message; and a result
    other than 0 is final: more bytes behind do not change it. *)
Theorem ParseMethodRequest_decided data :
  let r := Socks5.ParseMethodRequest data in
  (r.1 = -1 \/ r.1 = 0 \/
   r.1 = 2 + u8 (at_ data 1) /\ r.1 <= Z.of_nat (length data)) /\
  (r.2 = true -> 0 < r.1) /\
  (r.1 <> 0 -> forall more, Socks5.ParseMethodRequest (data ++ more) = r).
Proof. exact (ParseMethodRequest_cases data). Qed.

Lemma if_same {A} (b : bool) (x : A) : (if b then x else x) = x.
Proof. by destruct b. Qed.

(** The outcomes of [ParseConnectRequest] on any bytes and any [out]. *)
Lemma ParseConnectRequest_cases data out :
  let r := Socks5.ParseConnectRequest data out in
  (r.1 = -1 \/ r.1 = 0 \/
   0 < r.1 <= Z.of_nat (length data) /\
   r.1 = (if Byte.eqb (at_ data 3) Socks5.ATYP_IPV4 then 10
          else if Byte.eqb (at_ data 3) Socks5.ATYP_DOMAIN
               then 7 + u8 (at_ data 4)
               else 22)) /\
  (r.1 <> 0 ->
   forall more, Socks5.ParseConnectRequest (data ++ more) out = r) /\
  (r.1 <= 0 ->
   Socks5.host r.2 = Socks5.host out /\ Socks5.port r.2 = Socks5.port out /\
   Socks5.ipv4 r.2 = Socks5.ipv4 out /\ Socks5.ipv6 r.2 = Socks5.ipv6 out) /\
  (r.1 = 0 ->
   forall more,
     Socks5.ParseConnectRequest (data ++ more) r.2
     = Socks5.ParseConnectRequest (data ++ more) out).
Proof.
  cbv zeta. unfold Socks5.ParseConnectRequest. cbv zeta.
  assert (Hif : forall (c : bool) (x : Z * Socks5.ConnectRequest),
            (if c then x else x) = x) by (intros; apply if_same).
  pose proof (u8_range (at_ data 4)) as Hu.
  destruct (Nat.ltb_spec (length data) 4) as [Hl4|Hl4].
  { cbn [fst snd]. split_ok; [tauto|done|done|done]. }
  destruct (negb (Byte.eqb (at_ data 0) Socks5.VERSION)) eqn:Ev.
  { cbn [fst snd]. split_ok; [tauto| |done|done]. intros _ more.
    rewrite length_app.
    destruct (Nat.ltb_spec (length data + length more) 4); [lia|].
    by rewrite at_app_l, Ev by lia. }
  assert (Hmore : forall more,
    (length (data ++ more) <? 4)%nat = false /\
    at_ (data ++ more) 0 = at_ data 0 /\
    at_ (data ++ more) 1 = at_ data 1 /\
    at_ (data ++ more) 3 = at_ data 3).
  { intros more. rewrite length_app, !at_app_l by lia. split_ok; try done.
    apply Nat.ltb_ge. lia. }
  destruct (Byte.eqb (at_ data 3) Socks5.ATYP_IPV4) eqn:E4.
  { destruct (Nat.ltb_spec (length data) (4 + 4 + 2)) as [Hlt|Hge];
      cbn [fst snd Socks5.host Socks5.port Socks5.ipv4 Socks5.ipv6
           Socks5.atyp].
    - split_ok; [tauto|done|done|]. intros _ more.
      destruct (Hmore more) as (-> & -> & -> & ->). by rewrite Ev, E4.
    - split_ok.
      + right. right. rewrite Hif. cbn [fst]. lia.
      + intros _ more. destruct (Hmore more) as (-> & -> & -> & ->).
        rewrite Ev, E4. rewrite length_app.
        destruct (Nat.ltb_spec (length data + length more) (4 + 4 + 2)); [lia|].
        rewrite !Hif. by rewrite !at_app_l, take_drop_app_l by lia.
      + rewrite Hif. cbn [fst]. lia.
      + rewrite Hif. cbn [fst]. lia. }
  destruct (Byte.eqb (at_ data 3) Socks5.ATYP_DOMAIN) eqn:Ed.
  { destruct (Nat.ltb_spec (length data) 5) as [Hl5|Hl5];
      cbn [fst snd Socks5.host Socks5.port Socks5.ipv4 Socks5.ipv6
           Socks5.atyp].
    { split_ok; [tauto|done|done|]. intros _ more.
      destruct (Hmore more) as (-> & -> & -> & ->). by rewrite Ev, E4, Ed. }
    set (n := Z.to_nat (u8 (at_ data 4))).
    destruct (Nat.ltb_spec (length data) (4 + (1 + n) + 2)) as [Hlt|Hge];
      cbn [fst snd Socks5.host Socks5.port Socks5.ipv4 Socks5.ipv6
           Socks5.atyp].
    - split_ok; [tauto|done|done|]. intros _ more.
      destruct (Hmore more) as (-> & -> & -> & ->). by rewrite Ev, E4, Ed.
    - split_ok.
      + right. right. rewrite Hif. cbn [fst]. lia.
      + intros _ more. destruct (Hmore more) as (-> & -> & -> & ->).
        rewrite Ev, E4, Ed. rewrite length_app.
        destruct (Nat.ltb_spec (length data + length more) 5); [lia|].
        rewrite (at_app_l data more 4) by lia. fold n.
        destruct (Nat.ltb_spec (length data + length more) (4 + (1 + n) + 2));
          [lia|].
        rewrite !Hif. by rewrite !at_app_l, take_drop_app_l by lia.
      + rewrite Hif. cbn [fst]. lia.
      + rewrite Hif. cbn [fst]. lia. }
  destruct (Byte.eqb (at_ data 3) Socks5.ATYP_IPV6) eqn:E6.
  { destruct (Nat.ltb_spec (length data) (4 + 16 + 2)) as [Hlt|Hge];
      cbn [fst snd Socks5.host Socks5.port Socks5.ipv4 Socks5.ipv6
           Socks5.atyp].
    - split_ok; [tauto|done|done|]. intros _ more.
      destruct (Hmore more) as (-> & -> & -> & ->). by rewrite Ev, E4, Ed, E6.
    - split_ok.
      + right. right. rewrite Hif. cbn [fst]. lia.
      + intros _ more. destruct (Hmore more) as (-> & -> & -> & ->).
        rewrite Ev, E4, Ed, E6. rewrite length_app.
        destruct (Nat.ltb_spec (length data + length more) (4 + 16 + 2)); [lia|].
        rewrite !Hif. by rewrite !at_app_l, take_drop_app_l by lia.
      + rewrite Hif. cbn [fst]. lia.
      + rewrite Hif. cbn [fst]. lia. }
  cbn [fst snd Socks5.host Socks5.port Socks5.ipv4 Socks5.ipv6 Socks5.atyp].
  split_ok; [tauto| |done|done]. intros _ more.
  destruct (Hmore more) as (-> & -> & -> & ->). by rewrite Ev, E4, Ed, E6.
Qed.

(** X16.  [ParseConnectRequest] on any bytes returns -1, 0 or the size of
    the request at the front (10 bytes for IPv4, 22 for IPv6, 7 plus the
    name for a domain), never more than it was given.  A result other than
    0 is final: more bytes behind change neither it nor the request read.
    A call that does not consume a request leaves host, port and addresses
    of [out] as they were, and what it wrote to [out] does not influence a
    later call on more bytes. *)
Theorem ParseConnectRequest_decided data out :
  let r := Socks5.ParseConnectRequest data out in
  (r.1 = -1 \/ r.1 = 0 \/
   0 < r.1 <= Z.of_nat (length data) /\
   r.1 = (if Byte.eqb (at_ data 3) Socks5.ATYP_IPV4 then 10
          else if Byte.eqb (at_ data 3) Socks5.ATYP_DOMAIN
               then 7 + u8 (at_ data 4)
               else 22)) /\
  (r.1 <> 0 ->
   forall more, Socks5.ParseConnectRequest (data ++ more) out = r) /\
  (r.1 <= 0 ->
   Socks5.host r.2 = Socks5.host out /\ Socks5.port r.2 = Socks5.port out /\
   Socks5.ipv4 r.2 = Socks5.ipv4 out /\ Socks5.ipv6 r.2 = Socks5.ipv6 out) /\
  (r.1 = 0 ->
   forall more,
     Socks5.ParseConnectRequest (data ++ more) r.2
     = Socks5.ParseConnectRequest (data ++ more) out).
Proof. exact (ParseConnectRequest_cases data out). Qed.

(** ** The SOCKS5 handshake of a channel, in pieces *)

Lemma OnRequest_Requesting env c data :
  m_state c = Requesting ->
  OnRequest env c data
  = ProcessSocks5 env (set_socks5_buf c (m_socks5_buf c ++ data)).
Proof. intros Es. unfold OnRequest. by rewrite Es. Qed.

Lemma OnRequest_not_Requesting env c data :
  m_state c <> Requesting -> OnRequest env c data = (c, []).
Proof. intros Es. unfold OnRequest. by destruct (m_state c). Qed.

(** The connect phase: the method negotiation is done. *)
Lemma connect_phase_fragments env c more :
  m_method_done c = true -> m_state c = Requesting ->
  let r1 := ProcessSocks5 env c in
  let r2 := OnRequest env r1.1 more in
  let r := ProcessSocks5 env (set_socks5_buf c (m_socks5_buf c ++ more)) in
  r1.2 ++ r2.2 = r.2 /\
  same_but_socks5_buf r2.1 r.1 /\
  (m_state r.1 = Requesting -> r2.1 = r.1).
Proof.
  intros Hdone Es. cbv zeta.
  destruct (m_socks5_buf c) as [|b buf] eqn:Ebuf.
  { assert (H1 : ProcessSocks5 env c = (c, [])).
    { unfold ProcessSocks5. rewrite Hdone. cbn [negb]. rewrite Ebuf.
      reflexivity. }
    rewrite H1. cbn [fst snd]. rewrite OnRequest_Requesting, Ebuf by done.
    by split_ok. }
  pose proof (ParseConnectRequest_cases (b :: buf) (m_connect_req c))
    as (_ & Hfinal & _ & Hzero). cbv zeta in Hfinal, Hzero.
  destruct (Socks5.ParseConnectRequest (b :: buf) (m_connect_req c))
    as [n out] eqn:Ep. cbn [fst snd] in Hfinal, Hzero.
  destruct (Z.eqb_spec n 0) as [->|Hn].
  { assert (H1 : ProcessSocks5 env c = (set_connect_req c out, [])).
    { unfold ProcessSocks5. rewrite Hdone. cbn [negb]. rewrite Ebuf, Ep.
      reflexivity. }
    rewrite H1. cbn [fst snd].
    rewrite OnRequest_Requesting by done.
    cbn [m_socks5_buf set_connect_req]. rewrite Ebuf.
    assert (H2 : ProcessSocks5 env
                   (set_socks5_buf (set_connect_req c out) ((b :: buf) ++ more))
                 = ProcessSocks5 env (set_socks5_buf c ((b :: buf) ++ more))).
    { unfold ProcessSocks5. cbn [m_method_done set_socks5_buf set_connect_req].
      rewrite Hdone.
      cbn [negb m_socks5_buf m_connect_req set_socks5_buf set_connect_req].
      rewrite (Hzero eq_refl more).
      destruct (Socks5.ParseConnectRequest _ _) as [n' out'].
      reflexivity. }
    rewrite H2. by split_ok. }
  specialize (Hfinal Hn more).
  unfold ProcessSocks5.
  cbn [m_method_done set_socks5_buf]. rewrite Hdone.
  cbn [negb m_socks5_buf m_connect_req set_socks5_buf].
  rewrite Ebuf, Hfinal, Ep.
  change (length (b :: buf) =? 0)%nat with false.
  change (length ((b :: buf) ++ more) =? 0)%nat with false.
  cbn iota.
  destruct (Z.eqb_spec n 0) as [|_]; [done|].
  destruct (n <? 0).
  { cbn [fst snd]. rewrite OnRequest_not_Requesting by done.
    by split_ok. }
  cbn [m_connect_req set_target set_state set_socks5_buf set_connect_req
       m_target m_id].
  destruct (negb (ErrorCode_is_Success _)) eqn:Eec.
  - unfold OnTargetConnected. cbn [m_state ChannelState_eqb negb].
    rewrite Eec. cbn [fst snd]. rewrite OnRequest_not_Requesting by done.
    split_ok; [by rewrite app_nil_r|done|done].
  - cbn [fst snd]. rewrite OnRequest_not_Requesting by done.
    split_ok; [by rewrite app_nil_r|done|done].
Qed.

(** A method selection that offers NO_AUTH is answered, and the connect
    phase follows on the bytes behind it. *)
Lemma ProcessSocks5_method_ok env c n :
  m_method_done c = false ->
  Socks5.ParseMethodRequest (m_socks5_buf c) = (n, true) -> 0 < n ->
  let resp := Socks5.BuildMethodResponse Socks5.AUTH_NONE in
  let c1 := set_method_done
              (set_socks5_buf c (drop (Z.to_nat n) (m_socks5_buf c))) true in
  ProcessSocks5 env c
  = ((ProcessSocks5 env c1).1,
     SendChannelRequestAck (m_id c) resp (size32 resp)
     :: (ProcessSocks5 env c1).2).
Proof.
  intros Hdone Hp Hn. cbv zeta. unfold ProcessSocks5.
  cbn [m_method_done set_method_done set_socks5_buf m_socks5_buf
       m_connect_req].
  rewrite Hdone, Hp. cbn [negb orb].
  destruct (Z.eqb_spec n 0) as [|_]; [lia|].
  destruct (Z.ltb_spec n 0) as [|_]; [lia|].
  cbn [orb].
  destruct (length _ =? 0)%nat; [done|].
  destruct (Socks5.ParseConnectRequest _ _) as [n' out'].
  destruct (n' =? 0); [done|]. destruct (n' <? 0); [done|].
  cbn [m_connect_req set_target set_state set_socks5_buf set_connect_req
       m_target m_id].
  destruct (negb (ErrorCode_is_Success _)); [|done].
  by destruct (OnTargetConnected _ _).
Qed.

Lemma ProcessSocks5_fragments env c more :
  m_state c = Requesting ->
  let r1 := ProcessSocks5 env c in
  let r2 := OnRequest env r1.1 more in
  let r := ProcessSocks5 env (set_socks5_buf c (m_socks5_buf c ++ more)) in
  r1.2 ++ r2.2 = r.2 /\
  same_but_socks5_buf r2.1 r.1 /\
  (m_state r.1 = Requesting -> r2.1 = r.1).
Proof.
  intros Es.
  destruct (m_method_done c) eqn:Hdone; [by apply connect_phase_fragments|].
  cbv zeta.
  pose proof (ParseMethodRequest_cases (m_socks5_buf c))
    as (Hres & Hok & Hfinal). cbv zeta in Hres, Hok, Hfinal.
  destruct (Socks5.ParseMethodRequest (m_socks5_buf c)) as [n ok] eqn:Ep.
  cbn [fst snd] in Hres, Hok, Hfinal.
  destruct (Z.eqb_spec n 0) as [->|Hn].
  { assert (H1 : ProcessSocks5 env c = (c, [])).
    { unfold ProcessSocks5. rewrite Hdone, Ep. reflexivity. }
    rewrite H1. cbn [fst snd]. rewrite OnRequest_Requesting by done.
    by split_ok. }
  specialize (Hfinal Hn more).
  destruct ((n <? 0) || negb ok) eqn:Ebad.
  { unfold ProcessSocks5.
    cbn [m_method_done set_socks5_buf m_socks5_buf]. rewrite Hdone.
    cbn [negb]. rewrite Hfinal, Ep.
    destruct (Z.eqb_spec n 0) as [|_]; [done|]. rewrite Ebad.
    cbn [fst snd]. rewrite OnRequest_not_Requesting by done.
    by split_ok. }
  apply orb_false_elim in Ebad as [Hn0%Z.ltb_ge Hok'%negb_false_iff].
  subst ok. specialize (Hok eq_refl).
  assert (Hlen : (Z.to_nat n <= length (m_socks5_buf c))%nat) by lia.
  rewrite (ProcessSocks5_method_ok env c n) by done.
  rewrite (ProcessSocks5_method_ok env
             (set_socks5_buf c (m_socks5_buf c ++ more)) n) by done.
  cbn [fst snd m_socks5_buf set_socks5_buf m_id].
  rewrite drop_app_le by done.
  set (c1 := set_method_done
               (set_socks5_buf c (drop (Z.to_nat n) (m_socks5_buf c))) true).
  destruct (connect_phase_fragments env c1 more eq_refl Es) as (H1 & H2 & H3).
  cbn [app]. split_ok.
  - f_equal. exact H1.
  - exact H2.
  - exact H3.
Qed.

(** X17.  The SOCKS5 handshake of a channel does not depend on how its
    bytes are split over CHANNEL_REQUEST frames: delivering [d1] and then
    [d2] makes the same calls, in the same order, as delivering [d1 ++ d2]
    at once, and leaves the same channel, but for bytes left over in the
    SOCKS5 buffer of a channel that has left [Requesting] and does not read
    it again. *)
Theorem socks5_handshake_fragments env c d1 d2 :
  let r1 := OnRequest env c d1 in
  let r2 := OnRequest env r1.1 d2 in
  let r := OnRequest env c (d1 ++ d2) in
  r1.2 ++ r2.2 = r.2 /\
  same_but_socks5_buf r2.1 r.1 /\
  (m_state r.1 = Requesting -> r2.1 = r.1).
Proof.
  cbv zeta.
  assert (m_state c = Requesting \/ m_state c <> Requesting) as [Es|Es].
  { destruct (m_state c); by (left + right). }
  2:{ rewrite !(OnRequest_not_Requesting env c) by done. cbn [fst snd].
      rewrite ?OnRequest_not_Requesting by done. by split_ok. }
  rewrite !(OnRequest_Requesting env c) by done.
  rewrite app_assoc.
  apply (ProcessSocks5_fragments env
           (set_socks5_buf c (m_socks5_buf c ++ d1)) d2 Es).
Qed.

(** ** The handshake of a channel, from CHANNEL_OPEN to the connect *)

Lemma connect_request_length cmd rsv a port :
  (0 < length (connect_request cmd rsv a port))%nat.
Proof. unfold connect_request. cbn [app length]. lia. Qed.

(** The handshake in one piece, by what the client offers and what the
    connect returns at once. *)
Lemma handshake_cases env c methods cmd rsv a port :
  m_state c = Requesting -> m_method_done c = false ->
  m_socks5_buf c = [] -> m_target c = None ->
  (length methods <= 255)%nat -> valid_address a -> 0 <= port < 65536 ->
  let req := parsed_request a port (m_connect_req c) in
  let ec := env (Socks5.host req) port in
  let r := OnRequest env c
             (method_request methods ++ connect_request cmd rsv a port) in
  if existsb (fun m => Byte.eqb m Socks5.AUTH_NONE) methods then
    let ack := SendChannelRequestAck (m_id c) [x05; x00] 2 in
    let connect := TargetConnectAsync (Socks5.host req) port in
    if ErrorCode_is_Success ec then
      r.2 = [ack; connect] /\
      m_state r.1 = Connecting /\ is_Some (m_target r.1) /\
      m_connect_req r.1 = req /\ m_socks5_buf r.1 = []
    else
      r.2 = [ack; connect;
             SendChannelRequestAck (m_id c)
               [x05; Socks5.ErrorCodeToSocks5Reply ec; x00; x01;
                x00; x00; x00; x00; x00; x00] 10;
             SendChannelClose (m_id c) FRAME_FLAG_RST;
             TargetDelete] /\
      m_state r.1 = Closed /\ m_target r.1 = None
  else
    r.2 = [SendChannelRequestAck (m_id c) [x05; xff] 2;
           SendChannelClose (m_id c) FRAME_FLAG_RST] /\
    m_state r.1 = Closed /\ m_target r.1 = None.
Proof.
  intros Es Hdone Hbuf Htg Hm Ha Hport. cbv zeta.
  rewrite OnRequest_Requesting, Hbuf by done. cbn [app].
  set (msg := method_request methods ++ connect_request cmd rsv a port).
  pose proof (ParseMethodRequest_full methods Hm) as Hfull.
  pose proof (ParseMethodRequest_cases (method_request methods))
    as (_ & _ & Hfinal). cbv zeta in Hfinal.
  rewrite Hfull in Hfinal. cbn [fst] in Hfinal.
  assert (Hn : (0 < length (method_request methods))%nat).
  { unfold method_request. cbn [length]. lia. }
  specialize (Hfinal ltac:(lia) (connect_request cmd rsv a port)).
  fold msg in Hfinal.
  destruct (existsb _ methods) eqn:Eok.
  - rewrite (ProcessSocks5_method_ok env (set_socks5_buf c msg)
               (Z.of_nat (length (method_request methods))));
      [|done|done|lia].
    cbn [fst snd m_socks5_buf set_socks5_buf m_id].
    rewrite Nat2Z.id. subst msg. rewrite drop_app_length.
    unfold ProcessSocks5.
    cbn [m_method_done set_method_done set_socks5_buf m_socks5_buf
         m_connect_req negb].
    pose proof (connect_request_length cmd rsv a port) as Hlen.
    destruct (Nat.eqb_spec (length (connect_request cmd rsv a port)) 0);
      [lia|].
    rewrite ParseConnectRequest_full by done.
    destruct (Z.eqb_spec (Z.of_nat (length (connect_request cmd rsv a port))) 0);
      [lia|].
    destruct (Z.ltb_spec (Z.of_nat (length (connect_request cmd rsv a port))) 0);
      [lia|].
    rewrite Nat2Z.id, drop_all.
    cbn [m_connect_req set_target set_state set_socks5_buf set_connect_req
         set_method_done m_target m_id].
    rewrite Htg.
    assert (Hp : Socks5.port (parsed_request a port (m_connect_req c)) = port).
    { by destruct a. }
    rewrite Hp.
    destruct (ErrorCode_is_Success _) eqn:Eec; cbn [negb].
    + cbn [fst snd m_state m_target m_connect_req m_socks5_buf app].
      split_ok; try done.
    + unfold OnTargetConnected. cbn [m_state ChannelState_eqb negb].
      rewrite Eec. cbn [negb fst snd m_state m_target set_target set_state
                         m_id app SendCloseToMux].
      split_ok; try done.
  - unfold ProcessSocks5.
    cbn [m_method_done set_socks5_buf m_socks5_buf]. rewrite Hdone.
    cbn [negb]. rewrite Hfinal.
    destruct (Z.eqb_spec (Z.of_nat (length (method_request methods))) 0);
      [lia|].
    rewrite orb_true_r. cbn [fst snd m_state m_target set_state m_id app
                             SendCloseToMux].
    split_ok; try done.
Qed.

(** X18.  A channel that has been opened and receives a SOCKS5 method
    selection followed by a request, in one CHANNEL_REQUEST: if NO_AUTH is
    on offer, the channel answers [05 00], takes host and port from the
    request and starts the outbound connect; it is then [Connecting] and
    owns the connection, or, if the connect could not be started, it reports
    the failure in a SOCKS5 reply, sends CHANNEL_CLOSE with RST, releases the
    connection and is [Closed].  If NO_AUTH is not on offer it answers
    [05 FF], sends CHANNEL_CLOSE with RST and is [Closed]; no connect is
    started. *)
Theorem handshake_starts_connect env c methods cmd rsv a port :
  m_state c = Requesting -> m_method_done c = false ->
  m_socks5_buf c = [] -> m_target c = None ->
  (length methods <= 255)%nat -> valid_address a -> 0 <= port < 65536 ->
  let req := parsed_request a port (m_connect_req c) in
  let ec := env (Socks5.host req) port in
  let r := OnRequest env c
             (method_request methods ++ connect_request cmd rsv a port) in
  if existsb (fun m => Byte.eqb m Socks5.AUTH_NONE) methods then
    let ack := SendChannelRequestAck (m_id c) [x05; x00] 2 in
    let connect := TargetConnectAsync (Socks5.host req) port in
    if ErrorCode_is_Success ec then
      r.2 = [ack; connect] /\
      m_state r.1 = Connecting /\ is_Some (m_target r.1) /\
      m_connect_req r.1 = req /\ m_socks5_buf r.1 = []
    else
      r.2 = [ack; connect;
             SendChannelRequestAck (m_id c)
               [x05; Socks5.ErrorCodeToSocks5Reply ec; x00; x01;
                x00; x00; x00; x00; x00; x00] 10;
             SendChannelClose (m_id c) FRAME_FLAG_RST;
             TargetDelete] /\
      m_state r.1 = Closed /\ m_target r.1 = None
  else
    r.2 = [SendChannelRequestAck (m_id c) [x05; xff] 2;
           SendChannelClose (m_id c) FRAME_FLAG_RST] /\
    m_state r.1 = Closed /\ m_target r.1 = None.
Proof. exact (handshake_cases env c methods cmd rsv a port). Qed.

(** ** A frame and the other channels *)

Section isolation.
Variable cid : Z.

Lemma only_own_refl s : only_own cid s s.
Proof. split; [done|]. exists []. by rewrite app_nil_r. Qed.

Lemma only_own_trans s1 s2 s3 :
  only_own cid s1 s2 -> only_own cid s2 s3 -> only_own cid s1 s3.
Proof.
  intros [H1 [c1 T1]] [H2 [c2 T2]]. split.
  - intros id Hid. by rewrite H2, H1.
  - exists (c1 ++ c2). by rewrite T2, T1, fmap_app, app_assoc.
Qed.

Lemma only_own_perform_all s calls : only_own cid s (perform_all cid s calls).
Proof.
  split.
  - intros id _. by rewrite perform_all_channels.
  - eexists. apply perform_all_target_calls.
Qed.

Lemma only_own_SendFrame s b : only_own cid s (SendFrame s b).
Proof.
  split.
  - intros id _. by rewrite SendFrame_channels.
  - exists []. by rewrite SendFrame_target_calls, app_nil_r.
Qed.

Lemma only_own_run_on s r : only_own cid s (run_on s cid r).
Proof.
  split.
  - intros id Hid. rewrite run_on_channels. by apply lookup_insert_ne.
  - eexists. apply run_on_target_calls.
Qed.

Lemma only_own_RemoveChannel s : only_own cid s (RemoveChannel s cid).
Proof.
  destruct (m_channels s !! cid) as [ch|] eqn:Hch.
  - destruct (RemoveChannel_present s cid ch Hch) as (Hm & _ & Ht). split.
    + intros id Hid. rewrite Hm. by apply lookup_delete_ne.
    + eexists. exact Ht.
  - unfold RemoveChannel. rewrite Hch. apply only_own_refl.
Qed.

Lemma only_own_DispatchFrame env s f :
  channel_id (header f) = cid -> only_own cid s (DispatchFrame env s f).
Proof.
  intros Hcid. unfold DispatchFrame.
  destruct (type (header f)); try apply only_own_refl.
  - unfold HandleChannelOpen. cbv zeta. rewrite Hcid.
    eapply only_own_trans; [|apply only_own_run_on].
    match goal with
    | |- only_own cid s (set_channels ?s1 _) =>
        assert (H1 : only_own cid s s1)
    end.
    { destruct (m_channels s !! cid);
        [apply only_own_perform_all | apply only_own_refl]. }
    destruct H1 as [Hm Ht]. split; [|exact Ht].
    intros id Hid. cbn [m_channels set_channels].
    rewrite lookup_insert_ne by done. by apply Hm.
  - unfold HandleChannelRequest, FindChannel. rewrite Hcid.
    destruct (m_channels s !! cid);
      [apply only_own_run_on | apply only_own_refl].
  - unfold HandleData, FindChannel. rewrite Hcid.
    destruct (m_channels s !! cid);
      [apply only_own_run_on | apply only_own_refl].
  - unfold HandleChannelClose, FindChannel. cbv zeta. rewrite Hcid.
    destruct (m_channels s !! cid).
    + destruct (ChannelState_eqb _ _).
      * eapply only_own_trans;
          [apply only_own_run_on | apply only_own_RemoveChannel].
      * apply only_own_run_on.
    + apply only_own_SendFrame.
  - unfold HandleChannelCloseAck, FindChannel. cbv zeta. rewrite Hcid.
    destruct (m_channels s !! cid); [|apply only_own_refl].
    eapply only_own_trans;
      [apply only_own_run_on | apply only_own_RemoveChannel].
  - apply only_own_SendFrame.
  - unfold HandleWindowUpdate, FindChannel. rewrite Hcid.
    destruct (length (payload f) <? 4)%nat; [apply only_own_refl|].
    destruct (m_channels s !! cid);
      [apply only_own_run_on | apply only_own_refl].
Qed.
End isolation.

(** X19.  A frame concerns the channel it names and no other: dispatching
    it leaves every other entry of the registry as it was, and the calls it
    causes on outbound connections are calls on the connection of that
    channel. *)
Theorem frame_touches_own_channel env s f :
  let cid := channel_id (header f) in
  let s' := DispatchFrame env s f in
  (forall id, id <> cid -> m_channels s' !! id = m_channels s !! id) /\
  exists calls, target_calls s' = target_calls s ++ (pair cid <$> calls).
Proof. cbv zeta. by apply only_own_DispatchFrame. Qed.

(** ** Completion of the outbound connect *)

Lemma ErrorCode_is_Success_spec ec :
  ErrorCode_is_Success ec = true <-> ec = Success.
Proof. by destruct ec. Qed.

(** X20.  When the outbound connect of a [Connecting] channel completes,
    the peer gets a 10-byte SOCKS5 reply whose code is that of the error,
    and is the success code if and only if the connect succeeded.  On
    success the channel is [Relaying], keeps its connection and starts
    reading from it; on failure it sends CHANNEL_CLOSE with RST, releases
    the connection and is [Closed]. *)
Theorem connect_completion c ec :
  m_state c = Connecting -> is_Some (m_target c) ->
  let r := OnTargetConnected c ec in
  let code := Socks5.ErrorCodeToSocks5Reply ec in
  let reply :=
    SendChannelRequestAck (m_id c)
      [x05; code; x00; x01; x00; x00; x00; x00; x00; x00] 10 in
  (code = Socks5.REP_SUCCESS <-> ec = Success) /\
  (ec = Success ->
   r.2 = [reply; TargetStartReading] /\
   m_state r.1 = Relaying /\ m_target r.1 = m_target c) /\
  (ec <> Success ->
   r.2 = [reply; SendChannelClose (m_id c) FRAME_FLAG_RST; TargetDelete] /\
   m_state r.1 = Closed /\ m_target r.1 = None).
Proof.
  intros Es [t Ht]. cbv zeta. unfold OnTargetConnected. rewrite Es.
  cbn [ChannelState_eqb negb]. split_ok.
  - by destruct ec.
  - intros ->. cbn [ErrorCode_is_Success negb fst snd]. by split_ok.
  - intros Hec.
    destruct (ErrorCode_is_Success ec) eqn:E;
      [by apply ErrorCode_is_Success_spec in E|].
    cbn [negb fst snd m_target set_state set_target m_state]. rewrite Ht.
    by split_ok.
Qed.

(** The connect of channel 7 is refused. *)
Lemma connect_completion_witness :
  let c := set_state (relaying_channel 7 262144 262144) Connecting in
  (OnTargetConnected c ConnectionRefused).2
  = [SendChannelRequestAck 7
       [x05; x05; x00; x01; x00; x00; x00; x00; x00; x00] 10;
     SendChannelClose 7 FRAME_FLAG_RST; TargetDelete].
Proof.
  intros c.
  destruct (connect_completion c ConnectionRefused) as (_ & _ & H).
  - reflexivity.
  - by eexists.
  - by destruct H as (H & _).
Defined.

(** ** The outbound connection drops *)

(** X21.  When the connection of a [Relaying] or [Connecting] channel
    drops, the channel sends one CHANNEL_CLOSE with FIN, closes the
    connection it still owns and is [Closing].  From then on it ignores
    DATA and CHANNEL_REQUEST payloads, bytes and completions of the
    connection, and a further disconnect sends nothing to the peer. *)
Theorem target_disconnect_half_closes c ec :
  m_state c = Relaying \/ m_state c = Connecting ->
  let r := OnTargetDisconnected c ec in
  r.2 = SendChannelClose (m_id c) FRAME_FLAG_FIN
        :: match m_target c with Some _ => [TargetClose] | None => [] end /\
  r.1 = set_state c Closing /\
  (forall data, OnData r.1 data = (r.1, [])) /\
  (forall env data, OnRequest env r.1 data = (r.1, [])) /\
  (forall data, OnTargetData r.1 data = (r.1, [])) /\
  (forall ec', OnTargetConnected r.1 ec' = (r.1, [])) /\
  (forall ec', (OnTargetDisconnected r.1 ec').1 = r.1 /\
               mux_calls (OnTargetDisconnected r.1 ec').2 = []).
Proof.
  intros Hst. cbv zeta.
  assert (Hr : OnTargetDisconnected c ec
               = (set_state c Closing,
                  SendChannelClose (m_id c) FRAME_FLAG_FIN
                  :: match m_target c with
                     | Some _ => [TargetClose]
                     | None => []
                     end)).
  { unfold OnTargetDisconnected. by destruct Hst as [-> | ->]. }
  rewrite Hr. cbn [fst snd]. split_ok; try done.
  intros ec'. unfold OnTargetDisconnected. cbn [m_state set_state
    ChannelState_eqb orb fst snd m_target app].
  split; [done|]. by destruct (m_target c).
Qed.

(** The connection of relaying channel 7 is reset by the target. *)
Lemma target_disconnect_half_closes_witness :
  let c := relaying_channel 7 262144 262144 in
  (OnTargetDisconnected c ConnectionReset).2
  = [SendChannelClose 7 FRAME_FLAG_FIN; TargetClose] /\
  OnData (OnTargetDisconnected c ConnectionReset).1 [x61]
  = ((OnTargetDisconnected c ConnectionReset).1, []).
Proof.
  intros c.
  destruct (target_disconnect_half_closes c ConnectionReset)
    as (H1 & _ & H2 & _).
  - by left.
  - split; [exact H1 | exact (H2 [x61])].
Defined.

(** ** SOCKS5 replies *)

Lemma port_bytes_value p :
  256 * u8 (to_u8 (Z.shiftr p 8)) + u8 (to_u8 (Z.land p 255)) = p mod 65536.
Proof.
  rewrite !u8_to_u8. rewrite Z.shiftr_div_pow2 by lia.
  change 255 with (Z.ones 8). rewrite Z.land_ones by lia.
  change (2 ^ 8) with 256. Z.div_mod_to_equations. lia.
Qed.

(** X22.  [BuildConnectReply] always writes a reply that a SOCKS5 client can
    read: version 5, the reply code, a zero reserved byte, an address of
    type IPv4 (10 bytes in all) or IPv6 (22 bytes in all) and the port in
    network byte order.  The address is the one given, or zeros without
    one; an address type other than IPv4 and IPv6 is answered with the IPv4
    address 0.0.0.0. *)
Theorem BuildConnectReply_shape code atyp_ bind_addr bind_port :
  (forall a, bind_addr = Some a ->
             ((if Byte.eqb atyp_ Socks5.ATYP_IPV6 then 16 else 4) <= length a)%nat) ->
  let b := Socks5.BuildConnectReply code atyp_ bind_addr bind_port in
  let n := if Byte.eqb atyp_ Socks5.ATYP_IPV6 then 16%nat else 4%nat in
  take 4 b = [Socks5.VERSION; code; x00;
              if Byte.eqb atyp_ Socks5.ATYP_IPV6 then Socks5.ATYP_IPV6
              else Socks5.ATYP_IPV4] /\
  length b = (4 + n + 2)%nat /\
  take n (drop 4 b)
  = (if Byte.eqb atyp_ Socks5.ATYP_IPV4 || Byte.eqb atyp_ Socks5.ATYP_IPV6
     then match bind_addr with
          | Some a => take n a
          | None => replicate n x00
          end
     else replicate n x00) /\
  256 * u8 (at_ b (4 + n)) + u8 (at_ b (4 + n + 1)) = bind_port mod 65536.
Proof.
  intros Ha. cbv zeta. unfold Socks5.BuildConnectReply.
  pose proof (port_bytes_value bind_port) as Hp.
  destruct (Byte.eqb atyp_ Socks5.ATYP_IPV4) eqn:E4.
  { apply byte_eqb_eq in E4. subst atyp_.
    change (Byte.eqb Socks5.ATYP_IPV4 Socks5.ATYP_IPV6) with false in *.
    destruct bind_addr as [a|].
    - specialize (Ha a eq_refl). cbv iota in Ha.
      do 4 (destruct a as [|? a]; [simpl in Ha; lia|]).
      split_ok; try done.
    - split_ok; try done. }
  destruct (Byte.eqb atyp_ Socks5.ATYP_IPV6) eqn:E6.
  { destruct bind_addr as [a|].
    - specialize (Ha a eq_refl). cbv iota in Ha.
      do 16 (destruct a as [|? a]; [simpl in Ha; lia|]).
      split_ok; try done.
    - split_ok; try done. }
  split_ok; try done.
Qed.

(** The reply to a refused connect, with a bound IPv4 address. *)
Lemma BuildConnectReply_shape_witness :
  length (Socks5.BuildConnectReply Socks5.REP_CONNECTION_REFUSED
            Socks5.ATYP_IPV4 (Some [x7f; x00; x00; x01]) 1080) = 10%nat.
Proof.
  destruct (BuildConnectReply_shape Socks5.REP_CONNECTION_REFUSED
              Socks5.ATYP_IPV4 (Some [x7f; x00; x00; x01]) 1080)
    as (_ & H & _).
  - intros a [= <-]. cbn. lia.
  - exact H.
Defined.

(** ** Keepalive *)






(** ** Instances *)

(** A method selection offering NO_AUTH, with the start of the request
    behind it. *)
Lemma ParseMethodRequest_decided_witness :
  Socks5.ParseMethodRequest ([x05; x01; x00] ++ [x05; x01; x00; x03])
  = (3, true).
Proof.
  destruct (ParseMethodRequest_decided [x05; x01; x00]) as (_ & _ & H).
  apply H. vm_compute. discriminate.
Defined.

(** A request for 127.0.0.1:80, with bytes of the relayed stream behind
    it. *)
Lemma ParseConnectRequest_decided_witness :
  (Socks5.ParseConnectRequest
     ([x05; x01; x00; x01; x7f; x00; x00; x01; x00; x50] ++ [x47; x45; x54])
     Socks5.ConnectRequest_zero).1 = 10.
Proof.
  destruct (ParseConnectRequest_decided
              [x05; x01; x00; x01; x7f; x00; x00; x01; x00; x50]
              Socks5.ConnectRequest_zero) as (_ & H & _).
  rewrite H; [reflexivity|]. vm_compute. discriminate.
Defined.

(** Channel 7 is opened and asked, in one piece, to connect to
    example.org:443 without authentication. *)
Lemma handshake_starts_connect_witness :
  let c := (OnOpen (Channel_new 7 262144)).1 in
  let name := [x65; x78; x61; x6d; x70; x6c; x65; x2e; x6f; x72; x67] in
  let r := OnRequest connect_pending c
             (method_request [x00] ++
              connect_request Socks5.CMD_CONNECT x00 (AddrDomain name) 443) in
  r.2 = [SendChannelRequestAck 7 [x05; x00] 2; TargetConnectAsync name 443] /\
  m_state r.1 = Connecting.
Proof.
  intros c name r.
  pose proof (handshake_starts_connect connect_pending c [x00]
                Socks5.CMD_CONNECT x00 (AddrDomain name) 443
                eq_refl eq_refl eq_refl eq_refl) as H.
  cbv zeta in H.
  assert (Hlen : (length [x00] <= 255)%nat) by (cbn; lia).
  assert (Ha : valid_address (AddrDomain name)) by (cbn; lia).
  assert (Hp : 0 <= 443 < 65536) by lia.
  specialize (H Hlen Ha Hp). destruct H as (H1 & H2 & _).
  split; [exact H1 | exact H2].
Defined.

(** ** What a channel puts on the wire *)

Lemma Encode_prefix_wire t fl cid p len :
  0 <= len <= Z.of_nat (length p) ->
  Encode t fl cid (Some p) len
  = wire (frame_of t fl cid (take (Z.to_nat len) p)).
Proof.
  intros Hlen. unfold Encode, wire, frame_of. cbn [header payload].
  rewrite length_take, Nat.min_l, Z2Nat.id by lia.
  replace (Z.to_nat len - length p)%nat with 0%nat by lia.
  destruct (Z.ltb_spec 0 len) as [_|Hz]; [by rewrite app_nil_r|].
  by replace len with 0 by lia.
Qed.

Lemma Encode_empty_wire t fl cid :
  Encode t fl cid None 0 = wire (frame_of t fl cid []).
Proof. reflexivity. Qed.

Lemma frame_for_of t fl id p :
  0 <= id < 65536 -> Z.of_nat (length p) <= FRAME_MAX_PAYLOAD ->
  frame_for id (wire (frame_of t fl id p)).
Proof. intros Hid Hp. exists (frame_of t fl id p). by split; [apply wf_frame_of|]. Qed.

Lemma call_ok_frame id call b :
  0 <= id < 65536 -> call_ok id call -> call_frame call = Some b ->
  frame_for id b.
Proof.
  intros Hid Hok Hb.
  assert (He : Z.of_nat (length (@nil byte)) <= FRAME_MAX_PAYLOAD).
  { rewrite FRAME_MAX_PAYLOAD_val. simpl. lia. }
  destruct call; cbn [call_ok call_frame] in *; try discriminate;
    injection Hb as <-.
  - subst. unfold BuildChannelOpenAck. rewrite Encode_empty_wire.
    by apply frame_for_of.
  - destruct Hok as (-> & Hlen & Hmax).
    unfold BuildChannelRequestAck. rewrite Encode_prefix_wire by done.
    apply frame_for_of; [done|]. rewrite length_take. lia.
  - destruct Hok as (-> & Hlen & Hmax).
    unfold BuildData. rewrite Encode_prefix_wire by done.
    apply frame_for_of; [done|]. rewrite length_take. lia.
  - subst. unfold BuildChannelClose. rewrite Encode_empty_wire.
    by apply frame_for_of.
  - subst. unfold BuildChannelCloseAck. rewrite Encode_empty_wire.
    by apply frame_for_of.
  - destruct Hok as (-> & Hinc). unfold BuildWindowUpdate.
    change 4 with (Z.of_nat (length (le32_bytes increment))).
    rewrite Encode_wire. apply frame_for_of; [done|].
    rewrite FRAME_MAX_PAYLOAD_val. simpl. lia.
Qed.

Lemma calls_ok_frames id calls :
  0 <= id < 65536 -> Forall (call_ok id) calls ->
  Forall (frame_for id) (frames_of_calls calls).
Proof.
  intros Hid Hok. induction Hok as [|call calls Hcall Hcalls IH];
    [constructor|].
  change (frames_of_calls (call :: calls))
    with (match call_frame call with
          | Some b => b :: frames_of_calls calls
          | None => frames_of_calls calls
          end).
  destruct (call_frame call) as [b|] eqn:Hb; [|done].
  constructor; [|done]. by apply (call_ok_frame id call b).
Qed.

Lemma reply_size_ok n (b : ByteBuffer) :
  length b = n -> (n <= 22)%nat ->
  0 <= size32 b <= Z.of_nat (length b) /\ size32 b <= FRAME_MAX_PAYLOAD.
Proof.
  intros Hlen Hn. unfold size32. rewrite wrap32_small by lia.
  rewrite FRAME_MAX_PAYLOAD_val. lia.
Qed.

Lemma OnTargetConnected_calls_ok c ec :
  Forall (call_ok (m_id c)) (OnTargetConnected c ec).2.
Proof.
  unfold OnTargetConnected.
  destruct (negb (ChannelState_eqb (m_state c) Connecting)); [constructor|].
  destruct (negb (ErrorCode_is_Success ec)); cbn [snd SendCloseToMux].
  - calls_ok. by destruct (m_target _); calls_ok.
  - by calls_ok.
Qed.

Lemma ProcessSocks5_calls_ok env c :
  Forall (call_ok (m_id c)) (ProcessSocks5 env c).2.
Proof.
  assert (Hconnect : forall c1 calls,
    m_id c1 = m_id c -> Forall (call_ok (m_id c)) calls ->
    Forall (call_ok (m_id c))
      (match (inr (c1, calls) : (Channel * list Call) + (Channel * list Call))
       with
       | inl r => r
       | inr (c, calls) =>
           if (length (m_socks5_buf c) =? 0)%nat then (c, calls)
           else
             let '(consumed, req) :=
               Socks5.ParseConnectRequest (m_socks5_buf c) (m_connect_req c) in
             let c := set_connect_req c req in
             if consumed =? 0 then (c, calls)
             else if consumed <? 0 then
               let reply :=
                 Socks5.BuildConnectReply_default Socks5.REP_GENERAL_FAILURE in
               let calls :=
                 calls ++ [SendChannelRequestAck (m_id c) reply (size32 reply)]
                 ++ SendCloseToMux c FRAME_FLAG_RST in
               (set_state c Closed, calls)
             else
               let c := set_socks5_buf c
                          (drop (Z.to_nat consumed) (m_socks5_buf c)) in
               let c := set_state c Connecting in
               let calls := calls ++ match m_target c with
                                     | Some _ => [TargetDelete]
                                     | None => []
                                     end in
               let c := set_target c (Some TcpConnection_new) in
               let host := Socks5.host (m_connect_req c) in
               let port := Socks5.port (m_connect_req c) in
               let ec := env host port in
               let calls := calls ++ [TargetConnectAsync host port] in
               if negb (ErrorCode_is_Success ec) then
                 let '(c, calls') := OnTargetConnected c ec in
                 (c, calls ++ calls')
               else (c, calls)
       end).2).
  { intros c1 calls Hid Hcalls. cbv iota beta.
    destruct (length _ =? 0)%nat; [done|].
    destruct (Socks5.ParseConnectRequest _ _) as [n req]. cbv zeta.
    destruct (n =? 0); [done|]. destruct (n <? 0); cbn [snd SendCloseToMux].
    { unfold SendCloseToMux. cbn [m_id set_connect_req]. rewrite Hid.
      by calls_ok. }
    cbn [m_target set_state set_socks5_buf set_connect_req m_connect_req
         set_target].
    destruct (negb (ErrorCode_is_Success _)).
    - match goal with
      | |- context [OnTargetConnected ?c2 ?ec] =>
          pose proof (OnTargetConnected_calls_ok c2 ec) as Hc;
          destruct (OnTargetConnected c2 ec) as [c3 calls3]
      end.
      cbn [snd m_id set_target set_state set_socks5_buf set_connect_req] in *.
      rewrite Hid in Hc. calls_ok; try done. by destruct (m_target c1); calls_ok.
    - cbn [snd]. calls_ok; try done. by destruct (m_target c1); calls_ok. }
  unfold ProcessSocks5. cbv zeta.
  destruct (negb (m_method_done c)); [|by apply Hconnect; [|constructor]].
  destruct (Socks5.ParseMethodRequest _) as [n ok].
  destruct (n =? 0); [constructor|].
  destruct ((n <? 0) || negb ok).
  - cbn [snd SendCloseToMux]. by calls_ok.
  - apply Hconnect; [done|]. by calls_ok.
Qed.

(** X24.  Whatever a channel with a 16-bit id asks its session to send is a
    well-formed frame of that channel: every handler of the channel makes
    only calls whose frames carry the channel's id and at most 65536 bytes
    of payload, so that the frame codec of the peer decodes each of them. *)
Theorem channel_sends_well_formed_frames env c :
  0 <= m_id c < 65536 -> is_uint32 (m_send_window c) ->
  let sends (r : Channel * list Call) :=
    Forall (frame_for (m_id c)) (frames_of_calls r.2) in
  sends (OnOpen c) /\
  (forall data, sends (OnRequest env c data)) /\
  (forall data, sends (OnData c data)) /\
  (forall inc, sends (OnWindowUpdate c inc)) /\
  (forall fl, sends (OnClose c fl)) /\
  sends (ForceClose c) /\
  (forall ec, sends (OnTargetConnected c ec)) /\
  (forall data, sends (OnTargetData c data)) /\
  (forall ec, sends (OnTargetDisconnected c ec)).
Proof.
  intros Hid Hw. cbv zeta. split_ok.
  - apply calls_ok_frames; [done|]. unfold OnOpen. cbn [snd]. by calls_ok.
  - intros data. apply calls_ok_frames; [done|]. unfold OnRequest.
    destruct (negb _); [constructor|].
    apply (ProcessSocks5_calls_ok env
             (set_socks5_buf c (m_socks5_buf c ++ data))).
  - intros data. apply calls_ok_frames; [done|]. unfold OnData.
    destruct (negb _); [constructor|].
    cbn [m_recv_window_initial m_recv_consumed set_recv_consumed m_target
         m_recv_window m_id].
    destruct (_ <=? _); cbn [snd].
    + calls_ok; [by destruct (m_target c); calls_ok|].
      split; [done|]. apply wrap32_range.
    + by destruct (m_target c); calls_ok.
  - intros inc. constructor.
  - intros fl. apply calls_ok_frames; [done|]. unfold OnClose.
    destruct (m_target c); cbn [snd]; by calls_ok.
  - apply calls_ok_frames; [done|]. unfold ForceClose.
    destruct (ChannelState_eqb _ _); [constructor|].
    destruct (m_target c); cbn [snd]; by calls_ok.
  - intros ec. apply calls_ok_frames; [done|].
    apply OnTargetConnected_calls_ok.
  - intros data. unfold OnTargetData.
    destruct (negb _); [constructor|]. unfold SendToMux.
    destruct (SendToMux_loop_chunks (length data) (m_id c) (m_send_window c)
                data ltac:(done) Hw) as (chunks & _ & H2 & H3 & _).
    destruct (SendToMux_loop _ _ _ _) as [w calls]. cbn [snd] in *.
    rewrite H3. apply Forall_map. eapply Forall_impl; [exact H2|].
    intros p [_ Hp]. by apply frame_for_of.
  - intros ec. apply calls_ok_frames; [done|]. unfold OnTargetDisconnected.
    destruct (_ || _); cbn [snd SendCloseToMux m_target set_state];
      by destruct (m_target c); calls_ok.
Qed.

(** Relaying channel 7 passes the threshold of its receive window. *)
Lemma channel_sends_well_formed_frames_witness :
  let c := set_recv_consumed (relaying_channel 7 262144 262144) 131071 in
  Forall (frame_for 7) (frames_of_calls (OnData c [x61]).2).
Proof.
  intros c.
  destruct (channel_sends_well_formed_frames connect_pending c)
    as (_ & _ & H & _).
  - cbn. lia.
  - unfold is_uint32. cbn. lia.
  - exact (H [x61]).
Defined.

(** ** A proxied connection, from CHANNEL_OPEN to the relay *)

Lemma OnDataReceived_one_frame env s f :
  m_codec s = FrameCodec_new -> wf_frame f ->
  OnDataReceived env s (wire f) = DispatchFrame env s f.
Proof.
  intros Hcodec Hf. unfold OnDataReceived.
  rewrite Hcodec, Feed_new_wire by done.
  by rewrite <- Hcodec, set_codec_same.
Qed.

Lemma DispatchFrame_open_fresh env s f :
  type (header f) = FrameType_value ChannelOpen ->
  m_channels s !! channel_id (header f) = None ->
  let id := channel_id (header f) in
  DispatchFrame env s f
  = SendFrame
      (set_channels s
         (<[id := set_state (Channel_new id (m_channel_window_size s))
                            Requesting]> (m_channels s)))
      (BuildChannelOpenAck id).
Proof.
  intros Hty Hnone id. unfold DispatchFrame. rewrite Hty.
  cbn [FrameType_value]. unfold HandleChannelOpen. cbv zeta.
  rewrite Hnone. fold id. unfold run_on, OnOpen.
  cbn [fst snd perform_all fold_left perform m_id set_state Channel_new
       m_channels set_channels m_channel_window_size].
  by rewrite insert_insert_eq.
Qed.

(** X25.  The eight bytes of a CHANNEL_OPEN (type 01, flags 00, the id in
    little-endian order, length 0) for an id that is not in the registry,
    received by a session whose codec buffer is empty, register a new
    channel under that id: in state [Requesting], with an empty SOCKS5
    buffer, without a connection and with both windows at the configured
    size.  They are answered by exactly one CHANNEL_OPEN_ACK, the eight
    bytes 02 00, the id and a zero length (if the session can send);
    nothing else in the session changes and no connection is touched. *)
Theorem channel_open_registers env s id :
  m_codec s = FrameCodec_new -> 0 <= id < 65536 ->
  m_channels s !! id = None ->
  let ws := m_channel_window_size s in
  let s' := OnDataReceived env s
              [x01; x00; to_u8 id; to_u8 (id / 256); x00; x00; x00; x00] in
  m_channels s'
  = <[id := {| m_id := id; m_state := Requesting; m_socks5_buf := [];
               m_method_done := false;
               m_connect_req :=
                 {| Socks5.atyp := x00; Socks5.host := [];
                    Socks5.ipv4 := [x00; x00; x00; x00];
                    Socks5.ipv6 := [x00; x00; x00; x00; x00; x00; x00; x00;
                                    x00; x00; x00; x00; x00; x00; x00; x00];
                    Socks5.port := 0 |};
               m_target := None; m_send_window := ws; m_recv_window := ws;
               m_recv_window_initial := ws; m_recv_consumed := 0 |}]>
      (m_channels s) /\
  sent_frames s'
  = sent_frames s ++
    (if can_send s
     then [[x02; x00; to_u8 id; to_u8 (id / 256); x00; x00; x00; x00]]
     else []) /\
  target_calls s' = target_calls s /\
  same_control s s'.
Proof.
  intros Hcodec Hid Hnone ws s'.
  assert (Hs' : s' = SendFrame
            (set_channels s
               (<[id := set_state (Channel_new id ws) Requesting]>
                  (m_channels s)))
            (BuildChannelOpenAck id)).
  { subst s'.
    change [x01; x00; to_u8 id; to_u8 (id / 256); x00; x00; x00; x00]
      with (wire (frame_of ChannelOpen x00 id [])).
    rewrite OnDataReceived_one_frame by (done || by apply wf_frame_of).
    by rewrite DispatchFrame_open_fresh. }
  rewrite Hs', SendFrame_channels, SendFrame_sent, SendFrame_target_calls.
  split_ok; try done.
  eapply same_control_trans;
    [apply set_channels_control | apply SendFrame_control].
Qed.

(** Channel 7 is opened on a started session. *)
Lemma channel_open_registers_witness :
  let s := started_session 262144 30000 in
  let s' := OnDataReceived connect_pending s
              [x01; x00; x07; x00; x00; x00; x00; x00] in
  sent_frames s' = [[x02; x00; x07; x00; x00; x00; x00; x00]] /\
  m_channels s'
  = {[ 7 := {| m_id := 7; m_state := Requesting; m_socks5_buf := [];
               m_method_done := false;
               m_connect_req :=
                 {| Socks5.atyp := x00; Socks5.host := [];
                    Socks5.ipv4 := [x00; x00; x00; x00];
                    Socks5.ipv6 := [x00; x00; x00; x00; x00; x00; x00; x00;
                                    x00; x00; x00; x00; x00; x00; x00; x00];
                    Socks5.port := 0 |};
               m_target := None; m_send_window := 262144;
               m_recv_window := 262144; m_recv_window_initial := 262144;
               m_recv_consumed := 0 |} ]}.
Proof.
  intros s s'.
  destruct (channel_open_registers connect_pending s 7)
    as (Hm & Hs & _).
  - reflexivity.
  - lia.
  - reflexivity.
  - split; [exact Hs | exact Hm].
Defined.


Lemma started_session_facts ws ka :
  let s := started_session ws ka in
  m_codec s = FrameCodec_new /\ m_channels s = ∅ /\ sent_frames s = [] /\
  target_calls s = [] /\ can_send s = true /\ m_channel_window_size s = ws.
Proof.
  cbv zeta. unfold started_session, Start, StartKeepaliveTimer. cbv zeta.
  by destruct (_ <=? 0).
Qed.

Lemma hello_length methods cmd rsv a port :
  (length methods <= 255)%nat -> valid_address a ->
  Z.of_nat (length (method_request methods ++ connect_request cmd rsv a port))
  <= FRAME_MAX_PAYLOAD.
Proof.
  intros Hm Ha. rewrite FRAME_MAX_PAYLOAD_val, length_app.
  unfold method_request, connect_request. cbn [length app].
  rewrite !length_app. cbn [length].
  destruct a as [a|name|a]; cbn [valid_address address_bytes length] in *; lia.
Qed.

Lemma ProcessSocks5_keeps_windows env c :
  let c' := (ProcessSocks5 env c).1 in
  m_id c' = m_id c /\ m_send_window c' = m_send_window c /\
  m_recv_window c' = m_recv_window c /\
  m_recv_window_initial c' = m_recv_window_initial c /\
  m_recv_consumed c' = m_recv_consumed c.
Proof.
  cbv zeta. unfold ProcessSocks5.
  destruct (negb (m_method_done c)).
  - destruct (Socks5.ParseMethodRequest (m_socks5_buf c)) as [consumed ok].
    destruct (consumed =? 0); [done|].
    destruct ((consumed <? 0) || negb ok); [done|].
    cbn [m_socks5_buf set_method_done set_socks5_buf m_connect_req].
    destruct (length _ =? 0)%nat; [done|].
    destruct (Socks5.ParseConnectRequest _ _) as [consumed' req].
    destruct (consumed' =? 0); [done|]. destruct (consumed' <? 0); [done|].
    cbn. by destruct (negb (ErrorCode_is_Success _)).
  - destruct (length _ =? 0)%nat; [done|].
    destruct (Socks5.ParseConnectRequest _ _) as [consumed' req].
    destruct (consumed' =? 0); [done|]. destruct (consumed' <? 0); [done|].
    cbn. by destruct (negb (ErrorCode_is_Success _)).
Qed.

Lemma OnRequest_keeps_windows env c data :
  let c' := (OnRequest env c data).1 in
  m_id c' = m_id c /\ m_send_window c' = m_send_window c /\
  m_recv_window c' = m_recv_window c /\
  m_recv_window_initial c' = m_recv_window_initial c /\
  m_recv_consumed c' = m_recv_consumed c.
Proof.
  cbv zeta. unfold OnRequest. destruct (negb _); [done|].
  apply (ProcessSocks5_keeps_windows env
           (set_socks5_buf c (m_socks5_buf c ++ data))).
Qed.

(** The way to a relayed connection, in terms of the frame builders. *)
Lemma proxied_connection_frames env ws ka cid methods cmd rsv a port :
  0 <= cid < 65536 ->
  (length methods <= 255)%nat ->
  existsb (fun m => Byte.eqb m Socks5.AUTH_NONE) methods = true ->
  valid_address a -> 0 <= port < 65536 ->
  let req := parsed_request a port Socks5.ConnectRequest_zero in
  env (Socks5.host req) port = Success ->
  let hello := method_request methods ++ connect_request cmd rsv a port in
  let s1 := OnDataReceived env (started_session ws ka) (BuildChannelOpen cid) in
  let s2 := OnDataReceived env s1
              (BuildChannelRequest cid hello (Z.of_nat (length hello))) in
  let s3 := target_event s2 cid (fun c => OnTargetConnected c Success) in
  sent_frames s3
  = [BuildChannelOpenAck cid;
     BuildChannelRequestAck cid [x05; x00] 2;
     BuildChannelRequestAck cid
       [x05; x00; x00; x01; x00; x00; x00; x00; x00; x00] 10] /\
  target_calls s3
  = [(cid, TargetConnectAsync (Socks5.host req) port);
     (cid, TargetStartReading)] /\
  exists ch,
    m_channels s3 = {[ cid := ch ]} /\
    m_id ch = cid /\
    m_state ch = Relaying /\ is_Some (m_target ch) /\
    m_send_window ch = ws /\ m_recv_window ch = ws /\
    m_recv_window_initial ch = ws /\ m_recv_consumed ch = 0.
Proof.
  intros Hcid Hm Hauth Ha Hport req Henv hello s1 s2 s3.
  destruct (started_session_facts ws ka) as (Hc0 & Hm0 & Hs0 & Ht0 & Hcs0 & Hw0).
  set (s0 := started_session ws ka) in *.
  set (c1 := set_state (Channel_new cid ws) Requesting).
  (* CHANNEL_OPEN *)
  assert (H1 : s1 = SendFrame (set_channels s0 (<[cid := c1]> (m_channels s0)))
                      (BuildChannelOpenAck cid)).
  { subst s1. unfold BuildChannelOpen. rewrite Encode_empty_wire.
    rewrite OnDataReceived_one_frame by (done || by apply wf_frame_of).
    rewrite DispatchFrame_open_fresh; [|done|].
    - cbn [frame_of header channel_id]. by rewrite Hw0.
    - cbn [frame_of header channel_id]. by rewrite Hm0. }
  assert (Hc1 : m_codec s1 = FrameCodec_new).
  { rewrite H1.
    destruct (SendFrame_control (set_channels s0 (<[cid:=c1]> (m_channels s0)))
                (BuildChannelOpenAck cid)) as (_ & -> & _). exact Hc0. }
  assert (Hm1 : m_channels s1 = {[ cid := c1 ]}).
  { rewrite H1, SendFrame_channels. cbn [m_channels set_channels].
    rewrite Hm0. apply insert_empty. }
  assert (Hs1 : sent_frames s1 = [BuildChannelOpenAck cid]).
  { rewrite H1, SendFrame_sent.
    assert (can_send (set_channels s0 (<[cid:=c1]> (m_channels s0))) = true)
      as -> by (by destruct s0).
    assert (sent_frames (set_channels s0 (<[cid:=c1]> (m_channels s0))) = [])
      as -> by (by destruct s0).
    done. }
  assert (Ht1 : target_calls s1 = []).
  { rewrite H1, SendFrame_target_calls. by destruct s0. }
  assert (Hcs1 : can_send s1 = true).
  { rewrite H1, SendFrame_can_send. by destruct s0. }
  clearbody s1.
  (* CHANNEL_REQUEST *)
  pose proof (handshake_cases env c1 methods cmd rsv a port
                eq_refl eq_refl eq_refl eq_refl Hm Ha Hport) as Hh.
  cbv zeta in Hh. rewrite Hauth in Hh.
  change (m_connect_req c1) with Socks5.ConnectRequest_zero in Hh.
  fold req hello in Hh. rewrite Henv in Hh. cbn [ErrorCode_is_Success] in Hh.
  change (m_id c1) with cid in Hh.
  destruct Hh as (Hcalls & Hst2 & Htg2 & _ & _).
  set (r := OnRequest env c1 hello) in *.
  destruct (OnRequest_keeps_windows env c1 hello)
    as (Hid2 & Hsw2 & Hrw2 & Hri2 & Hrc2).
  fold r in Hid2, Hsw2, Hrw2, Hri2, Hrc2.
  cbn [c1 Channel_new set_state m_id m_send_window m_recv_window
       m_recv_window_initial m_recv_consumed]
    in Hid2, Hsw2, Hrw2, Hri2, Hrc2.
  assert (H2 : s2 = run_on s1 cid r).
  { subst s2. unfold BuildChannelRequest. rewrite Encode_wire.
    rewrite OnDataReceived_one_frame;
      [|done|apply wf_frame_of; [done|by apply hello_length]].
    unfold DispatchFrame, HandleChannelRequest, FindChannel.
    cbn [frame_of header type FrameType_value channel_id payload].
    by rewrite Hm1, lookup_singleton_eq. }
  assert (Hm2 : m_channels s2 = {[ cid := r.1 ]}).
  { rewrite H2, run_on_channels, Hm1. apply insert_singleton_eq. }
  assert (Hs2 : sent_frames s2
                = [BuildChannelOpenAck cid;
                   BuildChannelRequestAck cid [x05; x00] 2]).
  { rewrite H2, run_on_sent, Hs1, Hcs1, Hcalls. reflexivity. }
  assert (Ht2 : target_calls s2
                = [(cid, TargetConnectAsync (Socks5.host req) port)]).
  { rewrite H2, run_on_target_calls, Ht1, Hcalls. reflexivity. }
  assert (Hcs2 : can_send s2 = true).
  { by rewrite H2, run_on_can_send. }
  clearbody s2 r.
  (* the connect completes *)
  destruct Htg2 as [t Htg2].
  assert (H3 : s3 = run_on s2 cid
                      (set_state r.1 Relaying,
                       [SendChannelRequestAck cid
                          [x05; x00; x00; x01; x00; x00; x00; x00; x00; x00] 10;
                        TargetStartReading])).
  { subst s3. unfold target_event. rewrite Hm2, lookup_singleton_eq.
    unfold OnTargetConnected. rewrite Hst2, Hid2. reflexivity. }
  rewrite H3, run_on_sent, run_on_target_calls, run_on_channels.
  rewrite Hs2, Ht2, Hcs2, Hm2. cbn [fst snd].
  split_ok; try reflexivity.
  exists (set_state r.1 Relaying). split_ok.
  - apply insert_singleton_eq.
  - exact Hid2.
  - reflexivity.
  - cbn [m_target set_state]. rewrite Htg2. by eexists.
  - exact Hsw2.
  - exact Hrw2.
  - exact Hri2.
  - exact Hrc2.
Qed.

Lemma BuildChannelRequest_bytes cid p :
  BuildChannelRequest cid p (Z.of_nat (length p))
  = [x03; x00; to_u8 cid; to_u8 (cid / 256)]
    ++ le32_bytes (Z.of_nat (length p)) ++ p.
Proof. unfold BuildChannelRequest. by rewrite Encode_wire. Qed.

(** X26.  The whole way to a relayed connection, in bytes.  A started
    session receives the eight bytes of CHANNEL_OPEN for a channel, then a
    CHANNEL_REQUEST frame (type 03) carrying a SOCKS5 method selection that
    offers NO_AUTH and a request; the connect is started and then
    completes.  The session has then put on the transport CHANNEL_OPEN_ACK
    (type 02, no payload), a CHANNEL_REQUEST_ACK (type 04) with the method
    reply [05 00] and a CHANNEL_REQUEST_ACK with the ten bytes of the
    SOCKS5 success reply, in this order and nothing else; the only calls on
    connections are the connect to the host and port of the request and the
    start of reading; and the registry holds exactly this channel,
    [Relaying], owning its connection, with its windows at the configured
    size and nothing consumed. *)
Theorem proxied_connection_established env ws ka cid methods cmd rsv a port :
  0 <= cid < 65536 ->
  (length methods <= 255)%nat ->
  existsb (fun m => Byte.eqb m x00) methods = true ->
  valid_address a -> 0 <= port < 65536 ->
  env (host_text a) port = Success ->
  let hello := method_request methods ++ connect_request cmd rsv a port in
  let open := [x01; x00; to_u8 cid; to_u8 (cid / 256); x00; x00; x00; x00] in
  let request := [x03; x00; to_u8 cid; to_u8 (cid / 256)]
                 ++ le32_bytes (Z.of_nat (length hello)) ++ hello in
  let s1 := OnDataReceived env (started_session ws ka) open in
  let s2 := OnDataReceived env s1 request in
  let s3 := target_event s2 cid (fun c => OnTargetConnected c Success) in
  sent_frames s3
  = [[x02; x00; to_u8 cid; to_u8 (cid / 256); x00; x00; x00; x00];
     [x04; x00; to_u8 cid; to_u8 (cid / 256); x02; x00; x00; x00;
      x05; x00];
     [x04; x00; to_u8 cid; to_u8 (cid / 256); x0a; x00; x00; x00;
      x05; x00; x00; x01; x00; x00; x00; x00; x00; x00]] /\
  target_calls s3
  = [(cid, TargetConnectAsync (host_text a) port);
     (cid, TargetStartReading)] /\
  exists ch,
    m_channels s3 = {[ cid := ch ]} /\
    m_id ch = cid /\
    m_state ch = Relaying /\ is_Some (m_target ch) /\
    m_send_window ch = ws /\ m_recv_window ch = ws /\
    m_recv_window_initial ch = ws /\ m_recv_consumed ch = 0.
Proof.
  intros Hcid Hm Hauth Ha Hport Henv hello open request s1 s2 s3.
  assert (Hhost : Socks5.host
                    (parsed_request a port Socks5.ConnectRequest_zero)
                  = host_text a).
  { by rewrite parsed_request_text. }
  pose proof (proxied_connection_frames env ws ka cid methods cmd rsv
                a port Hcid Hm Hauth Ha Hport) as H.
  cbv zeta in H. rewrite Hhost in H. specialize (H Henv).
  rewrite BuildChannelRequest_bytes in H.
  destruct H as (Hs & Ht & ch & Hch & Hrest).
  split_ok.
  - exact Hs.
  - exact Ht.
  - exists ch. by split.
Qed.

(** Channel 7 of a started session is asked to connect to 127.0.0.1:80,
    and the connect succeeds. *)
Lemma proxied_connection_established_witness :
  let open := [x01; x00; x07; x00; x00; x00; x00; x00] in
  let request := [x03; x00; x07; x00; x0d; x00; x00; x00;
                  x05; x01; x00;
                  x05; x01; x00; x01; x7f; x00; x00; x01; x00; x50] in
  let s1 := OnDataReceived connect_pending (started_session 262144 30000)
              open in
  let s2 := OnDataReceived connect_pending s1 request in
  let s3 := target_event s2 7 (fun c => OnTargetConnected c Success) in
  sent_frames s3
  = [[x02; x00; x07; x00; x00; x00; x00; x00];
     [x04; x00; x07; x00; x02; x00; x00; x00; x05; x00];
     [x04; x00; x07; x00; x0a; x00; x00; x00;
      x05; x00; x00; x01; x00; x00; x00; x00; x00; x00]] /\
  target_calls s3
  = [(7, TargetConnectAsync
           [x31; x32; x37; x2e; x30; x2e; x30; x2e; x31] 80);
     (7, TargetStartReading)].
Proof.
  intros open request s1 s2 s3.
  assert (Hcid : 0 <= 7 < 65536) by lia.
  assert (Hm : (length [x00] <= 255)%nat) by (cbn; lia).
  assert (Ha : valid_address (AddrIPv4 [x7f; x00; x00; x01])) by reflexivity.
  assert (Hp : 0 <= 80 < 65536) by lia.
  destruct (proxied_connection_established connect_pending 262144 30000 7
              [x00] Socks5.CMD_CONNECT x00 (AddrIPv4 [x7f; x00; x00; x01]) 80
              Hcid Hm eq_refl Ha Hp eq_refl) as (Hs & Ht & _).
  split; [exact Hs | exact Ht].
Defined.

